(** * Video pipeline core: a shallow embedding and its properties

    The development follows the C++ sources of the pipeline core:
    - [buffer.h] / [buffer.cpp]: pixel formats, [FrameInfo], frames;
    - [block.h] / [block.cpp]: [BaseBlock] and its lifecycle state;
    - [video_sink.h] / [video_sink.cpp]: the bounded sink queue and its worker;
    - [video_source.h] / [video_source.cpp]: the frame-rate gate and [EmitFrame];
    - [test_pattern_source.cpp]: a concrete source with a generator thread;
    - [block_registry.cpp], [pipeline_manager.cpp]: block creation.

    Conventions.  Fixed-width unsigned integers are [Z] values with the
    wrap-around written out ([wrap32], [wrap64]).  Clock readings are inputs:
    every operation that calls [steady_clock::now()] takes the reading as an
    argument, in nanoseconds.  Calls that leave the object (the error
    callback, the delivery callback, condition-variable notifications) are
    recorded, in order, in a trace of [Event]s kept next to the object.
    Log output is not modelled. *)

From Stdlib Require Import ZArith Lia Sorted.
From Stdlib Require QArith.
From stdpp Require Import gmap strings list fin_maps pretty sorting.

Local Open Scope Z_scope.
#[local] Set Warnings "-clear-no-such-hyp".

(** ** Machine integers *)

Definition wrap32 (z : Z) : Z := z mod 2 ^ 32.
Definition wrap64 (z : Z) : Z := z mod 2 ^ 64.

(** The values a [uint32_t] field can hold. *)
Definition in_u32 (z : Z) : Prop := 0 <= z < 2 ^ 32.

(** ** buffer.h: pixel formats and frame metadata *)

Inductive PixelFormat :=
| UNKNOWN | RGB24 | BGR24 | RGBA32 | BGRA32
| YUV420P | NV12 | NV21 | YUYV | UYVY.

Record FrameInfo := {
  width : Z;                 (* uint32_t *)
  height : Z;                (* uint32_t *)
  stride : Z;                (* uint32_t *)
  pixel_format : PixelFormat;
  timestamp_us : Z;          (* uint64_t *)
  sequence_number : Z;       (* uint64_t *)
  is_hardware_buffer : bool;
  hw_handle : Z              (* void*, 0 is nullptr *)
}.

(** C++ evaluates [width * height * k] in [uint32_t]: each product wraps
    modulo 2^32, the division is unsigned, and only the final value is
    widened to [size_t]. *)
Definition mul_u32 (a b : Z) : Z := wrap32 (a * b).

Definition GetFrameSize (fi : FrameInfo) : Z :=
  let wh := mul_u32 (width fi) (height fi) in
  match pixel_format fi with
  | RGB24 | BGR24 => mul_u32 wh 3
  | RGBA32 | BGRA32 => mul_u32 wh 4
  | YUV420P => mul_u32 wh 3 / 2
  | NV12 | NV21 => mul_u32 wh 3 / 2
  | YUYV | UYVY => mul_u32 wh 2
  | UNKNOWN => 0
  end.

(** What the frame-size table of the data model asks for: the byte count
    of the image, with no machine arithmetic. *)
Definition frame_size_spec (pf : PixelFormat) (w h : Z) : Z :=
  match pf with
  | RGB24 | BGR24 => w * h * 3
  | RGBA32 | BGRA32 => w * h * 4
  | YUV420P | NV12 | NV21 => w * h * 3 / 2
  | YUYV | UYVY => w * h * 2
  | UNKNOWN => 0
  end.

Definition mkInfo (pf : PixelFormat) (w h : Z) : FrameInfo :=
  {| width := w; height := h; stride := 0; pixel_format := pf;
     timestamp_us := 0; sequence_number := 0;
     is_hardware_buffer := false; hw_handle := 0 |}.

(** A frame as the queue and the callbacks see it: its metadata and its
    byte size ([IBuffer::GetSize]).  Pixel bytes are not modelled.
    [VideoFramePtr] is a shared pointer; [None] is the null pointer. *)
Record Frame := {
  frame_info_ : FrameInfo;
  size_ : Z                  (* size_t *)
}.

Definition VideoFramePtr := option Frame.

Definition GetSize (f : Frame) : Z := size_ f.

(** [CreateVideoFrame]: no frame for a zero size or when the allocation
    throws ([alloc_ok = false]); otherwise [SetFrameInfo] fills the size. *)
Definition CreateVideoFrame (alloc_ok : bool) (info : FrameInfo) : VideoFramePtr :=
  let required_size := GetFrameSize info in
  if required_size =? 0 then None
  else if alloc_ok then Some {| frame_info_ := info; size_ := GetFrameSize info |}
  else None.

(** ** block.h / block.cpp: the block base *)

Inductive BlockState :=
| UNINITIALIZED | INITIALIZED | STARTING | RUNNING | STOPPING | STOPPED | ERROR.

Definition BlockState_eqb (a b : BlockState) : bool :=
  match a, b with
  | UNINITIALIZED, UNINITIALIZED | INITIALIZED, INITIALIZED
  | STARTING, STARTING | RUNNING, RUNNING | STOPPING, STOPPING
  | STOPPED, STOPPED | ERROR, ERROR => true
  | _, _ => false
  end.

(** The two [double] fields are kept as exact rationals; no result below
    depends on their values. *)
Record BlockStats := {
  frames_processed : Z;      (* uint64_t *)
  frames_dropped : Z;        (* uint64_t *)
  bytes_processed : Z;       (* uint64_t *)
  avg_fps : QArith_base.Q;
  avg_latency_ms : QArith_base.Q;
  queue_depth : Z;           (* uint32_t *)
  last_frame_time : Z        (* steady_clock time point, ns *)
}.

(** [BlockStats{}] followed by the assignment of [last_frame_time]. *)
Definition fresh_stats (now : Z) : BlockStats :=
  {| frames_processed := 0; frames_dropped := 0; bytes_processed := 0;
     avg_fps := QArith_base.Qmake 0 1; avg_latency_ms := QArith_base.Qmake 0 1;
     queue_depth := 0; last_frame_time := now |}.

Inductive ErrorCallback :=
| PipelineOnBlockError             (* the lambda installed by PipelineManager *)
| UserCallback (id : nat).

(** What a source's [frame_callback_] may hold: the lambda installed by
    [ConnectBlocks], which forwards to the named sink's [ProcessFrame], or
    a callback of the application. *)
Inductive FrameCallback :=
| RouteToSink (sink : string)
| UserFrameCallback (id : nat).

Inductive CondVar := queue_condition_ | queue_not_full_condition_.

(** Calls that leave the block, in program order. *)
Inductive Event :=
| EvErrorCallback (cb : ErrorCallback) (block : string) (error : string)
| EvFrameCallback (cb : FrameCallback) (frame : Frame)
| EvNotifyOne (cv : CondVar)
| EvNotifyAll (cv : CondVar).

Record BaseBlock := {
  name_ : string;
  type_ : string;
  state_ : BlockState;
  last_error_ : string;
  error_callback_ : option ErrorCallback;
  params_ : gmap string string;
  stats_ : BlockStats;
  trace_ : list Event
}.

Definition new_BaseBlock (now : Z) (name type : string) : BaseBlock :=
  {| name_ := name; type_ := type; state_ := UNINITIALIZED;
     last_error_ := ""; error_callback_ := None; params_ := ∅;
     stats_ := fresh_stats now; trace_ := [] |}.

Definition with_stats (st : BlockStats) (b : BaseBlock) : BaseBlock :=
  {| name_ := name_ b; type_ := type_ b; state_ := state_ b;
     last_error_ := last_error_ b; error_callback_ := error_callback_ b;
     params_ := params_ b; stats_ := st; trace_ := trace_ b |}.

Definition emit_event (e : Event) (b : BaseBlock) : BaseBlock :=
  {| name_ := name_ b; type_ := type_ b; state_ := state_ b;
     last_error_ := last_error_ b; error_callback_ := error_callback_ b;
     params_ := params_ b; stats_ := stats_ b; trace_ := trace_ b ++ [e] |}.

Definition GetName (b : BaseBlock) : string := name_ b.

Definition SetName (name : string) (b : BaseBlock) : BaseBlock :=
  {| name_ := name; type_ := type_ b; state_ := state_ b;
     last_error_ := last_error_ b; error_callback_ := error_callback_ b;
     params_ := params_ b; stats_ := stats_ b; trace_ := trace_ b |}.

Definition GetState (b : BaseBlock) : BlockState := state_ b.

Definition GetStateString (b : BaseBlock) : string :=
  match GetState b with
  | UNINITIALIZED => "UNINITIALIZED"
  | INITIALIZED => "INITIALIZED"
  | STARTING => "STARTING"
  | RUNNING => "RUNNING"
  | STOPPING => "STOPPING"
  | STOPPED => "STOPPED"
  | ERROR => "ERROR"
  end.

(** [std::to_string] of an unsigned integer. *)
Definition to_string (n : Z) : string := pretty n.

Definition SetState (st : BlockState) (b : BaseBlock) : BaseBlock :=
  {| name_ := name_ b; type_ := type_ b; state_ := st;
     last_error_ := last_error_ b; error_callback_ := error_callback_ b;
     params_ := params_ b; stats_ := stats_ b; trace_ := trace_ b |}.

Definition SetErrorCallback (cb : option ErrorCallback) (b : BaseBlock) : BaseBlock :=
  {| name_ := name_ b; type_ := type_ b; state_ := state_ b;
     last_error_ := last_error_ b; error_callback_ := cb;
     params_ := params_ b; stats_ := stats_ b; trace_ := trace_ b |}.

Definition GetLastError (b : BaseBlock) : string := last_error_ b.

(** [params_[key] = value; return true;] *)
Definition SetParameter (key value : string) (b : BaseBlock) : BaseBlock * bool :=
  ({| name_ := name_ b; type_ := type_ b; state_ := state_ b;
      last_error_ := last_error_ b; error_callback_ := error_callback_ b;
      params_ := <[key := value]> (params_ b); stats_ := stats_ b;
      trace_ := trace_ b |}, true).

(** [find], and the empty string when the key is absent. *)
Definition GetParameter (key : string) (b : BaseBlock) : string :=
  match params_ b !! key with
  | Some v => v
  | None => ""
  end.

Definition GetConfiguration (b : BaseBlock) : gmap string string := params_ b.

(** [SetError]: store the message, move to [ERROR], then call the error
    callback when one is installed. *)
Definition SetError (error : string) (b : BaseBlock) : BaseBlock :=
  let b1 := {| name_ := name_ b; type_ := type_ b; state_ := state_ b;
               last_error_ := error; error_callback_ := error_callback_ b;
               params_ := params_ b; stats_ := stats_ b; trace_ := trace_ b |} in
  let b2 := SetState ERROR b1 in
  match error_callback_ b2 with
  | Some cb => emit_event (EvErrorCallback cb (name_ b2) error) b2
  | None => b2
  end.

(** [GetStats]: a copy of the statistics, with [avg_fps] recomputed from
    whole seconds since the last frame. *)
Definition GetStats (now : Z) (b : BaseBlock) : BlockStats :=
  let st := stats_ b in
  let duration := Z.quot (now - last_frame_time st) 1000000000 in
  if (0 <? duration) && (0 <? frames_processed st) then
    {| frames_processed := frames_processed st;
       frames_dropped := frames_dropped st;
       bytes_processed := bytes_processed st;
       avg_fps := QArith_base.Qmake (frames_processed st) (Z.to_pos duration);
       avg_latency_ms := avg_latency_ms st;
       queue_depth := queue_depth st;
       last_frame_time := last_frame_time st |}
  else st.

Definition ResetStats (now : Z) (b : BaseBlock) : BaseBlock :=
  with_stats (fresh_stats now) b.

(** [UpdateStats(frame_processed, bytes, dropped)]. *)
Definition UpdateStats (now : Z) (frame_processed : bool) (bytes : Z)
    (dropped : bool) (b : BaseBlock) : BaseBlock :=
  let st := stats_ b in
  let st1 :=
    if frame_processed then
      let fp := wrap64 (frames_processed st + 1) in
      let elapsed := Z.quot (now - last_frame_time st) 1000 in
      {| frames_processed := fp;
         frames_dropped := frames_dropped st;
         bytes_processed := wrap64 (bytes_processed st + bytes);
         avg_fps := avg_fps st;
         avg_latency_ms :=
           if 1 <? fp then
             QArith_base.Qplus
               (QArith_base.Qmult (avg_latency_ms st) (QArith_base.Qmake 9 10))
               (QArith_base.Qmult (QArith_base.Qmake elapsed 1000)
                                  (QArith_base.Qmake 1 10))
           else avg_latency_ms st;
         queue_depth := queue_depth st;
         last_frame_time := now |}
    else st in
  let st2 :=
    if dropped then
      {| frames_processed := frames_processed st1;
         frames_dropped := wrap64 (frames_dropped st1 + 1);
         bytes_processed := bytes_processed st1;
         avg_fps := avg_fps st1;
         avg_latency_ms := avg_latency_ms st1;
         queue_depth := queue_depth st1;
         last_frame_time := last_frame_time st1 |}
    else st1 in
  with_stats st2 b.

Definition set_queue_depth (d : Z) (b : BaseBlock) : BaseBlock :=
  let st := stats_ b in
  with_stats {| frames_processed := frames_processed st;
                frames_dropped := frames_dropped st;
                bytes_processed := bytes_processed st;
                avg_fps := avg_fps st;
                avg_latency_ms := avg_latency_ms st;
                queue_depth := wrap32 d;
                last_frame_time := last_frame_time st |} b.

(** ** video_sink.h / video_sink.cpp: the sink base *)

Record BaseVideoSink := {
  sink_block : BaseBlock;
  input_format_ : FrameInfo;
  max_queue_depth_ : Z;          (* size_t *)
  is_blocking_ : bool;
  frame_queue_ : list Frame;     (* front of the queue is the head *)
  stop_worker_ : bool;
  worker_thread_ : bool          (* joinable(): a worker is attached *)
}.

Definition with_block (b : BaseBlock) (k : BaseVideoSink) : BaseVideoSink :=
  {| sink_block := b; input_format_ := input_format_ k;
     max_queue_depth_ := max_queue_depth_ k; is_blocking_ := is_blocking_ k;
     frame_queue_ := frame_queue_ k; stop_worker_ := stop_worker_ k;
     worker_thread_ := worker_thread_ k |}.

Definition with_queue (q : list Frame) (k : BaseVideoSink) : BaseVideoSink :=
  {| sink_block := sink_block k; input_format_ := input_format_ k;
     max_queue_depth_ := max_queue_depth_ k; is_blocking_ := is_blocking_ k;
     frame_queue_ := q; stop_worker_ := stop_worker_ k;
     worker_thread_ := worker_thread_ k |}.

Definition with_worker (stop joinable : bool) (k : BaseVideoSink) : BaseVideoSink :=
  {| sink_block := sink_block k; input_format_ := input_format_ k;
     max_queue_depth_ := max_queue_depth_ k; is_blocking_ := is_blocking_ k;
     frame_queue_ := frame_queue_ k; stop_worker_ := stop;
     worker_thread_ := joinable |}.

Definition on_block (f : BaseBlock -> BaseBlock) (k : BaseVideoSink) : BaseVideoSink :=
  with_block (f (sink_block k)) k.

(** The constructor: 640x480 RGB24, depth 10, blocking. *)
Definition new_BaseVideoSink (now : Z) (name type : string) : BaseVideoSink :=
  {| sink_block := new_BaseBlock now name type;
     input_format_ :=
       {| width := 640; height := 480; stride := mul_u32 640 3;
          pixel_format := RGB24; timestamp_us := 0; sequence_number := 0;
          is_hardware_buffer := false; hw_handle := 0 |};
     max_queue_depth_ := 10; is_blocking_ := true;
     frame_queue_ := []; stop_worker_ := false; worker_thread_ := false |}.

Definition queue_size (k : BaseVideoSink) : Z := Z.of_nat (length (frame_queue_ k)).

Definition GetQueueDepth (k : BaseVideoSink) : Z := queue_size k.
Definition GetMaxQueueDepth (k : BaseVideoSink) : Z := max_queue_depth_ k.
Definition IsBlocking (k : BaseVideoSink) : bool := is_blocking_ k.

Definition SetBlocking (blocking : bool) (k : BaseVideoSink) : BaseVideoSink :=
  {| sink_block := sink_block k; input_format_ := input_format_ k;
     max_queue_depth_ := max_queue_depth_ k; is_blocking_ := blocking;
     frame_queue_ := frame_queue_ k; stop_worker_ := stop_worker_ k;
     worker_thread_ := worker_thread_ k |}.

Definition SetMaxQueueDepth (depth : Z) (k : BaseVideoSink) : BaseVideoSink * bool :=
  if (depth =? 0) || (1000 <? depth) then
    (on_block (SetError ("Invalid queue depth: " +:+ to_string depth)) k, false)
  else
    ({| sink_block := sink_block k; input_format_ := input_format_ k;
        max_queue_depth_ := depth; is_blocking_ := is_blocking_ k;
        frame_queue_ := frame_queue_ k; stop_worker_ := stop_worker_ k;
        worker_thread_ := worker_thread_ k |}, true).

Definition SetInputFormat (format : FrameInfo) (k : BaseVideoSink) : BaseVideoSink * bool :=
  if BlockState_eqb (GetState (sink_block k)) RUNNING then
    (on_block (SetError "Cannot change input format while running") k, false)
  else
    ({| sink_block := sink_block k; input_format_ := format;
        max_queue_depth_ := max_queue_depth_ k; is_blocking_ := is_blocking_ k;
        frame_queue_ := frame_queue_ k; stop_worker_ := stop_worker_ k;
        worker_thread_ := worker_thread_ k |}, true).

(** *** Submission ([ProcessFrame])

    The producer thread either returns from the call or is parked in the
    wait on [queue_not_full_condition_]; a parked call is resumed by
    [ProcessFrame_wake] each time the thread is woken. *)

Inductive SubmitStatus :=
| Returned (r : bool)
| WaitingNotFull.

(** [frame_queue_.push(frame); stats_.queue_depth = size; notify_one]. *)
Definition enqueue (f : Frame) (k : BaseVideoSink) : BaseVideoSink * SubmitStatus :=
  let k1 := with_queue (frame_queue_ k ++ [f]) k in
  let k2 := on_block (set_queue_depth (queue_size k1)) k1 in
  let k3 := on_block (emit_event (EvNotifyOne queue_condition_)) k2 in
  (k3, Returned true).

(** The predicate of the wait in the blocking branch. *)
Definition space_or_stop (k : BaseVideoSink) : bool :=
  (queue_size k <? max_queue_depth_ k) || stop_worker_ k.

(** The code that follows the wait. *)
Definition after_wait (f : Frame) (k : BaseVideoSink) : BaseVideoSink * SubmitStatus :=
  if stop_worker_ k then (k, Returned false) else enqueue f k.

Definition ProcessFrame_wake (f : Frame) (k : BaseVideoSink)
    : BaseVideoSink * SubmitStatus :=
  if space_or_stop k then after_wait f k else (k, WaitingNotFull).

(** [frame_queue_.pop()] on an empty queue is undefined in C++; it can only
    be reached with [max_queue_depth_ = 0], which neither the constructor
    nor [SetMaxQueueDepth] produces.  The model leaves the queue empty. *)
Definition ProcessFrame (now : Z) (frame : VideoFramePtr) (k : BaseVideoSink)
    : BaseVideoSink * SubmitStatus :=
  match frame with
  | None => (k, Returned false)
  | Some f =>
    if negb (BlockState_eqb (GetState (sink_block k)) RUNNING) then
      (k, Returned false)
    else if max_queue_depth_ k <=? queue_size k then
      if negb (is_blocking_ k) then
        let k1 := with_queue (tail (frame_queue_ k)) k in
        let k2 := on_block (UpdateStats now false 0 true) k1 in
        enqueue f k2
      else ProcessFrame_wake f k
    else enqueue f k
  end.

(** *** Lifecycle of the sink *)

Section SinkInitialize.

(** [std::stoul(str, nullptr, base)]: the parsed value, or [None] when it
    throws. *)
Variable stoul : string -> Z -> option Z.

(** [None] stands for an exception of [std::stoul] leaving [Initialize].
    The parameters are read from the block ([GetParameter]), not from the
    argument, and the result of [SetMaxQueueDepth] is not looked at. *)
Definition Sink_Initialize (params : gmap string string) (k : BaseVideoSink)
    : option (BaseVideoSink * bool) :=
  let queue_depth_str := GetParameter "queue_depth" (sink_block k) in
  let blocking_str := GetParameter "blocking" (sink_block k) in
  let step1 :=
    if String.eqb queue_depth_str "" then Some k
    else match stoul queue_depth_str 10 with
         | Some n => Some (fst (SetMaxQueueDepth n k))
         | None => None
         end in
  match step1 with
  | None => None
  | Some k1 =>
    let k2 :=
      if String.eqb blocking_str "" then k1
      else SetBlocking (String.eqb blocking_str "true" || String.eqb blocking_str "1") k1 in
    Some (on_block (SetState INITIALIZED) k2, true)
  end.

End SinkInitialize.

Definition Sink_Start (k : BaseVideoSink) : BaseVideoSink * bool :=
  let st := GetState (sink_block k) in
  if negb (BlockState_eqb st INITIALIZED) && negb (BlockState_eqb st STOPPED) then
    (on_block (SetError ("Cannot start VideoSink from state: "
                         +:+ GetStateString (sink_block k))) k, false)
  else
    let k1 := on_block (SetState STARTING) k in
    let k2 := with_worker false true k1 in
    (on_block (SetState RUNNING) k2, true).

(** [Stop]: the join returns once the worker has left its loop; the frames
    still queued are then discarded. *)
Definition Sink_Stop (k : BaseVideoSink) : BaseVideoSink * bool :=
  if negb (BlockState_eqb (GetState (sink_block k)) RUNNING) then (k, true)
  else
    let k1 := on_block (SetState STOPPING) k in
    let k2 := with_worker true (worker_thread_ k1) k1 in
    let k3 := on_block (emit_event (EvNotifyAll queue_condition_)) k2 in
    let k4 := on_block (emit_event (EvNotifyAll queue_not_full_condition_)) k3 in
    let k5 := with_worker true false k4 in
    let k6 := with_queue [] k5 in
    (on_block (SetState STOPPED) k6, true).

Definition Sink_Shutdown (k : BaseVideoSink) : BaseVideoSink * bool :=
  let k1 := fst (Sink_Stop k) in
  (k1, true).

(** *** The worker thread *)

Inductive HookOutcome :=
| HookReturns (success : bool)
| HookThrows (what : string)       (* an exception derived from std::exception *)
| HookThrowsOther.                 (* any other thrown object *)

(** The pure virtual [ProcessFrameImpl] of the concrete sink, acting on the
    concrete sink's own state. *)
Class VideoSinkImpl (I : Type) := ProcessFrameImpl : I -> Frame -> I * HookOutcome.

Inductive WorkerStatus :=
| WorkerContinue        (* back to the loop test *)
| WorkerWaiting         (* parked on queue_condition_ *)
| WorkerExit            (* left the loop normally *)
| WorkerTerminate.      (* an exception left the thread function *)

Section Worker.

Context {I : Type} `{VideoSinkImpl I}.

Definition nonempty_or_stop (k : BaseVideoSink) : bool :=
  negb (queue_size k =? 0) || stop_worker_ k.

(** One pass through the loop body, entered each time the worker runs
    inside the wait. *)
Definition WorkerThread_body (now : Z) (ki : BaseVideoSink * I)
    : (BaseVideoSink * I) * WorkerStatus :=
  let k := fst ki in
  let i := snd ki in
  if negb (nonempty_or_stop k) then (ki, WorkerWaiting)
  else if stop_worker_ k && (queue_size k =? 0) then (ki, WorkerExit)
  else
    match frame_queue_ k with
    | [] => (ki, WorkerContinue)
    | f :: q =>
      let k1 := with_queue q k in
      let k2 := on_block (set_queue_depth (queue_size k1)) k1 in
      let k3 := on_block (emit_event (EvNotifyOne queue_not_full_condition_)) k2 in
      match ProcessFrameImpl i f with
      | (i', HookReturns success) =>
        ((on_block (UpdateStats now success (GetSize f) (negb success)) k3, i'),
         WorkerContinue)
      | (i', HookThrows _) =>
        ((on_block (UpdateStats now false 0 true) k3, i'), WorkerContinue)
      | (i', HookThrowsOther) => ((k3, i'), WorkerTerminate)
      end
    end.

(** [while (!stop_worker_.load()) { body }]. *)
Definition WorkerThread_iteration (now : Z) (ki : BaseVideoSink * I)
    : (BaseVideoSink * I) * WorkerStatus :=
  if stop_worker_ (fst ki) then (ki, WorkerExit)
  else WorkerThread_body now ki.

End Worker.

(** ** video_source.h / video_source.cpp: the source base *)

Record BaseVideoSource := {
  source_block : BaseBlock;
  output_format_ : FrameInfo;
  frame_rate_ : QArith_base.Q;           (* double *)
  buffer_count_ : Z;                     (* size_t *)
  frame_callback_ : option FrameCallback;
  last_frame_time_ : Z;                  (* steady_clock time point, ns *)
  frame_interval_ : Z                    (* microseconds *)
}.

Definition src_on_block (f : BaseBlock -> BaseBlock) (s : BaseVideoSource)
    : BaseVideoSource :=
  {| source_block := f (source_block s); output_format_ := output_format_ s;
     frame_rate_ := frame_rate_ s; buffer_count_ := buffer_count_ s;
     frame_callback_ := frame_callback_ s;
     last_frame_time_ := last_frame_time_ s;
     frame_interval_ := frame_interval_ s |}.

(** The constructor: 640x480 RGB24 at 30 frames per second; the time of
    the last emission starts at the clock's epoch. *)
Definition new_BaseVideoSource (now : Z) (name type : string) : BaseVideoSource :=
  {| source_block := new_BaseBlock now name type;
     output_format_ :=
       {| width := 640; height := 480; stride := mul_u32 640 3;
          pixel_format := RGB24; timestamp_us := 0; sequence_number := 0;
          is_hardware_buffer := false; hw_handle := 0 |};
     frame_rate_ := QArith_base.Qmake 30 1; buffer_count_ := 3;
     frame_callback_ := None; last_frame_time_ := 0;
     frame_interval_ := 33333 |}.

Definition SetFrameCallback (cb : option FrameCallback) (s : BaseVideoSource)
    : BaseVideoSource * bool :=
  ({| source_block := source_block s; output_format_ := output_format_ s;
      frame_rate_ := frame_rate_ s; buffer_count_ := buffer_count_ s;
      frame_callback_ := cb; last_frame_time_ := last_frame_time_ s;
      frame_interval_ := frame_interval_ s |}, true).

(** [Timer::GetCurrentTimestampUs]: the steady clock, in whole
    microseconds, as a [uint64_t]. *)
Definition GetCurrentTimestampUs (now : Z) : Z := wrap64 (Z.quot now 1000).

(** The frame-rate gate. *)
Definition ShouldEmitFrame (now : Z) (s : BaseVideoSource) : bool :=
  if QArith_base.Qle_bool (frame_rate_ s) (QArith_base.Qmake 0 1) then true
  else frame_interval_ s <=? Z.quot (now - last_frame_time_ s) 1000.

(** The clock readings taken during one call of [EmitFrame], in program
    order: by the gate, by the time stamp, by [GetStats], by [UpdateStats]
    and by the final assignment of [last_frame_time_]. *)
Record EmitClock := {
  t_gate : Z;
  t_stamp : Z;
  t_stats : Z;
  t_update : Z;
  t_last : Z
}.

(** The frame with its metadata stamped through the reference returned by
    [GetFrameInfo]. *)
Definition stamp (ts seq : Z) (f : Frame) : Frame :=
  let fi := frame_info_ f in
  {| frame_info_ :=
       {| width := width fi; height := height fi; stride := stride fi;
          pixel_format := pixel_format fi;
          timestamp_us := ts; sequence_number := seq;
          is_hardware_buffer := is_hardware_buffer fi;
          hw_handle := hw_handle fi |};
     size_ := size_ f |}.

Definition EmitFrame (c : EmitClock) (frame : VideoFramePtr) (s : BaseVideoSource)
    : BaseVideoSource :=
  match frame, frame_callback_ s with
  | Some f, Some cb =>
    if negb (ShouldEmitFrame (t_gate c) s) then
      src_on_block (UpdateStats (t_update c) false 0 true) s
    else
      let ts := GetCurrentTimestampUs (t_stamp c) in
      let seq :=
        wrap64 (frames_processed (GetStats (t_stats c) (source_block s)) + 1) in
      let f' := stamp ts seq f in
      let s1 := src_on_block (emit_event (EvFrameCallback cb f')) s in
      let s2 := src_on_block (UpdateStats (t_update c) true (GetSize f') false) s1 in
      {| source_block := source_block s2; output_format_ := output_format_ s2;
         frame_rate_ := frame_rate_ s2; buffer_count_ := buffer_count_ s2;
         frame_callback_ := frame_callback_ s2;
         last_frame_time_ := t_last c;
         frame_interval_ := frame_interval_ s2 |}
  | _, _ => s
  end.

(** A run of [EmitFrame] calls on one source. *)
Fixpoint emit_run (calls : list (EmitClock * VideoFramePtr)) (s : BaseVideoSource)
    : BaseVideoSource :=
  match calls with
  | [] => s
  | (c, frame) :: rest => emit_run rest (EmitFrame c frame s)
  end.

(** The frames handed to the delivery callback, oldest first, and their
    sequence numbers. *)
Fixpoint delivered (tr : list Event) : list Frame :=
  match tr with
  | [] => []
  | EvFrameCallback _ f :: rest => f :: delivered rest
  | _ :: rest => delivered rest
  end.

Definition delivered_seqs (tr : list Event) : list Z :=
  map (fun f => sequence_number (frame_info_ f)) (delivered tr).

Fixpoint strictly_increasing (l : list Z) : bool :=
  match l with
  | x :: ((y :: _) as rest) => (x <? y) && strictly_increasing rest
  | _ => true
  end.

(** ** test_pattern_source.h / test_pattern_source.cpp *)

Inductive TestPattern :=
| SOLID_COLOR | COLOR_BARS | CHECKERBOARD | GRADIENT | NOISE | MOVING_BOX.

Record TestPatternSource := {
  tps_source : BaseVideoSource;
  test_pattern_ : TestPattern;
  color_r_ : Z; color_g_ : Z; color_b_ : Z;     (* uint8_t *)
  generator_thread_ : bool;                     (* joinable() *)
  stop_generator_ : bool;
  frame_counter_ : Z                            (* uint32_t *)
}.

Definition tps_block (t : TestPatternSource) : BaseBlock :=
  source_block (tps_source t).

Definition tps_with_source (s : BaseVideoSource) (t : TestPatternSource)
    : TestPatternSource :=
  {| tps_source := s; test_pattern_ := test_pattern_ t;
     color_r_ := color_r_ t; color_g_ := color_g_ t; color_b_ := color_b_ t;
     generator_thread_ := generator_thread_ t;
     stop_generator_ := stop_generator_ t;
     frame_counter_ := frame_counter_ t |}.

Definition tps_on_block (f : BaseBlock -> BaseBlock) (t : TestPatternSource)
    : TestPatternSource :=
  tps_with_source (src_on_block f (tps_source t)) t.

Definition new_TestPatternSource (now : Z) : TestPatternSource :=
  {| tps_source := new_BaseVideoSource now "TestPatternSource" "TestPatternSource";
     test_pattern_ := COLOR_BARS;
     color_r_ := 255; color_g_ := 255; color_b_ := 255;
     generator_thread_ := false; stop_generator_ := false;
     frame_counter_ := 0 |}.

(** [Start].  The accepted branch assigns a new [std::thread] to
    [generator_thread_].  The model covers that assignment for a source
    whose generator is not attached ([generator_thread_ t = false]):
    assigning over a joinable thread calls [std::terminate], and what is
    proved about an accepted [Start] carries that condition. *)
Definition TPS_Start (t : TestPatternSource) : TestPatternSource * bool :=
  let st := GetState (tps_block t) in
  if BlockState_eqb st RUNNING then (t, true)
  else if negb (BlockState_eqb st INITIALIZED) && negb (BlockState_eqb st STOPPED) then
    (tps_on_block (SetError ("Cannot start from state: "
                             +:+ GetStateString (tps_block t))) t, false)
  else
    let t1 := tps_on_block (SetState STARTING) t in
    let t2 := {| tps_source := tps_source t1; test_pattern_ := test_pattern_ t1;
                 color_r_ := color_r_ t1; color_g_ := color_g_ t1;
                 color_b_ := color_b_ t1;
                 generator_thread_ := true; stop_generator_ := false;
                 frame_counter_ := 0 |} in
    (tps_on_block (SetState RUNNING) t2, true).

Definition TPS_Stop (t : TestPatternSource) : TestPatternSource * bool :=
  if negb (BlockState_eqb (GetState (tps_block t)) RUNNING) then (t, true)
  else
    let t1 := tps_on_block (SetState STOPPING) t in
    let t2 := {| tps_source := tps_source t1; test_pattern_ := test_pattern_ t1;
                 color_r_ := color_r_ t1; color_g_ := color_g_ t1;
                 color_b_ := color_b_ t1;
                 generator_thread_ := false; stop_generator_ := true;
                 frame_counter_ := frame_counter_ t1 |} in
    (tps_on_block (SetState STOPPED) t2, true).

Definition TPS_Shutdown (t : TestPatternSource) : TestPatternSource * bool :=
  (fst (TPS_Stop t), true).

(** *** Filling the frame ([GenerateFrame])

    The pattern code writes pixel bytes, which are not modelled, and leaves
    the metadata alone.  What matters to the loop is whether it returns: it
    has no defined behaviour when it divides by zero or writes past the
    [GetSize] bytes of the buffer.

    The loops over the pixels write [bytes_written_per_pixel] bytes at the
    index [(y * width + x) * bytes], computed in [uint32_t], for every
    [y < height] and [x < width]; all of them stay inside the buffer
    exactly when the product of the three, taken without wrapping, is at
    most the size of the buffer. *)
Definition bytes_written_per_pixel (format : PixelFormat) : Z :=
  match format with
  | RGB24 | BGR24 => 3
  | RGBA32 => 4
  | _ => 1
  end.

Definition pixel_loop_in_bounds (fmt : FrameInfo) (f : Frame) : bool :=
  width fmt * height fmt * bytes_written_per_pixel (pixel_format fmt) <=? GetSize f.

(** Whether [GenerateFrame] has defined behaviour on a frame.
    - [GenerateSolidColor] counts the pixels in [uint32_t] and indexes in
      [size_t]; for the other formats it is one [memset] of [GetSize]
      bytes.
    - [GenerateColorBars] divides by [width / 8] inside the loops.
    - [GenerateGradient] divides by [width], [height] and the 32-bit sum
      [width + height] inside the loops.
    - [GenerateNoise] writes [GetSize] bytes.
    - [GenerateMovingBox] divides by the 32-bit sum [width + height] before
      the loops, and writes inside the box only; the bound is checked for
      the whole frame, which asks more than the box needs only when the
      size of the frame has wrapped. *)
Definition GenerateFrame_defined (t : TestPatternSource) (f : Frame) : bool :=
  let fmt := output_format_ (tps_source t) in
  let w := width fmt in
  let h := height fmt in
  let in_loops := (0 <? w) && (0 <? h) in
  match test_pattern_ t with
  | SOLID_COLOR =>
    match pixel_format fmt with
    | RGB24 | BGR24 => mul_u32 w h * 3 <=? GetSize f
    | RGBA32 => mul_u32 w h * 4 <=? GetSize f
    | _ => true
    end
  | COLOR_BARS => negb (in_loops && (w / 8 =? 0)) && pixel_loop_in_bounds fmt f
  | CHECKERBOARD => pixel_loop_in_bounds fmt f
  | GRADIENT => negb (in_loops && (wrap32 (w + h) =? 0)) && pixel_loop_in_bounds fmt f
  | NOISE => true
  | MOVING_BOX => negb (wrap32 (w + h) =? 0) && pixel_loop_in_bounds fmt f
  end.

(** How a pass through the loop of [GeneratorThread] ends: the loop goes
    on, the thread leaves the loop, or [GenerateFrame] has no defined
    behaviour (in practice the process is lost: a division by zero or a
    write past the buffer). *)
Inductive GeneratorStatus := GeneratorContinue | GeneratorExit | GeneratorUndefined.

(** One pass through the loop of [GeneratorThread].  [t_loop] is the clock
    read by the thread's own gate test, [alloc_ok] tells whether the frame
    allocation succeeds. *)
Definition GeneratorThread_iteration (t_loop : Z) (alloc_ok : bool) (c : EmitClock)
    (t : TestPatternSource) : TestPatternSource * GeneratorStatus :=
  if stop_generator_ t then (t, GeneratorExit)
  else if negb (ShouldEmitFrame t_loop (tps_source t)) then (t, GeneratorContinue)
  else
    match CreateVideoFrame alloc_ok (output_format_ (tps_source t)) with
    | None => (t, GeneratorExit)
    | Some frame =>
      if negb (GenerateFrame_defined t frame) then (t, GeneratorUndefined)
      else
        let t1 := tps_with_source (EmitFrame c (Some frame) (tps_source t)) t in
        ({| tps_source := tps_source t1; test_pattern_ := test_pattern_ t1;
            color_r_ := color_r_ t1; color_g_ := color_g_ t1;
            color_b_ := color_b_ t1;
            generator_thread_ := generator_thread_ t1;
            stop_generator_ := stop_generator_ t1;
            frame_counter_ := wrap32 (frame_counter_ t1 + 1) |}, GeneratorContinue)
    end.

(** ** block_registry.cpp and pipeline_manager.cpp: creating the blocks *)

(** A block behind a [BlockPtr]: [dynamic_pointer_cast] tells sources,
    sinks and other blocks apart. *)
Inductive Block :=
| SourceBlock (t : TestPatternSource)
| SinkBlock (k : BaseVideoSink)
| PlainBlock (b : BaseBlock).

Definition block_base (blk : Block) : BaseBlock :=
  match blk with
  | SourceBlock t => tps_block t
  | SinkBlock k => sink_block k
  | PlainBlock b => b
  end.

Definition block_on_base (f : BaseBlock -> BaseBlock) (blk : Block) : Block :=
  match blk with
  | SourceBlock t => SourceBlock (tps_on_block f t)
  | SinkBlock k => SinkBlock (on_block f k)
  | PlainBlock b => PlainBlock (f b)
  end.

(** What a call of a registered factory does: it returns a block or a null
    pointer, or throws a [std::exception]. *)
Inductive BlockFactory :=
| FactoryReturns (blk : option Block)
| FactoryThrows (what : string).

Record BlockRegistry := { factories_ : gmap string BlockFactory }.

Definition RegisterBlock (type : string) (factory : BlockFactory) (r : BlockRegistry)
    : BlockRegistry * bool :=
  ({| factories_ := <[type := factory]> (factories_ r) |}, true).

Definition CreateBlock (type : string) (r : BlockRegistry) : option Block :=
  match factories_ r !! type with
  | None => None
  | Some (FactoryReturns (Some blk)) => Some blk
  | Some (FactoryReturns None) => None
  | Some (FactoryThrows _) => None
  end.

Definition CreateBlock_named (type name : string) (r : BlockRegistry) : option Block :=
  match CreateBlock type r with
  | Some blk => Some (block_on_base (SetName name) blk)
  | None => None
  end.

Record BlockDef := {
  bd_name : string;
  bd_type : string;
  bd_parameters : gmap string string
}.

Record Connection := {
  source_block_name : string;
  source_output : string;
  sink_block_name : string;
  sink_input : string
}.

Record PipelineConfig := {
  cfg_name : string;
  cfg_platform : string;
  cfg_blocks : list BlockDef;
  cfg_connections : list Connection;
  cfg_settings : gmap string string
}.

Record PipelineManager := {
  config_ : PipelineConfig;
  blocks_ : gmap string Block;
  is_running_ : bool;
  pm_error_callback_ : option ErrorCallback;
  pm_last_error_ : string
}.

Definition new_PipelineManager : PipelineManager :=
  {| config_ := {| cfg_name := ""; cfg_platform := "generic"; cfg_blocks := [];
                   cfg_connections := []; cfg_settings := ∅ |};
     blocks_ := ∅; is_running_ := false;
     pm_error_callback_ := Some PipelineOnBlockError;
     pm_last_error_ := "" |}.

Definition pm_with_blocks (m : gmap string Block) (pm : PipelineManager)
    : PipelineManager :=
  {| config_ := config_ pm; blocks_ := m; is_running_ := is_running_ pm;
     pm_error_callback_ := pm_error_callback_ pm;
     pm_last_error_ := pm_last_error_ pm |}.

Definition pm_with_error (e : string) (pm : PipelineManager) : PipelineManager :=
  {| config_ := config_ pm; blocks_ := blocks_ pm; is_running_ := is_running_ pm;
     pm_error_callback_ := pm_error_callback_ pm;
     pm_last_error_ := e |}.

Definition pm_with_config (c : PipelineConfig) (pm : PipelineManager)
    : PipelineManager :=
  {| config_ := c; blocks_ := blocks_ pm; is_running_ := is_running_ pm;
     pm_error_callback_ := pm_error_callback_ pm;
     pm_last_error_ := pm_last_error_ pm |}.

Definition create_error (d : BlockDef) : string :=
  "Failed to create block '" +:+ bd_name d +:+ "' of type '" +:+ bd_type d +:+ "'".

(** The loop of [CreateBlocks] over the block definitions. *)
Fixpoint CreateBlocks_loop (r : BlockRegistry) (defs : list BlockDef)
    (pm : PipelineManager) : PipelineManager * bool :=
  match defs with
  | [] => (pm, true)
  | d :: rest =>
    match CreateBlock_named (bd_type d) (bd_name d) r with
    | None => (pm_with_error (create_error d) pm, false)
    | Some blk =>
      let blk' := block_on_base (SetErrorCallback (pm_error_callback_ pm)) blk in
      CreateBlocks_loop r rest (pm_with_blocks (<[bd_name d := blk']> (blocks_ pm)) pm)
    end
  end.

(** Whether the destructor of a block returns.  A block owns its thread
    as a [std::thread] member, whose destructor calls [std::terminate] when
    the thread is still joinable.  [~BaseVideoSink] is defaulted, so a sink
    can be destroyed only with no worker attached.  [~TestPatternSource]
    calls [Stop] first, which joins the generator of a running source and
    does nothing in any other state.  [BaseBlock] owns no thread. *)
Definition destroys_cleanly (blk : Block) : bool :=
  match blk with
  | SourceBlock t =>
    BlockState_eqb (GetState (tps_block t)) RUNNING || negb (generator_thread_ t)
  | SinkBlock k => negb (worker_thread_ k)
  | PlainBlock _ => true
  end.

(** Every block of a map can be destroyed. *)
Definition releases_cleanly (m : gmap string Block) : Prop :=
  forall n blk, m !! n = Some blk -> destroys_cleanly blk = true.

(** [blocks_.clear()].  The map holds shared pointers: clearing it releases
    every block, and destroys the blocks the manager was the last owner of.
    The model gives the map after the call; it covers the call for a map
    that [releases_cleanly], where no destructor can end the process
    whoever else holds the blocks, and what is proved about a function that
    clears the map carries that condition. *)
Definition clear_blocks (pm : PipelineManager) : PipelineManager :=
  pm_with_blocks ∅ pm.

Definition CreateBlocks (r : BlockRegistry) (pm : PipelineManager)
    : PipelineManager * bool :=
  CreateBlocks_loop r (cfg_blocks (config_ pm)) (clear_blocks pm).

Section PipelineInitialize.

(** The two passes that follow the creation of the blocks.  They run only
    once [CreateBlocks] has succeeded; what is proved about a failed
    creation holds whatever they do. *)
Variable ConfigureBlocks : PipelineManager -> PipelineManager * bool.
Variable ConnectBlocks : PipelineManager -> PipelineManager * bool.


End PipelineInitialize.

(** Whether the registry yields an instance for a block definition. *)
Definition creatable (r : BlockRegistry) (d : BlockDef) : bool :=
  match CreateBlock (bd_type d) r with
  | Some _ => true
  | None => false
  end.

(** ** Predicates used in the statements *)

(** The bound of the sink queue. *)
Definition queue_bounded (k : BaseVideoSink) : Prop :=
  queue_size k <= max_queue_depth_ k.

(** [k'] is the sink right after frame [f] was pushed behind the queue [q]
    of a sink whose trace was [tr]: the depth statistic is the new queue
    size and the worker's condition variable was notified. *)
Definition enqueued (f : Frame) (q : list Frame) (tr : list Event)
    (k' : BaseVideoSink) : Prop :=
  frame_queue_ k' = q ++ [f] /\
  queue_depth (stats_ (sink_block k')) = wrap32 (queue_size k') /\
  trace_ (sink_block k') = tr ++ [EvNotifyOne queue_condition_].

(** How often the error callback was called. *)
Fixpoint error_callback_calls (tr : list Event) : nat :=
  match tr with
  | [] => 0%nat
  | EvErrorCallback _ _ _ :: rest => S (error_callback_calls rest)
  | _ :: rest => error_callback_calls rest
  end.

(** The sequence numbers delivered so far are strictly increasing and none
    exceeds the count of frames processed. *)
Definition sequence_invariant (s : BaseVideoSource) : Prop :=
  0 <= frames_processed (stats_ (source_block s)) /\
  strictly_increasing (delivered_seqs (trace_ (source_block s))) = true /\
  Forall (fun n => n <= frames_processed (stats_ (source_block s)))
         (delivered_seqs (trace_ (source_block s))).

(** ** Concrete objects used in the examples *)

(** A configuration parser that is never consulted: the example sinks carry
    no [queue_depth] parameter. *)
Definition no_stoul (_ : string) (_ : Z) : option Z := None.

Definition vga_frame : Frame :=
  {| frame_info_ := mkInfo RGB24 640 480; size_ := 921600 |}.

(** A 640x480 RGB24 frame carrying sequence number [n]. *)
Definition numbered_frame (n : Z) : Frame := stamp 0 n vga_frame.

(** A sink after construction, [SetErrorCallback] and [Initialize]. *)
Definition initialized_sink : BaseVideoSink :=
  match Sink_Initialize no_stoul ∅
          (on_block (SetErrorCallback (Some PipelineOnBlockError))
                    (new_BaseVideoSink 0 "sink" "ConsoleSink")) with
  | Some (k, _) => k
  | None => new_BaseVideoSink 0 "sink" "ConsoleSink"
  end.

(** The same sink, started, with three frames submitted and none consumed. *)
Definition running_sink_3 : BaseVideoSink :=
  let k0 := fst (Sink_Start initialized_sink) in
  let k1 := fst (ProcessFrame 10 (Some (numbered_frame 1)) k0) in
  let k2 := fst (ProcessFrame 20 (Some (numbered_frame 2)) k1) in
  fst (ProcessFrame 30 (Some (numbered_frame 3)) k2).

(** A non-blocking sink of depth 2, started, with two frames submitted and
    none consumed: its queue is full. *)
Definition full_dropping_sink : BaseVideoSink :=
  let k0 := SetBlocking false (fst (SetMaxQueueDepth 2 initialized_sink)) in
  let k1 := fst (Sink_Start k0) in
  let k2 := fst (ProcessFrame 10 (Some (numbered_frame 1)) k1) in
  fst (ProcessFrame 20 (Some (numbered_frame 2)) k2).

(** A concrete sink whose hook throws a [std::exception] on every frame. *)
Definition always_throwing : VideoSinkImpl unit :=
  fun _ _ => (tt, HookThrows "write failed").

(** A source after construction, [SetFrameCallback] and [Initialize] with
    no parameters (which ends in [SetState(INITIALIZED)]). *)
Definition initialized_source : TestPatternSource :=
  let t0 := new_TestPatternSource 0 in
  let t1 := tps_with_source (fst (SetFrameCallback (Some (RouteToSink "sink"))
                                                   (tps_source t0))) t0 in
  tps_on_block (SetState INITIALIZED) t1.

(** Clock readings for a call made [ms] milliseconds after the epoch. *)
Definition clock_at (ms : Z) : EmitClock :=
  let t := ms * 1000000 in
  {| t_gate := t; t_stamp := t; t_stats := t; t_update := t; t_last := t |}.

(** Start and one generated frame; then stop; then start again; then one
    more generated frame. *)
Definition first_run : TestPatternSource :=
  fst (GeneratorThread_iteration 100000000 true (clock_at 100)
         (fst (TPS_Start initialized_source))).

Definition stopped_source : TestPatternSource := fst (TPS_Stop first_run).

Definition restarted_source : TestPatternSource := fst (TPS_Start stopped_source).



(** Three calls of [EmitFrame], the second one 10 ms after the first. *)
Definition three_calls : list (EmitClock * VideoFramePtr) :=
  [ (clock_at 100, Some vga_frame);
    (clock_at 110, Some vga_frame);
    (clock_at 200, Some vga_frame) ].

(** A registry that knows the test pattern source only, and a pipeline of
    a source followed by a sink of an unregistered type. *)
Definition demo_registry : BlockRegistry :=
  fst (RegisterBlock "TestPatternSource"
         (FactoryReturns (Some (SourceBlock (new_TestPatternSource 0))))
         {| factories_ := ∅ |}).



(** ** Further operations of the sink *)

(** The worker left to run: one pass of the loop per clock reading, for as
    long as the passes end with the thread back at the loop test. *)
Fixpoint worker_run {I : Type} {impl : VideoSinkImpl I} (clock : list Z)
    (ki : BaseVideoSink * I) : (BaseVideoSink * I) * WorkerStatus :=
  match clock with
  | [] => (ki, WorkerContinue)
  | now :: rest =>
    match WorkerThread_iteration now ki with
    | (ki', WorkerContinue) => worker_run rest ki'
    | stopped => stopped
    end
  end.

(** A hook together with the list of the frames it was called with. *)
Definition recorded {I : Type} (impl : VideoSinkImpl I) : VideoSinkImpl (I * list Frame) :=
  fun st f =>
    let (i', outcome) := @ProcessFrameImpl I impl (fst st) f in
    ((i', snd st ++ [f]), outcome).

(** The frames a sink has accounted for: processed, dropped, or queued. *)
Definition accounted (k : BaseVideoSink) : Z :=
  frames_processed (stats_ (sink_block k))
  + frames_dropped (stats_ (sink_block k))
  + queue_size k.

(** Calls of the lifecycle interface, applied in sequence. *)
Inductive LifecycleOp := OpStart | OpStop | OpShutdown.

Definition Sink_apply (op : LifecycleOp) (k : BaseVideoSink) : BaseVideoSink * bool :=
  match op with
  | OpStart => Sink_Start k
  | OpStop => Sink_Stop k
  | OpShutdown => Sink_Shutdown k
  end.

Fixpoint Sink_lifecycle (ops : list LifecycleOp) (k : BaseVideoSink)
    : BaseVideoSink * list bool :=
  match ops with
  | [] => (k, [])
  | op :: rest =>
    let (k1, r) := Sink_apply op k in
    let (k2, rs) := Sink_lifecycle rest k1 in
    (k2, r :: rs)
  end.

Definition TPS_apply (op : LifecycleOp) (t : TestPatternSource)
    : TestPatternSource * bool :=
  match op with
  | OpStart => TPS_Start t
  | OpStop => TPS_Stop t
  | OpShutdown => TPS_Shutdown t
  end.

Fixpoint TPS_lifecycle (ops : list LifecycleOp) (t : TestPatternSource)
    : TestPatternSource * list bool :=
  match ops with
  | [] => (t, [])
  | op :: rest =>
    let (t1, r) := TPS_apply op t in
    let (t2, rs) := TPS_lifecycle rest t1 in
    (t2, r :: rs)
  end.

(** ** Further operations of the sources *)

Definition SetBufferCount (count : Z) (s : BaseVideoSource) : BaseVideoSource * bool :=
  if (count =? 0) || (100 <? count) then
    (src_on_block (SetError ("Invalid buffer count: " +:+ to_string count)) s, false)
  else
    ({| source_block := source_block s; output_format_ := output_format_ s;
        frame_rate_ := frame_rate_ s; buffer_count_ := count;
        frame_callback_ := frame_callback_ s;
        last_frame_time_ := last_frame_time_ s;
        frame_interval_ := frame_interval_ s |}, true).

(** The number of calls of a run that carry a frame. *)
Definition calls_with_frame (calls : list (EmitClock * VideoFramePtr)) : Z :=
  Z.of_nat (length (filter (fun call => is_Some (snd call)) calls)).

Definition TPS_SupportsFormat (format : PixelFormat) : bool :=
  match format with
  | RGB24 | BGR24 | RGBA32 | BGRA32 | YUV420P | YUYV => true
  | _ => false
  end.

Definition TPS_GetSupportedFormats : list PixelFormat :=
  [RGB24; BGR24; RGBA32; BGRA32; YUV420P; YUYV].

(** The stride filled in for a format given without one. *)
Definition default_stride (format : PixelFormat) (w : Z) : Z :=
  match format with
  | RGB24 | BGR24 => mul_u32 w 3
  | RGBA32 | BGRA32 => mul_u32 w 4
  | YUYV | UYVY => mul_u32 w 2
  | _ => w
  end.

Definition with_stride (st : Z) (fi : FrameInfo) : FrameInfo :=
  {| width := width fi; height := height fi; stride := st;
     pixel_format := pixel_format fi; timestamp_us := timestamp_us fi;
     sequence_number := sequence_number fi;
     is_hardware_buffer := is_hardware_buffer fi; hw_handle := hw_handle fi |}.

Definition TPS_GetOutputFormat (t : TestPatternSource) : FrameInfo :=
  output_format_ (tps_source t).

Definition TPS_SetOutputFormat (format : FrameInfo) (t : TestPatternSource)
    : TestPatternSource * bool :=
  if BlockState_eqb (GetState (tps_block t)) RUNNING then
    (tps_on_block (SetError "Cannot change output format while running") t, false)
  else if negb (TPS_SupportsFormat (pixel_format format)) then
    (tps_on_block (SetError "Unsupported pixel format") t, false)
  else
    let fmt :=
      if stride format =? 0
      then with_stride (default_stride (pixel_format format) (width format)) format
      else format in
    let s := tps_source t in
    (tps_with_source
       {| source_block := source_block s; output_format_ := fmt;
          frame_rate_ := frame_rate_ s; buffer_count_ := buffer_count_ s;
          frame_callback_ := frame_callback_ s;
          last_frame_time_ := last_frame_time_ s;
          frame_interval_ := frame_interval_ s |} t, true).

(** ** Further operations of the registry *)

Definition UnregisterBlock (type : string) (r : BlockRegistry) : BlockRegistry * bool :=
  match factories_ r !! type with
  | None => (r, false)
  | Some _ => ({| factories_ := delete type (factories_ r) |}, true)
  end.

Definition IsRegistered (type : string) (r : BlockRegistry) : bool :=
  match factories_ r !! type with
  | Some _ => true
  | None => false
  end.

Definition GetRegisteredCount (r : BlockRegistry) : Z :=
  Z.of_nat (size (factories_ r)).

(** ** Further operations of the pipeline manager *)

(** The block a successful pass of the loop of [CreateBlocks] stores for a
    definition: the registry's instance, renamed, with the manager's error
    callback installed. *)
Definition created_block (r : BlockRegistry) (cb : option ErrorCallback)
    (d : BlockDef) : option Block :=
  match CreateBlock_named (bd_type d) (bd_name d) r with
  | Some blk => Some (block_on_base (SetErrorCallback cb) blk)
  | None => None
  end.

Definition GetBlock (name : string) (pm : PipelineManager) : option Block :=
  blocks_ pm !! name.

Definition IsRunning (pm : PipelineManager) : bool := is_running_ pm.

(** [std::map] is traversed in the order of its keys; [std::string]
    compares byte by byte, a proper prefix first. *)
Definition name_le (p q : string * Block) : Prop := String.leb (fst p) (fst q) = true.

#[global] Instance name_le_dec (p q : string * Block) : Decision (name_le p q).
Proof. unfold name_le. apply bool_eq_dec. Defined.

Definition blocks_in_order (m : gmap string Block) : list (string * Block) :=
  merge_sort name_le (map_to_list m).

Definition is_source (blk : Block) : bool :=
  match blk with SourceBlock _ => true | _ => false end.

Definition is_sink (blk : Block) : bool :=
  match blk with SinkBlock _ => true | _ => false end.

Definition is_other (blk : Block) : bool :=
  match blk with PlainBlock _ => true | _ => false end.

(** The three vectors built by [Start] and [Stop]. *)
Definition sources_of (l : list (string * Block)) : list (string * Block) :=
  List.filter (fun p => is_source (snd p)) l.

Definition sinks_of (l : list (string * Block)) : list (string * Block) :=
  List.filter (fun p => is_sink (snd p)) l.

Definition others_of (l : list (string * Block)) : list (string * Block) :=
  List.filter (fun p => is_other (snd p)) l.

Definition pm_with_running (b : bool) (pm : PipelineManager) : PipelineManager :=
  {| config_ := config_ pm; blocks_ := blocks_ pm; is_running_ := b;
     pm_error_callback_ := pm_error_callback_ pm;
     pm_last_error_ := pm_last_error_ pm |}.

Section PipelineLifecycle.

(** The lifecycle methods of a block that is neither a source nor a sink
    are those of its own class. *)
Variable Plain_Start : BaseBlock -> BaseBlock * bool.
Variable Plain_Stop : BaseBlock -> BaseBlock * bool.
Variable Plain_Shutdown : BaseBlock -> BaseBlock * bool.

Definition Block_Start (blk : Block) : Block * bool :=
  match blk with
  | SourceBlock t => (SourceBlock (fst (TPS_Start t)), snd (TPS_Start t))
  | SinkBlock k => (SinkBlock (fst (Sink_Start k)), snd (Sink_Start k))
  | PlainBlock b => (PlainBlock (fst (Plain_Start b)), snd (Plain_Start b))
  end.

Definition Block_Stop (blk : Block) : Block * bool :=
  match blk with
  | SourceBlock t => (SourceBlock (fst (TPS_Stop t)), snd (TPS_Stop t))
  | SinkBlock k => (SinkBlock (fst (Sink_Stop k)), snd (Sink_Stop k))
  | PlainBlock b => (PlainBlock (fst (Plain_Stop b)), snd (Plain_Stop b))
  end.

Definition Block_Shutdown (blk : Block) : Block * bool :=
  match blk with
  | SourceBlock t => (SourceBlock (fst (TPS_Shutdown t)), snd (TPS_Shutdown t))
  | SinkBlock k => (SinkBlock (fst (Sink_Shutdown k)), snd (Sink_Shutdown k))
  | PlainBlock b => (PlainBlock (fst (Plain_Shutdown b)), snd (Plain_Shutdown b))
  end.

(** One of the three start loops: each block of the vector is started
    through its pointer, and the first failure ends [Start]. *)
Fixpoint start_blocks (what : string) (l : list (string * Block))
    (pm : PipelineManager) : PipelineManager * bool :=
  match l with
  | [] => (pm, true)
  | (n, blk) :: rest =>
    let blk' := fst (Block_Start blk) in
    let pm' := pm_with_blocks (<[n := blk']> (blocks_ pm)) pm in
    if snd (Block_Start blk) then start_blocks what rest pm'
    else (pm_with_error ("Failed to start " +:+ what +:+ ": "
                         +:+ GetName (block_base blk')) pm', false)
  end.

(** One of the three stop loops; the results are not looked at. *)
Fixpoint stop_blocks (l : list (string * Block)) (pm : PipelineManager)
    : PipelineManager :=
  match l with
  | [] => pm
  | (n, blk) :: rest =>
    stop_blocks rest (pm_with_blocks (<[n := fst (Block_Stop blk)]> (blocks_ pm)) pm)
  end.

Fixpoint shutdown_blocks (l : list (string * Block)) (pm : PipelineManager)
    : PipelineManager :=
  match l with
  | [] => pm
  | (n, blk) :: rest =>
    shutdown_blocks rest
      (pm_with_blocks (<[n := fst (Block_Shutdown blk)]> (blocks_ pm)) pm)
  end.

Definition PM_Start (pm : PipelineManager) : PipelineManager * bool :=
  match map_to_list (blocks_ pm) with
  | [] => (pm_with_error "No blocks to start. Call Initialize() first." pm, false)
  | _ :: _ =>
    if is_running_ pm then (pm, true)
    else
      let l := blocks_in_order (blocks_ pm) in
      let (pm1, ok1) := start_blocks "sink" (sinks_of l) pm in
      if negb ok1 then (pm1, false)
      else
        let (pm2, ok2) := start_blocks "block" (others_of l) pm1 in
        if negb ok2 then (pm2, false)
        else
          let (pm3, ok3) := start_blocks "source" (sources_of l) pm2 in
          if negb ok3 then (pm3, false)
          else (pm_with_running true pm3, true)
  end.

Definition PM_Stop (pm : PipelineManager) : PipelineManager * bool :=
  if negb (is_running_ pm) then (pm, true)
  else
    let l := blocks_in_order (blocks_ pm) in
    let pm1 := stop_blocks (sources_of l) pm in
    let pm2 := stop_blocks (others_of l) pm1 in
    let pm3 := stop_blocks (sinks_of l) pm2 in
    (pm_with_running false pm3, true).

(** The first part of [Shutdown]: [Stop], then [Shutdown] of every block in
    the order of the map.  This is the manager on which [blocks_.clear()]
    is called. *)
Definition shut_down_blocks (pm : PipelineManager) : PipelineManager :=
  let pm1 := fst (PM_Stop pm) in
  shutdown_blocks (blocks_in_order (blocks_ pm1)) pm1.

(** [Shutdown]: stop, shut every block down, then drop the blocks (see
    [clear_blocks] for what that asks of them) and the configuration. *)
Definition PM_Shutdown (pm : PipelineManager) : PipelineManager * bool :=
  let pm2 := clear_blocks (shut_down_blocks pm) in
  ({| config_ := {| cfg_name := ""; cfg_platform := "generic"; cfg_blocks := [];
                    cfg_connections := []; cfg_settings := ∅ |};
      blocks_ := blocks_ pm2; is_running_ := is_running_ pm2;
      pm_error_callback_ := pm_error_callback_ pm2;
      pm_last_error_ := pm_last_error_ pm2 |}, true).

End PipelineLifecycle.

Section PipelineConnect.

(** [SupportsFormat] of the concrete sink class. *)
Variable Sink_SupportsFormat : BaseVideoSink -> PixelFormat -> bool.

(** What [ConnectBlocks] does with a connection once both casts have
    succeeded: the source gets a callback that routes to the sink, and the
    sink takes the output format of the source when it supports it (the
    result of [SetInputFormat] is not looked at). *)
Definition connect_pair (c : Connection) (t : TestPatternSource) (k : BaseVideoSink)
    (pm : PipelineManager) : PipelineManager :=
  let t' := tps_with_source
              (fst (SetFrameCallback (Some (RouteToSink (sink_block_name c)))
                                     (tps_source t))) t in
  let output_format := TPS_GetOutputFormat t' in
  let k' := if Sink_SupportsFormat k (pixel_format output_format)
            then fst (SetInputFormat output_format k)
            else k in
  pm_with_blocks
    (<[sink_block_name c := SinkBlock k']>
       (<[source_block_name c := SourceBlock t']> (blocks_ pm))) pm.

(** The loop of [ConnectBlocks] over the connections. *)
Fixpoint ConnectBlocks_loop (conns : list Connection) (pm : PipelineManager)
    : PipelineManager * bool :=
  match conns with
  | [] => (pm, true)
  | c :: rest =>
    match blocks_ pm !! source_block_name c, blocks_ pm !! sink_block_name c with
    | None, _ =>
      (pm_with_error ("Source block not found: " +:+ source_block_name c) pm, false)
    | Some _, None =>
      (pm_with_error ("Sink block not found: " +:+ sink_block_name c) pm, false)
    | Some (SourceBlock t), Some (SinkBlock k) =>
      ConnectBlocks_loop rest (connect_pair c t k pm)
    | Some (SourceBlock _), Some _ =>
      (pm_with_error ("Block '" +:+ sink_block_name c +:+ "' is not a video sink") pm,
       false)
    | Some _, Some _ =>
      (pm_with_error ("Block '" +:+ source_block_name c +:+ "' is not a video source")
                     pm, false)
    end
  end.

Definition ConnectBlocks (pm : PipelineManager) : PipelineManager * bool :=
  ConnectBlocks_loop (cfg_connections (config_ pm)) pm.

End PipelineConnect.

(** A block whose thread, if any, is joined by its [Stop]: it is running,
    or it has no thread attached. *)
Definition stops_cleanly (blk : Block) : bool :=
  match blk with
  | SourceBlock t =>
    BlockState_eqb (GetState (tps_block t)) RUNNING || negb (generator_thread_ t)
  | SinkBlock k =>
    BlockState_eqb (GetState (sink_block k)) RUNNING || negb (worker_thread_ k)
  | PlainBlock _ => true
  end.

(** What the two [dynamic_pointer_cast]s of the manager find at a name:
    whether the block there is a source, and whether it is a sink. *)
Definition casts_at (n : string) (pm : PipelineManager) : option (bool * bool) :=
  (fun blk => (is_source blk, is_sink blk)) <$> GetBlock n pm.

(** A connection passes the four checks of [ConnectBlocks] when its source
    name holds a source and its sink name holds a sink. *)
Definition connects (c : Connection) (pm : PipelineManager) : bool :=
  match GetBlock (source_block_name c) pm, GetBlock (sink_block_name c) pm with
  | Some (SourceBlock _), Some (SinkBlock _) => true
  | _, _ => false
  end.

(** The message of the first check a connection does not pass, in the
    order of the checks: source found, sink found, source cast, sink cast. *)
Definition connect_error (c : Connection) (pm : PipelineManager) : string :=
  match GetBlock (source_block_name c) pm, GetBlock (sink_block_name c) pm with
  | None, _ => "Source block not found: " +:+ source_block_name c
  | Some _, None => "Sink block not found: " +:+ sink_block_name c
  | Some src, Some snk =>
    if negb (is_source src)
    then "Block '" +:+ source_block_name c +:+ "' is not a video source"
    else "Block '" +:+ sink_block_name c +:+ "' is not a video sink"
  end.

(** The common shape of the stop and shutdown loops: every block of the
    vector is replaced in the map by its image under [g]. *)
Fixpoint update_blocks (g : Block -> Block) (l : list (string * Block))
    (pm : PipelineManager) : PipelineManager :=
  match l with
  | [] => pm
  | (n, blk) :: rest =>
    update_blocks g rest (pm_with_blocks (<[n := g blk]> (blocks_ pm)) pm)
  end.

(** ** buffer.cpp: the planes of a [SimpleBuffer]

    The plane functions look at the frame metadata and the byte size only.
    [plane] is an [int].  A plane pointer is given as its byte offset from
    [data_], [None] for [nullptr]; [data_] itself is never null in a
    constructed buffer, since the constructor throws when the allocation
    fails.  The products are those of [uint32_t]. *)
Definition GetPlaneCount (f : Frame) : Z :=
  match pixel_format (frame_info_ f) with
  | YUV420P => 3
  | NV12 | NV21 => 2
  | _ => 1
  end.

Definition GetPlaneData (plane : Z) (f : Frame) : option Z :=
  let wh := mul_u32 (width (frame_info_ f)) (height (frame_info_ f)) in
  if plane <? 0 then None
  else
    match pixel_format (frame_info_ f) with
    | RGB24 | BGR24 | RGBA32 | BGRA32 | YUYV | UYVY =>
      if plane =? 0 then Some 0 else None
    | YUV420P =>
      if plane =? 0 then Some 0
      else if plane =? 1 then Some wh
      else if plane =? 2 then Some (mul_u32 wh 5 / 4)
      else None
    | NV12 | NV21 =>
      if plane =? 0 then Some 0
      else if plane =? 1 then Some wh
      else None
    | UNKNOWN => None
    end.

Definition GetPlaneSize (plane : Z) (f : Frame) : Z :=
  let wh := mul_u32 (width (frame_info_ f)) (height (frame_info_ f)) in
  match pixel_format (frame_info_ f) with
  | YUV420P =>
    if plane =? 0 then wh
    else if (plane =? 1) || (plane =? 2) then wh / 4
    else 0
  | NV12 | NV21 =>
    if plane =? 0 then wh
    else if plane =? 1 then wh / 2
    else 0
  | _ => if plane =? 0 then GetSize f else 0
  end.

Definition GetPlaneStride (plane : Z) (f : Frame) : Z :=
  let w := width (frame_info_ f) in
  match pixel_format (frame_info_ f) with
  | RGB24 | BGR24 => if plane =? 0 then mul_u32 w 3 else 0
  | RGBA32 | BGRA32 => if plane =? 0 then mul_u32 w 4 else 0
  | YUV420P =>
    if plane =? 0 then w
    else if (plane =? 1) || (plane =? 2) then w / 2
    else 0
  | NV12 | NV21 =>
    if plane =? 0 then w
    else if plane =? 1 then w
    else 0
  | YUYV | UYVY => if plane =? 0 then mul_u32 w 2 else 0
  | UNKNOWN => 0
  end.

(** ** Concrete pipelines used in the examples *)

(** A lifecycle method of a plain block that succeeds and changes nothing. *)
Definition plain_ok (b : BaseBlock) : BaseBlock * bool := (b, true).

(** A sink that takes every format, as the sinks of the repository do. *)
Definition any_format (_ : BaseVideoSink) (_ : PixelFormat) : bool := true.

(** A manager holding an initialized sink and an initialized source. *)
Definition ready_pipeline : PipelineManager :=
  pm_with_blocks
    (<["src" := SourceBlock initialized_source]>
       (<["sink" := SinkBlock initialized_sink]> ∅))
    new_PipelineManager.

(** A running manager whose sink and source have been started. *)
Definition running_pipeline : PipelineManager :=
  pm_with_running true
    (pm_with_blocks
       (<["src" := SourceBlock (fst (TPS_Start initialized_source))]>
          (<["sink" := SinkBlock (fst (Sink_Start initialized_sink))]> ∅))
       new_PipelineManager).

(** A manager holding an initialized sink and a source that was never
    initialized. *)
Definition half_ready_pipeline : PipelineManager :=
  pm_with_blocks
    (<["src" := SourceBlock (new_TestPatternSource 0)]>
       (<["sink" := SinkBlock initialized_sink]> ∅))
    new_PipelineManager.

(** One source wired to two sinks, one connection after the other. *)
Definition two_sink_pipeline : PipelineManager :=
  pm_with_config
    {| cfg_name := "fan"; cfg_platform := "generic"; cfg_blocks := [];
       cfg_connections :=
         [ {| source_block_name := "src"; source_output := "output";
              sink_block_name := "a"; sink_input := "input" |};
           {| source_block_name := "src"; source_output := "output";
              sink_block_name := "b"; sink_input := "input" |} ];
       cfg_settings := ∅ |}
    (pm_with_blocks
       (<["src" := SourceBlock initialized_source]>
          (<["a" := SinkBlock initialized_sink]>
             (<["b" := SinkBlock initialized_sink]> ∅)))
       new_PipelineManager).

(** A source wired to a sink and then to a name that holds no block. *)
Definition dangling_pipeline : PipelineManager :=
  pm_with_config
    {| cfg_name := "dangling"; cfg_platform := "generic"; cfg_blocks := [];
       cfg_connections :=
         [ {| source_block_name := "src"; source_output := "output";
              sink_block_name := "sink"; sink_input := "input" |};
           {| source_block_name := "src"; source_output := "output";
              sink_block_name := "nowhere"; sink_input := "input" |} ];
       cfg_settings := ∅ |}
    ready_pipeline.

(** A registry and a configuration whose two definitions share a name. *)
Definition sink_and_source_registry : BlockRegistry :=
  fst (RegisterBlock "ConsoleSink"
         (FactoryReturns (Some (SinkBlock (new_BaseVideoSink 0 "ConsoleSink" "ConsoleSink"))))
         demo_registry).

Definition duplicate_name_config : PipelineConfig :=
  {| cfg_name := "dup"; cfg_platform := "generic";
     cfg_blocks :=
       [ {| bd_name := "x"; bd_type := "TestPatternSource"; bd_parameters := ∅ |};
         {| bd_name := "x"; bd_type := "ConsoleSink"; bd_parameters := ∅ |} ];
     cfg_connections := [];
     cfg_settings := ∅ |}.

(** * Properties *)

(** ** Frame sizes *)

Lemma wrap32_small z : 0 <= z < 2 ^ 32 -> wrap32 z = z.
Proof. intros Hz. unfold wrap32. apply Z.mod_small. exact Hz. Qed.

Lemma wrap64_small z : 0 <= z < 2 ^ 64 -> wrap64 z = z.
Proof. intros Hz. unfold wrap64. apply Z.mod_small. exact Hz. Qed.

(** As long as the four-bytes-per-pixel product fits in 32 bits, the code
    computes the byte count of the data model for every format. *)
Lemma GetFrameSize_no_overflow pf w h :
  0 <= w -> 0 <= h -> w * h * 4 < 2 ^ 32 ->
  GetFrameSize (mkInfo pf w h) = frame_size_spec pf w h.
Proof.
  intros Hw Hh Hb.
  assert (Hwh : 0 <= w * h) by nia.
  unfold GetFrameSize, frame_size_spec, mul_u32. cbn [width height pixel_format mkInfo].
  rewrite (wrap32_small (w * h)) by lia.
  destruct pf; try reflexivity; rewrite wrap32_small by lia; reflexivity.
Qed.

(** The result depends on the pixel format, the width and the height only. *)
Lemma GetFrameSize_pure fi1 fi2 :
  pixel_format fi1 = pixel_format fi2 ->
  width fi1 = width fi2 -> height fi1 = height fi2 ->
  GetFrameSize fi1 = GetFrameSize fi2.
Proof. intros Hpf Hw Hh. unfold GetFrameSize. rewrite Hpf, Hw, Hh. reflexivity. Qed.

(** C9: at 40000 x 40000 RGB24 the 32-bit products wrap: the code returns
    505032704 where the byte count of the image is 4800000000. *)
Theorem GetFrameSize_wraps_uint32 :
  in_u32 40000 /\
  GetFrameSize (mkInfo RGB24 40000 40000) = 505032704 /\
  frame_size_spec RGB24 40000 40000 = 4800000000.
Proof. repeat split; try reflexivity; unfold in_u32; lia. Qed.

(** ** Parameters *)

(** C10: in every block state, for every key and value, [SetParameter]
    returns true and stores the value, and the [GetParameter] that follows
    returns it; the block state is not consulted and not changed. *)
Theorem SetParameter_accepts_in_every_state (key value : string) (b : BaseBlock) :
  snd (SetParameter key value b) = true /\
  GetParameter key (fst (SetParameter key value b)) = value /\
  params_ (fst (SetParameter key value b)) !! key = Some value /\
  state_ (fst (SetParameter key value b)) = state_ b.
Proof.
  unfold SetParameter, GetParameter. cbn [fst snd params_ state_].
  rewrite lookup_insert_eq. repeat split.
Qed.

(** ** Lifecycle state *)

Lemma BlockState_eqb_eq a b : BlockState_eqb a b = true <-> a = b.
Proof. destruct a, b; simpl; split; intros E; congruence. Qed.

Lemma BlockState_eqb_neq a b : a <> b -> BlockState_eqb a b = false.
Proof.
  intros Hne. destruct (BlockState_eqb a b) eqn:E; [|reflexivity].
  apply BlockState_eqb_eq in E. contradiction.
Qed.

Lemma Sink_Stop_not_running k :
  GetState (sink_block k) <> RUNNING -> Sink_Stop k = (k, true).
Proof.
  intros Hs. unfold Sink_Stop. rewrite (BlockState_eqb_neq _ _ Hs). reflexivity.
Qed.

Lemma TPS_Stop_not_running t :
  GetState (tps_block t) <> RUNNING -> TPS_Stop t = (t, true).
Proof.
  intros Hs. unfold TPS_Stop. rewrite (BlockState_eqb_neq _ _ Hs). reflexivity.
Qed.

(** C3, as the code has it: on a block that is not running, [Shutdown]
    returns true and changes nothing, for the sink base and for the test
    pattern source alike; the state it leaves is the state it found. *)
Theorem Shutdown_keeps_state_when_not_running :
  (forall k : BaseVideoSink,
      GetState (sink_block k) <> RUNNING -> Sink_Shutdown k = (k, true)) /\
  (forall t : TestPatternSource,
      GetState (tps_block t) <> RUNNING -> TPS_Shutdown t = (t, true)).
Proof.
  split.
  - intros k Hs. unfold Sink_Shutdown. rewrite (Sink_Stop_not_running k Hs). reflexivity.
  - intros t Hs. unfold TPS_Shutdown. rewrite (TPS_Stop_not_running t Hs). reflexivity.
Qed.

Lemma Shutdown_keeps_state_witness :
  Sink_Shutdown initialized_sink = (initialized_sink, true) /\
  TPS_Shutdown initialized_source = (initialized_source, true).
Proof.
  split.
  - apply (proj1 Shutdown_keeps_state_when_not_running). vm_compute. discriminate.
  - apply (proj2 Shutdown_keeps_state_when_not_running). vm_compute. discriminate.
Defined.

(** C3, refuted as stated: an initialized sink is not running, and after
    [Shutdown] it is still [INITIALIZED], not [UNINITIALIZED]. *)
Lemma Shutdown_does_not_uninitialize :
  GetState (sink_block initialized_sink) <> RUNNING /\
  GetState (sink_block (fst (Sink_Shutdown initialized_sink))) = INITIALIZED /\
  GetState (sink_block (fst (Sink_Shutdown initialized_sink))) <> UNINITIALIZED.
Proof. vm_compute. repeat split; discriminate. Qed.

(** ** Queue depth configuration *)

(** The range test of [SetMaxQueueDepth] fails for a depth from 1 to 1000. *)
Ltac depth_in_range :=
  apply orb_false_iff; split; [apply Z.eqb_neq | apply Z.ltb_ge]; lia.

(** C8, as the code has it: a depth of 0 or above 1000 is refused, the
    configured depth, the queue and every other field of the sink stay as
    they were, but the refusal goes through [SetError]: the message is
    stored, the block moves to [ERROR] and the error callback, when
    installed, is called once; name, type, parameters and statistics of the
    block are untouched.  A depth from 1 to 1000 is stored and nothing else
    changes: the sink is the sink it was with the new maximum. *)
Theorem SetMaxQueueDepth_bounds (n : Z) (k : BaseVideoSink) :
  ((n = 0 \/ 1000 < n) ->
     snd (SetMaxQueueDepth n k) = false /\
     max_queue_depth_ (fst (SetMaxQueueDepth n k)) = max_queue_depth_ k /\
     frame_queue_ (fst (SetMaxQueueDepth n k)) = frame_queue_ k /\
     state_ (sink_block (fst (SetMaxQueueDepth n k))) = ERROR /\
     last_error_ (sink_block (fst (SetMaxQueueDepth n k)))
       = "Invalid queue depth: " +:+ to_string n /\
     trace_ (sink_block (fst (SetMaxQueueDepth n k)))
       = trace_ (sink_block k) ++
         match error_callback_ (sink_block k) with
         | Some cb => [EvErrorCallback cb (name_ (sink_block k))
                         ("Invalid queue depth: " +:+ to_string n)]
         | None => []
         end /\
     input_format_ (fst (SetMaxQueueDepth n k)) = input_format_ k /\
     is_blocking_ (fst (SetMaxQueueDepth n k)) = is_blocking_ k /\
     stop_worker_ (fst (SetMaxQueueDepth n k)) = stop_worker_ k /\
     worker_thread_ (fst (SetMaxQueueDepth n k)) = worker_thread_ k /\
     name_ (sink_block (fst (SetMaxQueueDepth n k))) = name_ (sink_block k) /\
     type_ (sink_block (fst (SetMaxQueueDepth n k))) = type_ (sink_block k) /\
     error_callback_ (sink_block (fst (SetMaxQueueDepth n k)))
       = error_callback_ (sink_block k) /\
     params_ (sink_block (fst (SetMaxQueueDepth n k))) = params_ (sink_block k) /\
     stats_ (sink_block (fst (SetMaxQueueDepth n k))) = stats_ (sink_block k)) /\
  (1 <= n <= 1000 ->
     snd (SetMaxQueueDepth n k) = true /\
     max_queue_depth_ (fst (SetMaxQueueDepth n k)) = n /\
     sink_block (fst (SetMaxQueueDepth n k)) = sink_block k /\
     frame_queue_ (fst (SetMaxQueueDepth n k)) = frame_queue_ k /\
     input_format_ (fst (SetMaxQueueDepth n k)) = input_format_ k /\
     is_blocking_ (fst (SetMaxQueueDepth n k)) = is_blocking_ k /\
     stop_worker_ (fst (SetMaxQueueDepth n k)) = stop_worker_ k /\
     worker_thread_ (fst (SetMaxQueueDepth n k)) = worker_thread_ k /\
     fst (SetMaxQueueDepth n k)
     = {| sink_block := sink_block k; input_format_ := input_format_ k;
          max_queue_depth_ := n; is_blocking_ := is_blocking_ k;
          frame_queue_ := frame_queue_ k; stop_worker_ := stop_worker_ k;
          worker_thread_ := worker_thread_ k |}).
Proof.
  split.
  - intros Hbad.
    assert (Hc : (n =? 0) || (1000 <? n) = true).
    { destruct Hbad as [-> | Hbig]; [reflexivity|].
      apply orb_true_iff. right. apply Z.ltb_lt. exact Hbig. }
    unfold SetMaxQueueDepth. rewrite Hc. cbn [fst snd].
    unfold on_block, with_block, SetError, SetState.
    cbn [sink_block max_queue_depth_ frame_queue_ error_callback_ name_
         input_format_ is_blocking_ stop_worker_ worker_thread_].
    destruct (error_callback_ (sink_block k)) as [cb|] eqn:Hcb;
      cbn [emit_event state_ last_error_ trace_ name_ type_ error_callback_
           params_ stats_];
      repeat split; try reflexivity; try (symmetry; exact Hcb).
    symmetry. apply app_nil_r.
  - intros [Hlo Hhi].
    assert (Hc : (n =? 0) || (1000 <? n) = false).
    { depth_in_range. }
    unfold SetMaxQueueDepth. rewrite Hc. cbn. repeat split.
Qed.

Lemma SetMaxQueueDepth_bounds_witness :
  state_ (sink_block (fst (SetMaxQueueDepth 0 initialized_sink))) = ERROR /\
  max_queue_depth_ (fst (SetMaxQueueDepth 5 initialized_sink)) = 5.
Proof.
  split.
  - destruct (proj1 (SetMaxQueueDepth_bounds 0 initialized_sink)) as (_ & _ & _ & Hs & _);
      [left; reflexivity | exact Hs].
  - destruct (proj2 (SetMaxQueueDepth_bounds 5 initialized_sink)) as (_ & Hm & _);
      [lia | exact Hm].
Defined.

(** C8, refuted as stated: refusing depth 0 on an initialized sink returns
    false and leaves the block in [ERROR], which is not the state before. *)
Lemma SetMaxQueueDepth_rejection_changes_state :
  snd (SetMaxQueueDepth 0 initialized_sink) = false /\
  state_ (sink_block initialized_sink) = INITIALIZED /\
  state_ (sink_block (fst (SetMaxQueueDepth 0 initialized_sink))) = ERROR /\
  sink_block (fst (SetMaxQueueDepth 0 initialized_sink)) <> sink_block initialized_sink.
Proof.
  repeat split; try (vm_compute; reflexivity).
  intros E. apply (f_equal state_) in E. vm_compute in E. discriminate.
Qed.

(** ** Submission to the sink queue *)

Lemma enqueue_spec f k :
  exists k',
    enqueue f k = (k', Returned true) /\
    enqueued f (frame_queue_ k) (trace_ (sink_block k)) k' /\
    max_queue_depth_ k' = max_queue_depth_ k /\
    is_blocking_ k' = is_blocking_ k /\
    stop_worker_ k' = stop_worker_ k /\
    state_ (sink_block k') = state_ (sink_block k) /\
    frames_dropped (stats_ (sink_block k')) = frames_dropped (stats_ (sink_block k)) /\
    frames_processed (stats_ (sink_block k'))
      = frames_processed (stats_ (sink_block k)).
Proof.
  eexists. split; [reflexivity|]. unfold enqueued. cbn. repeat split.
Qed.

Lemma full_queue_has_oldest k :
  0 < max_queue_depth_ k -> max_queue_depth_ k <= queue_size k ->
  exists oldest rest, frame_queue_ k = oldest :: rest.
Proof.
  intros Hpos Hfull. unfold queue_size in Hfull.
  destruct (frame_queue_ k) as [|x q]; [cbn in Hfull; lia|]. eauto.
Qed.

(** C1: what a call of [ProcessFrame] with a frame does, case by case.
    Outside [RUNNING] it returns false and the sink is untouched, whatever
    the frame.  In [RUNNING], with the queue at or above its maximum: a
    non-blocking sink removes the oldest frame, counts it in
    [frames_dropped] and enqueues the new one; a blocking sink returns
    false untouched when stop has been signalled and otherwise parks the
    caller, and each wake-up of the parked caller returns false on stop,
    enqueues when there is room, and parks again otherwise.  With room the
    frame is enqueued at once.  Every call that returns true has pushed
    its frame at the back, set [queue_depth] to the queue size and
    notified [queue_condition_].  A call with a null pointer in place of a
    frame returns false and touches nothing. *)
Theorem ProcessFrame_submit (now : Z) (f : Frame) (k : BaseVideoSink) :
  0 < max_queue_depth_ k ->
  (GetState (sink_block k) <> RUNNING ->
     forall frame, ProcessFrame now frame k = (k, Returned false)) /\
  (GetState (sink_block k) = RUNNING ->
   max_queue_depth_ k <= queue_size k -> is_blocking_ k = false ->
     exists oldest rest k',
       frame_queue_ k = oldest :: rest /\
       ProcessFrame now (Some f) k = (k', Returned true) /\
       enqueued f rest (trace_ (sink_block k)) k' /\
       frames_dropped (stats_ (sink_block k'))
         = wrap64 (frames_dropped (stats_ (sink_block k)) + 1) /\
       frames_processed (stats_ (sink_block k'))
         = frames_processed (stats_ (sink_block k))) /\
  (GetState (sink_block k) = RUNNING ->
   max_queue_depth_ k <= queue_size k -> is_blocking_ k = true ->
     (stop_worker_ k = true ->
        ProcessFrame now (Some f) k = (k, Returned false)) /\
     (stop_worker_ k = false ->
        ProcessFrame now (Some f) k = (k, WaitingNotFull))) /\
  ((stop_worker_ k = true -> ProcessFrame_wake f k = (k, Returned false)) /\
   (stop_worker_ k = false -> max_queue_depth_ k <= queue_size k ->
      ProcessFrame_wake f k = (k, WaitingNotFull)) /\
   (stop_worker_ k = false -> queue_size k < max_queue_depth_ k ->
      exists k', ProcessFrame_wake f k = (k', Returned true) /\
                 enqueued f (frame_queue_ k) (trace_ (sink_block k)) k')) /\
  (GetState (sink_block k) = RUNNING -> queue_size k < max_queue_depth_ k ->
     exists k', ProcessFrame now (Some f) k = (k', Returned true) /\
                enqueued f (frame_queue_ k) (trace_ (sink_block k)) k' /\
                frames_dropped (stats_ (sink_block k'))
                  = frames_dropped (stats_ (sink_block k))) /\
  (forall frame k', ProcessFrame now frame k = (k', Returned true) ->
     exists f' q, frame = Some f' /\
                  enqueued f' q (trace_ (sink_block k)) k') /\
  ProcessFrame now None k = (k, Returned false).
Proof.
  intros Hpos.
  split; [|split; [|split; [|split; [|split; [|split; [|reflexivity]]]]]].
  - intros Hs [f0|]; cbn [ProcessFrame]; [|reflexivity].
    rewrite (BlockState_eqb_neq _ _ Hs). reflexivity.
  - intros Hs Hfull Hnb.
    destruct (full_queue_has_oldest k Hpos Hfull) as (oldest & rest & Hq).
    exists oldest, rest. eexists. split; [exact Hq|].
    cbn [ProcessFrame]. rewrite Hs. cbn [BlockState_eqb negb].
    apply Z.leb_le in Hfull. rewrite Hfull, Hnb. cbn [negb].
    split; [reflexivity|].
    unfold enqueued. cbn. rewrite Hq. cbn. repeat split.
  - intros Hs Hfull Hb.
    assert (Hlt : (queue_size k <? max_queue_depth_ k) = false) by (apply Z.ltb_ge; lia).
    apply Z.leb_le in Hfull.
    split; intros Hstop; cbn [ProcessFrame]; rewrite Hs; cbn [BlockState_eqb negb];
      rewrite Hfull, Hb; cbn [negb]; unfold ProcessFrame_wake, space_or_stop, after_wait;
      rewrite Hlt, Hstop; reflexivity.
  - split; [|split].
    + intros Hstop. unfold ProcessFrame_wake, space_or_stop, after_wait.
      rewrite Hstop, orb_true_r. reflexivity.
    + intros Hstop Hfull. unfold ProcessFrame_wake, space_or_stop.
      assert (Hlt : (queue_size k <? max_queue_depth_ k) = false) by (apply Z.ltb_ge; lia).
      rewrite Hlt, Hstop. reflexivity.
    + intros Hstop Hroom. unfold ProcessFrame_wake, space_or_stop, after_wait.
      apply Z.ltb_lt in Hroom. rewrite Hroom, Hstop. cbn [orb].
      destruct (enqueue_spec f k) as (k' & He & Henq & _). eauto.
  - intros Hs Hroom. cbn [ProcessFrame]. rewrite Hs. cbn [BlockState_eqb negb].
    assert (Hle : (max_queue_depth_ k <=? queue_size k) = false) by (apply Z.leb_gt; lia).
    rewrite Hle.
    destruct (enqueue_spec f k) as (k' & He & Henq & _ & _ & _ & _ & Hd & _). eauto.
  - intros [f0|] k' Hret; cbn [ProcessFrame] in Hret; [|discriminate].
    exists f0.
    destruct (negb (BlockState_eqb (GetState (sink_block k)) RUNNING)); [discriminate|].
    destruct (max_queue_depth_ k <=? queue_size k).
    + destruct (is_blocking_ k); cbn [negb] in Hret.
      * unfold ProcessFrame_wake, after_wait in Hret.
        destruct (space_or_stop k); [|discriminate].
        destruct (stop_worker_ k); [discriminate|].
        exists (frame_queue_ k).
        destruct (enqueue_spec f0 k) as (k2 & He & Henq & _).
        rewrite He in Hret. injection Hret as <-. split; [reflexivity | exact Henq].
      * exists (tail (frame_queue_ k)). split; [reflexivity|].
        injection Hret as <-. unfold enqueued. cbn. repeat split.
    + exists (frame_queue_ k).
      destruct (enqueue_spec f0 k) as (k2 & He & Henq & _).
      rewrite He in Hret. injection Hret as <-. split; [reflexivity | exact Henq].
Qed.

Lemma ProcessFrame_submit_witness :
  exists oldest rest k',
    frame_queue_ full_dropping_sink = oldest :: rest /\
    ProcessFrame 30 (Some (numbered_frame 3)) full_dropping_sink
      = (k', Returned true) /\
    frame_queue_ k' = rest ++ [numbered_frame 3] /\
    frames_dropped (stats_ (sink_block k')) = 1.
Proof.
  destruct (ProcessFrame_submit 30 (numbered_frame 3) full_dropping_sink)
    as (_ & Hdrop & _).
  - vm_compute. reflexivity.
  - destruct Hdrop as (oldest & rest & k' & Hq & Hcall & (Hpush & _) & Hcount & _).
    + vm_compute. reflexivity.
    + vm_compute. discriminate.
    + vm_compute. reflexivity.
    + exists oldest, rest, k'.
      split; [exact Hq|]. split; [exact Hcall|]. split; [exact Hpush|].
      rewrite Hcount. vm_compute. reflexivity.
Defined.

(** ** The queue bound *)

(** The bound holds for a sink as constructed. *)
Lemma new_sink_queue_bounded now name type :
  0 < max_queue_depth_ (new_BaseVideoSink now name type) /\
  queue_bounded (new_BaseVideoSink now name type).
Proof. unfold queue_bounded, queue_size. cbn. lia. Qed.

Lemma queue_bounded_enqueue f k :
  queue_size k < max_queue_depth_ k -> queue_bounded (fst (enqueue f k)).
Proof.
  intros Hroom. unfold queue_bounded, queue_size in *. cbn.
  rewrite length_app. cbn [length]. lia.
Qed.

Lemma queue_bounded_wake f k :
  queue_bounded k -> queue_bounded (fst (ProcessFrame_wake f k)).
Proof.
  intros Hb. unfold ProcessFrame_wake, space_or_stop, after_wait.
  destruct (queue_size k <? max_queue_depth_ k) eqn:Hlt; cbn [orb].
  - destruct (stop_worker_ k); [exact Hb|].
    apply queue_bounded_enqueue. apply Z.ltb_lt. exact Hlt.
  - destruct (stop_worker_ k); exact Hb.
Qed.

(** C7, as the code has it: on a sink whose maximum is positive and whose
    queue is within it, every submission (blocking or not, at the call and
    at each wake-up of a parked call), every pass of the worker and [Stop]
    keep the queue within the maximum.  [SetMaxQueueDepth] keeps it when
    the call is refused or when the new maximum is not below the current
    queue size; it never removes frames, so an accepted maximum below the
    current queue size leaves the queue above it. *)
Theorem queue_bound_preserved (k : BaseVideoSink) :
  0 < max_queue_depth_ k -> queue_bounded k ->
  (forall now frame, queue_bounded (fst (ProcessFrame now frame k))) /\
  (forall f, queue_bounded (fst (ProcessFrame_wake f k))) /\
  (forall (I : Type) (impl : VideoSinkImpl I) now (i : I),
      queue_bounded (fst (fst (WorkerThread_body now (k, i)))) /\
      queue_bounded (fst (fst (WorkerThread_iteration now (k, i))))) /\
  queue_bounded (fst (Sink_Stop k)) /\
  (forall n, snd (SetMaxQueueDepth n k) = false ->
             queue_bounded (fst (SetMaxQueueDepth n k))) /\
  (forall n, 1 <= n <= 1000 -> queue_size k <= n ->
             queue_bounded (fst (SetMaxQueueDepth n k))) /\
  (forall n, 1 <= n <= 1000 -> n < queue_size k ->
             snd (SetMaxQueueDepth n k) = true /\
             ~ queue_bounded (fst (SetMaxQueueDepth n k))).
Proof.
  intros Hpos Hb.
  split; [|split; [|split; [|split; [|split; [|split]]]]].
  - intros now [f|]; cbn [ProcessFrame]; [|exact Hb].
    destruct (negb (BlockState_eqb (GetState (sink_block k)) RUNNING)); [exact Hb|].
    destruct (max_queue_depth_ k <=? queue_size k) eqn:Hfull.
    + destruct (is_blocking_ k); cbn [negb].
      * apply queue_bounded_wake. exact Hb.
      * apply Z.leb_le in Hfull.
        destruct (full_queue_has_oldest k Hpos Hfull) as (x & q & Hq).
        unfold queue_bounded, queue_size in *. cbn.
        rewrite Hq in *. cbn [tail length] in *. rewrite length_app. cbn [length]. lia.
    + apply queue_bounded_enqueue. apply Z.leb_gt. exact Hfull.
  - intros f. apply queue_bounded_wake. exact Hb.
  - intros I impl now i.
    assert (Hbody : queue_bounded (fst (fst (WorkerThread_body now (k, i))))).
    { unfold WorkerThread_body. cbn [fst snd].
      destruct (negb (nonempty_or_stop k)); [exact Hb|].
      destruct (stop_worker_ k && (queue_size k =? 0)); [exact Hb|].
      destruct (frame_queue_ k) as [|f q] eqn:Hq; [exact Hb|].
      assert (Hq' : Z.of_nat (length q) <= max_queue_depth_ k).
      { unfold queue_bounded, queue_size in Hb. rewrite Hq in Hb. cbn [length] in Hb. lia. }
      destruct (ProcessFrameImpl i f) as [i' [success|what|]];
        unfold queue_bounded, queue_size; cbn; exact Hq'. }
    split; [exact Hbody|].
    unfold WorkerThread_iteration. cbn [fst].
    destruct (stop_worker_ k); [exact Hb | exact Hbody].
  - unfold Sink_Stop.
    destruct (negb (BlockState_eqb (GetState (sink_block k)) RUNNING)); [exact Hb|].
    unfold queue_bounded, queue_size. cbn. lia.
  - intros n Hfail. unfold SetMaxQueueDepth in *.
    destruct ((n =? 0) || (1000 <? n)); [exact Hb | discriminate].
  - intros n Hn Hle. unfold SetMaxQueueDepth.
    assert (Hc : (n =? 0) || (1000 <? n) = false).
    { depth_in_range. }
    rewrite Hc. unfold queue_bounded, queue_size in *. cbn. exact Hle.
  - intros n Hn Hlt. unfold SetMaxQueueDepth.
    assert (Hc : (n =? 0) || (1000 <? n) = false).
    { depth_in_range. }
    rewrite Hc. split; [reflexivity|].
    unfold queue_bounded, queue_size in *. cbn. lia.
Qed.

Lemma queue_bound_preserved_witness :
  queue_bounded (fst (ProcessFrame 40 (Some vga_frame) running_sink_3)) /\
  queue_bounded (fst (SetMaxQueueDepth 3 running_sink_3)).
Proof.
  assert (Hpos : 0 < max_queue_depth_ running_sink_3) by (vm_compute; reflexivity).
  assert (Hb : queue_bounded running_sink_3) by (vm_compute; discriminate).
  destruct (queue_bound_preserved running_sink_3 Hpos Hb)
    as (Hsubmit & _ & _ & _ & _ & Hset & _).
  split.
  - apply Hsubmit.
  - apply Hset; [lia | vm_compute; discriminate].
Defined.

(** C7, refuted as stated: with three frames queued under the default
    maximum of 10, [SetMaxQueueDepth 2] is accepted and the queue depth, 3,
    is then above the maximum, 2. *)
Lemma SetMaxQueueDepth_breaks_queue_bound :
  queue_bounded running_sink_3 /\
  snd (SetMaxQueueDepth 2 running_sink_3) = true /\
  GetQueueDepth (fst (SetMaxQueueDepth 2 running_sink_3)) = 3 /\
  GetMaxQueueDepth (fst (SetMaxQueueDepth 2 running_sink_3)) = 2 /\
  ~ queue_bounded (fst (SetMaxQueueDepth 2 running_sink_3)).
Proof.
  repeat split; try (vm_compute; reflexivity); try (vm_compute; discriminate).
  intros Hb. vm_compute in Hb. apply Hb. reflexivity.
Qed.

(** ** Exceptions in the worker's hook *)

(** C4, as the code has it: when the hook throws a [std::exception] on the
    frame at the front of the queue, the pass of the worker that handles it
    removes the frame, adds one to [frames_dropped], leaves
    [frames_processed], the block state and [last_error_] as they were,
    and goes back to the loop test.  The only call that leaves the block is
    the notification of [queue_not_full_condition_]: the error callback is
    not called. *)
Theorem Worker_hook_exception_is_counted {I : Type} {impl : VideoSinkImpl I}
    (now : Z) (k : BaseVideoSink) (i i' : I) (f : Frame) (q : list Frame)
    (what : string) :
  frame_queue_ k = f :: q ->
  ProcessFrameImpl i f = (i', HookThrows what) ->
  exists k',
    WorkerThread_body now (k, i) = ((k', i'), WorkerContinue) /\
    (stop_worker_ k = false ->
       WorkerThread_iteration now (k, i) = ((k', i'), WorkerContinue)) /\
    frame_queue_ k' = q /\
    frames_dropped (stats_ (sink_block k'))
      = wrap64 (frames_dropped (stats_ (sink_block k)) + 1) /\
    frames_processed (stats_ (sink_block k'))
      = frames_processed (stats_ (sink_block k)) /\
    state_ (sink_block k') = state_ (sink_block k) /\
    last_error_ (sink_block k') = last_error_ (sink_block k) /\
    stop_worker_ k' = stop_worker_ k /\
    trace_ (sink_block k')
      = trace_ (sink_block k) ++ [EvNotifyOne queue_not_full_condition_] /\
    error_callback_calls (trace_ (sink_block k'))
      = error_callback_calls (trace_ (sink_block k)).
Proof.
  intros Hq Hthrow.
  assert (Hbody : exists k',
             WorkerThread_body now (k, i) = ((k', i'), WorkerContinue) /\
             k' = on_block (UpdateStats now false 0 true)
                    (on_block (emit_event (EvNotifyOne queue_not_full_condition_))
                       (on_block (set_queue_depth (Z.of_nat (length q)))
                          (with_queue q k)))).
  { eexists. split; [|reflexivity].
    unfold WorkerThread_body, nonempty_or_stop, queue_size. cbn [fst snd].
    rewrite Hq. cbn [length].
    replace (Z.of_nat (S (length q)) =? 0) with false
      by (symmetry; apply Z.eqb_neq; lia).
    cbn [negb orb]. rewrite andb_false_r. rewrite Hthrow. reflexivity. }
  destruct Hbody as (k' & Hrun & ->).
  eexists. split; [exact Hrun|]. split.
  { intros Hstop. unfold WorkerThread_iteration. cbn [fst]. rewrite Hstop. exact Hrun. }
  cbn. repeat split.
  induction (trace_ (sink_block k)) as [|e tr IH]; [reflexivity|].
  destruct e; cbn; rewrite ?IH; reflexivity.
Qed.

(** A hook that returns false is counted the same way, and any thrown
    object that is not a [std::exception] leaves the thread function. *)
Lemma Worker_hook_failure_is_counted {I : Type} {impl : VideoSinkImpl I}
    (now : Z) (k : BaseVideoSink) (i i' : I) (f : Frame) (q : list Frame) :
  frame_queue_ k = f :: q ->
  ProcessFrameImpl i f = (i', HookReturns false) ->
  snd (WorkerThread_body now (k, i)) = WorkerContinue /\
  frames_dropped (stats_ (sink_block (fst (fst (WorkerThread_body now (k, i))))))
    = wrap64 (frames_dropped (stats_ (sink_block k)) + 1).
Proof.
  intros Hq Hret.
  unfold WorkerThread_body, nonempty_or_stop, queue_size. cbn [fst snd].
  rewrite Hq. cbn [length].
  replace (Z.of_nat (S (length q)) =? 0) with false
    by (symmetry; apply Z.eqb_neq; lia).
  cbn [negb orb]. rewrite andb_false_r. rewrite Hret. cbn. split; reflexivity.
Qed.

Lemma Worker_uncaught_exception {I : Type} {impl : VideoSinkImpl I}
    (now : Z) (k : BaseVideoSink) (i i' : I) (f : Frame) (q : list Frame) :
  frame_queue_ k = f :: q ->
  ProcessFrameImpl i f = (i', HookThrowsOther) ->
  snd (WorkerThread_body now (k, i)) = WorkerTerminate.
Proof.
  intros Hq Hthrow.
  unfold WorkerThread_body, nonempty_or_stop, queue_size. cbn [fst snd].
  rewrite Hq. cbn [length].
  replace (Z.of_nat (S (length q)) =? 0) with false
    by (symmetry; apply Z.eqb_neq; lia).
  cbn [negb orb]. rewrite andb_false_r. rewrite Hthrow. reflexivity.
Qed.

Lemma Worker_hook_exception_witness :
  exists k',
    @WorkerThread_body unit always_throwing 40 (running_sink_3, tt)
      = ((k', tt), WorkerContinue) /\
    frames_dropped (stats_ (sink_block k')) = 1.
Proof.
  destruct (@Worker_hook_exception_is_counted unit always_throwing 40
              running_sink_3 tt tt (numbered_frame 1)
              [numbered_frame 2; numbered_frame 3] "write failed")
    as (k' & Hrun & _ & _ & Hdrop & _).
  - vm_compute. reflexivity.
  - reflexivity.
  - exists k'. split; [exact Hrun|]. rewrite Hdrop. vm_compute. reflexivity.
Defined.

(** C4, refuted as stated: a running sink with an error callback
    installed and a hook that throws; the worker counts the frame as
    dropped and continues, and the error callback has not been called. *)
Lemma Worker_hook_exception_fires_no_callback :
  error_callback_ (sink_block running_sink_3) = Some PipelineOnBlockError /\
  snd (@WorkerThread_body unit always_throwing 40 (running_sink_3, tt))
    = WorkerContinue /\
  frames_dropped (stats_ (sink_block
     (fst (fst (@WorkerThread_body unit always_throwing 40 (running_sink_3, tt))))))
    = 1 /\
  error_callback_calls (trace_ (sink_block
     (fst (fst (@WorkerThread_body unit always_throwing 40 (running_sink_3, tt))))))
    = 0%nat.
Proof. vm_compute. repeat split. Qed.

(** ** Emission from a source *)

Lemma GetStats_frames_processed now b :
  frames_processed (GetStats now b) = frames_processed (stats_ b).
Proof.
  unfold GetStats.
  destruct ((0 <? Z.quot (now - last_frame_time (stats_ b)) 1000000000)
            && (0 <? frames_processed (stats_ b))); reflexivity.
Qed.

Lemma delivered_app tr1 tr2 : delivered (tr1 ++ tr2) = delivered tr1 ++ delivered tr2.
Proof.
  induction tr1 as [|e tr1 IH]; [reflexivity|].
  destruct e; cbn; rewrite ?IH; reflexivity.
Qed.





Lemma EmitFrame_gate_closed c f cb s :
  frame_callback_ s = Some cb -> ShouldEmitFrame (t_gate c) s = false ->
  EmitFrame c (Some f) s = src_on_block (UpdateStats (t_update c) false 0 true) s.
Proof. intros Hcb Hgate. unfold EmitFrame. rewrite Hcb, Hgate. reflexivity. Qed.

Lemma EmitFrame_gate_open c f cb s :
  frame_callback_ s = Some cb -> ShouldEmitFrame (t_gate c) s = true ->
  trace_ (source_block (EmitFrame c (Some f) s))
    = trace_ (source_block s)
      ++ [EvFrameCallback cb
            (stamp (GetCurrentTimestampUs (t_stamp c))
                   (wrap64 (frames_processed (stats_ (source_block s)) + 1)) f)] /\
  frames_processed (stats_ (source_block (EmitFrame c (Some f) s)))
    = wrap64 (frames_processed (stats_ (source_block s)) + 1).
Proof.
  intros Hcb Hgate. unfold EmitFrame. rewrite Hcb, Hgate. cbn [negb].
  rewrite GetStats_frames_processed. cbn. split; reflexivity.
Qed.



Lemma new_source_invariant now name type cb :
  sequence_invariant (fst (SetFrameCallback cb (new_BaseVideoSource now name type))).
Proof. unfold sequence_invariant. cbn. repeat split; [lia | constructor]. Qed.






(** ** Sequence numbers across a restart *)






(** ** Creation of the blocks *)

Lemma creatable_named r d :
  creatable r d = true ->
  exists blk, CreateBlock_named (bd_type d) (bd_name d) r = Some blk.
Proof.
  unfold creatable, CreateBlock_named.
  destruct (CreateBlock (bd_type d) r); [eauto | discriminate].
Qed.



(** The blocks of the example pipeline have no thread attached. *)
Lemma ready_pipeline_releases : releases_cleanly (blocks_ ready_pipeline).
Proof.
  intros n blk Hget. unfold ready_pipeline in Hget.
  cbn [blocks_ pm_with_blocks] in Hget.
  apply lookup_insert_Some in Hget as [[_ <-] | [_ Hget]]; [reflexivity|].
  apply lookup_insert_Some in Hget as [[_ <-] | [_ Hget]]; [reflexivity|].
  rewrite lookup_empty in Hget. discriminate.
Qed.

Section InitializeFailure.

Variable ConfigureBlocks : PipelineManager -> PipelineManager * bool.
Variable ConnectBlocks : PipelineManager -> PipelineManager * bool.


End InitializeFailure.



(** * Further properties of the modelled code *)

(** ** Parameters of a block *)

(** The parameters behave as a map from keys to values: a key that was
    never set reads as the empty string, a write to one key leaves every
    other key as it was, and of two writes to one key the later one wins. *)
Theorem parameters_form_a_map (b : BaseBlock) (k1 k2 v1 v2 : string) :
  (params_ b !! k1 = None -> GetParameter k1 b = "") /\
  (k1 <> k2 ->
     GetParameter k2 (fst (SetParameter k1 v1 b)) = GetParameter k2 b) /\
  fst (SetParameter k1 v2 (fst (SetParameter k1 v1 b))) = fst (SetParameter k1 v2 b) /\
  (k1 <> k2 ->
     fst (SetParameter k1 v1 (fst (SetParameter k2 v2 b)))
     = fst (SetParameter k2 v2 (fst (SetParameter k1 v1 b)))).
Proof.
  split; [|split; [|split]].
  - intros Hnone. unfold GetParameter. rewrite Hnone. reflexivity.
  - intros Hne. unfold GetParameter, SetParameter. cbn [fst params_].
    rewrite lookup_insert_ne by exact Hne. reflexivity.
  - unfold SetParameter. cbn [fst name_ type_ state_ last_error_ error_callback_
                                  params_ stats_ trace_].
    rewrite insert_insert_eq. reflexivity.
  - intros Hne. unfold SetParameter.
    cbn [fst name_ type_ state_ last_error_ error_callback_ params_ stats_ trace_].
    rewrite (insert_insert_ne (params_ b) k1 k2 v1 v2) by exact Hne. reflexivity.
Qed.

Lemma parameters_form_a_map_witness :
  GetParameter "height" (new_BaseBlock 0 "b" "t") = "" /\
  GetParameter "height" (fst (SetParameter "width" "320" (new_BaseBlock 0 "b" "t"))) = "".
Proof.
  destruct (parameters_form_a_map (new_BaseBlock 0 "b" "t") "height" "width" "1" "2")
    as (Hmissing & _).
  destruct (parameters_form_a_map (new_BaseBlock 0 "b" "t") "width" "height" "320" "2")
    as (_ & Hother & _).
  split.
  - apply Hmissing. reflexivity.
  - rewrite Hother by discriminate. apply Hmissing. reflexivity.
Defined.

(** ** Lifecycle of the sink *)

Lemma Sink_Start_accepted (k : BaseVideoSink) :
  GetState (sink_block k) = INITIALIZED \/ GetState (sink_block k) = STOPPED ->
   worker_thread_ k = false ->
     snd (Sink_Start k) = true /\
     GetState (sink_block (fst (Sink_Start k))) = RUNNING /\
     stop_worker_ (fst (Sink_Start k)) = false /\
     worker_thread_ (fst (Sink_Start k)) = true /\
     frame_queue_ (fst (Sink_Start k)) = frame_queue_ k /\
     max_queue_depth_ (fst (Sink_Start k)) = max_queue_depth_ k /\
     is_blocking_ (fst (Sink_Start k)) = is_blocking_ k /\
     stats_ (sink_block (fst (Sink_Start k))) = stats_ (sink_block k) /\
     trace_ (sink_block (fst (Sink_Start k))) = trace_ (sink_block k).
Proof.
  intros [Hs | Hs] _; unfold Sink_Start; rewrite Hs; cbn; repeat split.
Qed.

Lemma Sink_Start_refused (k : BaseVideoSink) :
  GetState (sink_block k) <> INITIALIZED -> GetState (sink_block k) <> STOPPED ->
     snd (Sink_Start k) = false /\
     GetState (sink_block (fst (Sink_Start k))) = ERROR /\
     GetLastError (sink_block (fst (Sink_Start k)))
       = "Cannot start VideoSink from state: " +:+ GetStateString (sink_block k) /\
     frame_queue_ (fst (Sink_Start k)) = frame_queue_ k /\
     stop_worker_ (fst (Sink_Start k)) = stop_worker_ k /\
     worker_thread_ (fst (Sink_Start k)) = worker_thread_ k.
Proof.
  intros Hi Hs. unfold Sink_Start.
  rewrite (BlockState_eqb_neq _ _ Hi), (BlockState_eqb_neq _ _ Hs). cbn [negb andb].
  unfold on_block, with_block, SetError, SetState, GetLastError, GetState.
  cbn [fst snd sink_block frame_queue_ stop_worker_ worker_thread_ error_callback_].
  destruct (error_callback_ (sink_block k)); cbn; repeat split.
Qed.

(** [Start] succeeds exactly from [INITIALIZED] and [STOPPED]: the sink is
    then [RUNNING] with the stop flag cleared and a worker attached, and
    its queue, limits, statistics and trace are as before (stated for a
    sink with no worker attached: assigning a new thread over a joinable
    one ends the process).  From any other state, [RUNNING] included, it
    returns false and the sink goes to [ERROR] with a message naming the
    state it was in; queue, stop flag and worker stay as they were. *)
Theorem Sink_Start_outcomes (k : BaseVideoSink) :
  (GetState (sink_block k) = INITIALIZED \/ GetState (sink_block k) = STOPPED ->
   worker_thread_ k = false ->
     snd (Sink_Start k) = true /\
     GetState (sink_block (fst (Sink_Start k))) = RUNNING /\
     stop_worker_ (fst (Sink_Start k)) = false /\
     worker_thread_ (fst (Sink_Start k)) = true /\
     frame_queue_ (fst (Sink_Start k)) = frame_queue_ k /\
     max_queue_depth_ (fst (Sink_Start k)) = max_queue_depth_ k /\
     is_blocking_ (fst (Sink_Start k)) = is_blocking_ k /\
     stats_ (sink_block (fst (Sink_Start k))) = stats_ (sink_block k) /\
     trace_ (sink_block (fst (Sink_Start k))) = trace_ (sink_block k)) /\
  (GetState (sink_block k) <> INITIALIZED -> GetState (sink_block k) <> STOPPED ->
     snd (Sink_Start k) = false /\
     GetState (sink_block (fst (Sink_Start k))) = ERROR /\
     GetLastError (sink_block (fst (Sink_Start k)))
       = "Cannot start VideoSink from state: " +:+ GetStateString (sink_block k) /\
     frame_queue_ (fst (Sink_Start k)) = frame_queue_ k /\
     stop_worker_ (fst (Sink_Start k)) = stop_worker_ k /\
     worker_thread_ (fst (Sink_Start k)) = worker_thread_ k).
Proof.
  split; [apply Sink_Start_accepted | apply Sink_Start_refused].
Qed.

Lemma Sink_Start_outcomes_witness :
  GetState (sink_block (fst (Sink_Start initialized_sink))) = RUNNING /\
  GetState (sink_block (fst (Sink_Start running_sink_3))) = ERROR.
Proof.
  split.
  - apply (proj1 (Sink_Start_outcomes initialized_sink)).
    + left. vm_compute. reflexivity.
    + vm_compute. reflexivity.
  - apply (proj2 (Sink_Start_outcomes running_sink_3)); vm_compute; discriminate.
Defined.

Lemma Sink_Stop_running (k : BaseVideoSink) :
  GetState (sink_block k) = RUNNING ->
  snd (Sink_Stop k) = true /\
  GetState (sink_block (fst (Sink_Stop k))) = STOPPED /\
  frame_queue_ (fst (Sink_Stop k)) = [] /\
  stop_worker_ (fst (Sink_Stop k)) = true /\
  worker_thread_ (fst (Sink_Stop k)) = false /\
  stats_ (sink_block (fst (Sink_Stop k))) = stats_ (sink_block k) /\
  trace_ (sink_block (fst (Sink_Stop k)))
    = trace_ (sink_block k)
      ++ [EvNotifyAll queue_condition_; EvNotifyAll queue_not_full_condition_] /\
  accounted (fst (Sink_Stop k)) = accounted k - queue_size k.
Proof.
  intros Hs. unfold Sink_Stop. rewrite Hs. cbn [BlockState_eqb negb].
  unfold accounted, queue_size. cbn.
  rewrite <- app_assoc. cbn. repeat split. lia.
Qed.

(** [Stop] on a running sink returns true and leaves it [STOPPED], with the
    stop flag set, the worker joined and the queue empty; both condition
    variables are notified, first the worker's, then the producers'.  The
    statistics are untouched: the frames that were still queued are counted
    neither as processed nor as dropped, and the recorded [queue_depth]
    keeps its last value. *)
Theorem Sink_Stop_discards_queue (k : BaseVideoSink) :
  GetState (sink_block k) = RUNNING ->
  snd (Sink_Stop k) = true /\
  GetState (sink_block (fst (Sink_Stop k))) = STOPPED /\
  frame_queue_ (fst (Sink_Stop k)) = [] /\
  stop_worker_ (fst (Sink_Stop k)) = true /\
  worker_thread_ (fst (Sink_Stop k)) = false /\
  stats_ (sink_block (fst (Sink_Stop k))) = stats_ (sink_block k) /\
  trace_ (sink_block (fst (Sink_Stop k)))
    = trace_ (sink_block k)
      ++ [EvNotifyAll queue_condition_; EvNotifyAll queue_not_full_condition_] /\
  accounted (fst (Sink_Stop k)) = accounted k - queue_size k.
Proof. exact (Sink_Stop_running k). Qed.

Lemma Sink_Stop_discards_queue_witness :
  frame_queue_ (fst (Sink_Stop running_sink_3)) = [] /\
  accounted (fst (Sink_Stop running_sink_3)) = accounted running_sink_3 - 3.
Proof.
  destruct (Sink_Stop_discards_queue running_sink_3) as (_ & _ & Hq & _ & _ & _ & _ & Hacc).
  - vm_compute. reflexivity.
  - split; [exact Hq | exact Hacc].
Defined.

(** A second [Stop] changes nothing, and a stopped sink can be started
    again: after stop and start the sink is [RUNNING] with an empty queue,
    the stop flag cleared and the statistics of before the stop. *)
Theorem Sink_Stop_then_Start (k : BaseVideoSink) :
  Sink_Stop (fst (Sink_Stop k)) = (fst (Sink_Stop k), true) /\
  (GetState (sink_block k) = RUNNING ->
     snd (Sink_Start (fst (Sink_Stop k))) = true /\
     GetState (sink_block (fst (Sink_Start (fst (Sink_Stop k))))) = RUNNING /\
     frame_queue_ (fst (Sink_Start (fst (Sink_Stop k)))) = [] /\
     stop_worker_ (fst (Sink_Start (fst (Sink_Stop k)))) = false /\
     stats_ (sink_block (fst (Sink_Start (fst (Sink_Stop k)))))
       = stats_ (sink_block k)).
Proof.
  split.
  - destruct (BlockState_eqb (GetState (sink_block k)) RUNNING) eqn:Hs.
    + apply BlockState_eqb_eq in Hs.
      destruct (Sink_Stop_running k Hs) as (_ & Hst & _).
      apply Sink_Stop_not_running. rewrite Hst. discriminate.
    + assert (Hne : GetState (sink_block k) <> RUNNING).
      { intros E. rewrite E in Hs. discriminate. }
      rewrite (Sink_Stop_not_running k Hne). cbn [fst].
      apply Sink_Stop_not_running. exact Hne.
  - intros Hs.
    destruct (Sink_Stop_running k Hs) as (_ & Hst & Hq & _ & Hw & Hstats & _).
    destruct (Sink_Start_accepted (fst (Sink_Stop k))) as (Hr & Hrun & Hflag & _ & Hq' & _ & _ & Hstats' & _);
      [right; exact Hst | exact Hw |].
    split; [exact Hr|]. split; [exact Hrun|].
    split; [rewrite Hq'; exact Hq|]. split; [exact Hflag|].
    rewrite Hstats'. exact Hstats.
Qed.

Lemma Sink_Stop_then_Start_witness :
  frame_queue_ (fst (Sink_Start (fst (Sink_Stop running_sink_3)))) = [].
Proof.
  apply (proj2 (Sink_Stop_then_Start running_sink_3)). vm_compute. reflexivity.
Defined.

(** No sequence of [Start], [Stop] and [Shutdown] calls takes a sink out of
    [ERROR]: every [Start] in it fails, every [Stop] and [Shutdown] returns
    true without doing anything, and the queue, the stop flag and the
    worker are left as they were.  A sink that entered [ERROR] while
    running therefore keeps its worker attached and unstopped. *)
Theorem Sink_ERROR_is_absorbing (ops : list LifecycleOp) (k : BaseVideoSink) :
  GetState (sink_block k) = ERROR ->
  GetState (sink_block (fst (Sink_lifecycle ops k))) = ERROR /\
  snd (Sink_lifecycle ops k)
    = map (fun op => match op with OpStart => false | _ => true end) ops /\
  frame_queue_ (fst (Sink_lifecycle ops k)) = frame_queue_ k /\
  stop_worker_ (fst (Sink_lifecycle ops k)) = stop_worker_ k /\
  worker_thread_ (fst (Sink_lifecycle ops k)) = worker_thread_ k.
Proof.
  revert k. induction ops as [|op rest IH]; intros k Hs; [cbn; repeat split; exact Hs|].
  cbn [Sink_lifecycle map].
  assert (Hstep : exists k1,
             Sink_apply op k
               = (k1, match op with OpStart => false | _ => true end) /\
             GetState (sink_block k1) = ERROR /\
             frame_queue_ k1 = frame_queue_ k /\
             stop_worker_ k1 = stop_worker_ k /\
             worker_thread_ k1 = worker_thread_ k).
  { assert (Hnr : GetState (sink_block k) <> RUNNING) by (rewrite Hs; discriminate).
    destruct op; cbn [Sink_apply].
    - destruct (Sink_Start_refused k) as (Hr & He & _ & Hq & Hf & Hw);
        try (rewrite Hs; discriminate).
      exists (fst (Sink_Start k)). rewrite <- Hr.
      split; [destruct (Sink_Start k); reflexivity|]. repeat split; assumption.
    - exists k. rewrite (Sink_Stop_not_running k Hnr). repeat split. exact Hs.
    - exists k. unfold Sink_Shutdown. rewrite (Sink_Stop_not_running k Hnr).
      repeat split. exact Hs. }
  destruct Hstep as (k1 & Hap & Hs1 & Hq1 & Hf1 & Hw1). rewrite Hap.
  destruct (IH k1 Hs1) as (He & Hres & Hq & Hf & Hw).
  destruct (Sink_lifecycle rest k1) as [k2 rs]. cbn [fst snd] in *.
  split; [exact He|]. split; [rewrite Hres; reflexivity|].
  split; [congruence|]. split; congruence.
Qed.

Lemma Sink_ERROR_is_absorbing_witness :
  GetState (sink_block
     (fst (Sink_lifecycle [OpStop; OpStart; OpShutdown]
             (fst (SetMaxQueueDepth 0 running_sink_3))))) = ERROR /\
  worker_thread_
     (fst (Sink_lifecycle [OpStop; OpStart; OpShutdown]
             (fst (SetMaxQueueDepth 0 running_sink_3)))) = true.
Proof.
  destruct (Sink_ERROR_is_absorbing [OpStop; OpStart; OpShutdown]
              (fst (SetMaxQueueDepth 0 running_sink_3)))
    as (He & _ & _ & _ & Hw).
  - vm_compute. reflexivity.
  - split; [exact He|]. rewrite Hw. vm_compute. reflexivity.
Defined.

(** ** Configuration of the sink *)

(** [SetInputFormat] stores the format on a sink that is not running and
    changes nothing else: the sink is the sink it was with the new format.
    On a running sink it is refused, the format, the limits and the queue
    are kept, and the refusal moves the sink to [ERROR]: from then on every
    submission is turned away, although the worker is still attached. *)
Theorem SetInputFormat_while_running (format : FrameInfo) (k : BaseVideoSink) :
  (GetState (sink_block k) <> RUNNING ->
     snd (SetInputFormat format k) = true /\
     input_format_ (fst (SetInputFormat format k)) = format /\
     sink_block (fst (SetInputFormat format k)) = sink_block k /\
     frame_queue_ (fst (SetInputFormat format k)) = frame_queue_ k /\
     max_queue_depth_ (fst (SetInputFormat format k)) = max_queue_depth_ k /\
     is_blocking_ (fst (SetInputFormat format k)) = is_blocking_ k /\
     stop_worker_ (fst (SetInputFormat format k)) = stop_worker_ k /\
     worker_thread_ (fst (SetInputFormat format k)) = worker_thread_ k /\
     fst (SetInputFormat format k)
     = {| sink_block := sink_block k; input_format_ := format;
          max_queue_depth_ := max_queue_depth_ k; is_blocking_ := is_blocking_ k;
          frame_queue_ := frame_queue_ k; stop_worker_ := stop_worker_ k;
          worker_thread_ := worker_thread_ k |}) /\
  (GetState (sink_block k) = RUNNING ->
     snd (SetInputFormat format k) = false /\
     input_format_ (fst (SetInputFormat format k)) = input_format_ k /\
     max_queue_depth_ (fst (SetInputFormat format k)) = max_queue_depth_ k /\
     is_blocking_ (fst (SetInputFormat format k)) = is_blocking_ k /\
     frame_queue_ (fst (SetInputFormat format k)) = frame_queue_ k /\
     GetState (sink_block (fst (SetInputFormat format k))) = ERROR /\
     worker_thread_ (fst (SetInputFormat format k)) = worker_thread_ k /\
     stop_worker_ (fst (SetInputFormat format k)) = stop_worker_ k /\
     forall now frame,
       ProcessFrame now frame (fst (SetInputFormat format k))
       = (fst (SetInputFormat format k), Returned false)).
Proof.
  split.
  - intros Hs. unfold SetInputFormat. rewrite (BlockState_eqb_neq _ _ Hs).
    cbn. repeat split.
  - intros Hs. unfold SetInputFormat. rewrite Hs. cbn [BlockState_eqb fst snd].
    assert (He : GetState (sink_block
                   (on_block (SetError "Cannot change input format while running") k))
                 = ERROR).
    { unfold on_block, with_block, SetError, SetState, GetState. cbn [sink_block].
      destruct (error_callback_ _); reflexivity. }
    split; [reflexivity|]. split; [reflexivity|].
    split; [reflexivity|]. split; [reflexivity|]. split; [reflexivity|].
    split; [exact He|].
    split; [reflexivity|]. split; [reflexivity|].
    intros now [f|]; cbn [ProcessFrame]; [|reflexivity].
    rewrite He. reflexivity.
Qed.

Lemma SetInputFormat_while_running_witness :
  ProcessFrame 50 (Some vga_frame)
    (fst (SetInputFormat (mkInfo YUYV 320 240) running_sink_3))
  = (fst (SetInputFormat (mkInfo YUYV 320 240) running_sink_3), Returned false) /\
  input_format_ (fst (SetInputFormat (mkInfo YUYV 320 240) initialized_sink))
  = mkInfo YUYV 320 240.
Proof.
  split.
  - apply (proj2 (SetInputFormat_while_running (mkInfo YUYV 320 240) running_sink_3)).
    vm_compute. reflexivity.
  - destruct (proj1 (SetInputFormat_while_running (mkInfo YUYV 320 240) initialized_sink))
      as (_ & Hf & _); [vm_compute; discriminate | exact Hf].
Defined.

(** [Initialize] reads the sink's stored parameters and never its argument.
    With neither [queue_depth] nor [blocking] stored, whatever map is
    passed, the limits stay as they were and the sink becomes
    [INITIALIZED].  A depth takes effect only when it was stored with
    [SetParameter] beforehand: a stored text that parses to a depth from 1
    to 1000 becomes the maximum. *)
Theorem Sink_Initialize_reads_stored_parameters
    (stoul : string -> Z -> option Z) (params : gmap string string)
    (k : BaseVideoSink) (text : string) (n : Z) :
  (params_ (sink_block k) !! "queue_depth" = None ->
   params_ (sink_block k) !! "blocking" = None ->
     Sink_Initialize stoul params k
     = Some (on_block (SetState INITIALIZED) k, true)) /\
  (text <> "" -> stoul text 10 = Some n -> 1 <= n <= 1000 ->
   params_ (sink_block k) !! "blocking" = None ->
     exists k',
       Sink_Initialize stoul params
         (on_block (fun b => fst (SetParameter "queue_depth" text b)) k)
       = Some (k', true) /\
       max_queue_depth_ k' = n /\
       is_blocking_ k' = is_blocking_ k /\
       GetState (sink_block k') = INITIALIZED).
Proof.
  split.
  - intros Hq Hb. unfold Sink_Initialize, GetParameter. rewrite Hq, Hb. reflexivity.
  - intros Hne Hparse Hn Hb.
    unfold Sink_Initialize, GetParameter, on_block, with_block, SetParameter.
    cbn [sink_block fst params_].
    rewrite lookup_insert_eq.
    rewrite lookup_insert_ne by discriminate. rewrite Hb.
    assert (Hs : String.eqb text "" = false) by (apply String.eqb_neq; exact Hne).
    rewrite Hs, Hparse. cbn [String.eqb].
    unfold SetMaxQueueDepth.
    assert (Hc : (n =? 0) || (1000 <? n) = false) by depth_in_range.
    rewrite Hc. eexists. split; [reflexivity|]. cbn. repeat split.
Qed.

Lemma Sink_Initialize_reads_stored_parameters_witness :
  (exists k',
     Sink_Initialize (fun _ _ => Some 5) {[ "queue_depth" := "7" ]}
       (on_block (fun b => fst (SetParameter "queue_depth" "5" b))
                 (new_BaseVideoSink 0 "sink" "ConsoleSink"))
     = Some (k', true) /\ max_queue_depth_ k' = 5) /\
  Sink_Initialize no_stoul {[ "queue_depth" := "7" ]}
    (new_BaseVideoSink 0 "sink" "ConsoleSink")
  = Some (on_block (SetState INITIALIZED) (new_BaseVideoSink 0 "sink" "ConsoleSink"),
          true).
Proof.
  split.
  - destruct (Sink_Initialize_reads_stored_parameters (fun _ _ => Some 5)
                {[ "queue_depth" := "7" ]}
                (new_BaseVideoSink 0 "sink" "ConsoleSink") "5" 5)
      as [_ Hstored].
    destruct Hstored as (k' & Hinit & Hmax & _); try reflexivity; try lia.
    + discriminate.
    + exists k'. split; assumption.
  - apply (proj1 (Sink_Initialize_reads_stored_parameters no_stoul
                    {[ "queue_depth" := "7" ]}
                    (new_BaseVideoSink 0 "sink" "ConsoleSink") "" 0)); reflexivity.
Defined.

Lemma SetMaxQueueDepth_refused (n : Z) (k : BaseVideoSink) :
  n = 0 \/ 1000 < n ->
  max_queue_depth_ (fst (SetMaxQueueDepth n k)) = max_queue_depth_ k /\
  last_error_ (sink_block (fst (SetMaxQueueDepth n k)))
    = "Invalid queue depth: " +:+ to_string n /\
  trace_ (sink_block (fst (SetMaxQueueDepth n k)))
    = trace_ (sink_block k) ++
      match error_callback_ (sink_block k) with
      | Some cb => [EvErrorCallback cb (name_ (sink_block k))
                      ("Invalid queue depth: " +:+ to_string n)]
      | None => []
      end.
Proof.
  intros Hbad.
  assert (Hc : (n =? 0) || (1000 <? n) = true).
  { destruct Hbad as [-> | Hbig]; [reflexivity|].
    apply orb_true_iff. right. apply Z.ltb_lt. exact Hbig. }
  unfold SetMaxQueueDepth. rewrite Hc. cbn [fst snd].
  unfold on_block, with_block, SetError, SetState.
  cbn [sink_block max_queue_depth_ frame_queue_ error_callback_ name_].
  destruct (error_callback_ (sink_block k)) as [cb|];
    cbn [emit_event state_ last_error_ trace_];
    repeat split; try reflexivity.
  symmetry. apply app_nil_r.
Qed.

(** A stored [queue_depth] that parses to 0 or to more than 1000 does not
    make [Initialize] fail: the depth is refused through [SetError] (message
    stored, callback called), the maximum stays as it was, and [Initialize]
    still returns true with the sink [INITIALIZED].  A text that
    [std::stoul] cannot parse makes the exception leave [Initialize]. *)
Theorem Sink_Initialize_swallows_bad_depth
    (stoul : string -> Z -> option Z) (params : gmap string string)
    (k : BaseVideoSink) (text : string) (n : Z) :
  params_ (sink_block k) !! "queue_depth" = Some text -> text <> "" ->
  (stoul text 10 = Some n -> n = 0 \/ 1000 < n ->
     exists k',
       Sink_Initialize stoul params k = Some (k', true) /\
       GetState (sink_block k') = INITIALIZED /\
       max_queue_depth_ k' = max_queue_depth_ k /\
       GetLastError (sink_block k') = "Invalid queue depth: " +:+ to_string n /\
       error_callback_calls (trace_ (sink_block k'))
         = (error_callback_calls (trace_ (sink_block k))
            + match error_callback_ (sink_block k) with
              | Some _ => 1 | None => 0 end)%nat) /\
  (stoul text 10 = None -> Sink_Initialize stoul params k = None).
Proof.
  intros Hq Hne.
  assert (Hs : String.eqb text "" = false) by (apply String.eqb_neq; exact Hne).
  split.
  - intros Hparse Hbad.
    destruct (SetMaxQueueDepth_refused n k Hbad) as (Hmax & Herr & Htr).
    unfold Sink_Initialize, GetParameter. rewrite Hq, Hs, Hparse.
    eexists. split; [reflexivity|].
    assert (Hcalls : forall tr e,
               error_callback_calls (tr ++ e)
               = (error_callback_calls tr + error_callback_calls e)%nat).
    { intros tr e. induction tr as [|x tr IH]; [reflexivity|].
      destruct x; cbn; rewrite ?IH; reflexivity. }
    destruct (String.eqb (match params_ (sink_block k) !! "blocking" with
                          | Some v => v
                          | None => ""
                          end) "");
      cbn [on_block with_block SetBlocking SetState GetState GetLastError sink_block
           state_ last_error_ trace_ max_queue_depth_];
      (split; [reflexivity|]); (split; [exact Hmax|]); (split; [exact Herr|]);
      rewrite Htr, Hcalls; destruct (error_callback_ (sink_block k)); reflexivity.
  - intros Hparse. unfold Sink_Initialize, GetParameter. rewrite Hq, Hs, Hparse.
    reflexivity.
Qed.

Lemma Sink_Initialize_swallows_bad_depth_witness :
  exists k',
    Sink_Initialize (fun _ _ => Some 0) ∅
      (on_block (fun b => fst (SetParameter "queue_depth" "0" b)) initialized_sink)
    = Some (k', true) /\
    GetState (sink_block k') = INITIALIZED /\
    GetLastError (sink_block k') = "Invalid queue depth: 0".
Proof.
  destruct (Sink_Initialize_swallows_bad_depth (fun _ _ => Some 0) ∅
              (on_block (fun b => fst (SetParameter "queue_depth" "0" b))
                        initialized_sink) "0" 0)
    as [Hbad _]; [vm_compute; reflexivity | discriminate |].
  destruct Hbad as (k' & Hinit & Hst & _ & Herr & _); [reflexivity | left; reflexivity |].
  exists k'. repeat split; assumption.
Defined.

(** ** Accounting of frames in the sink *)

Lemma length_tail_cons {A : Type} (x : A) (q : list A) (f : A) :
  length (tail (x :: q) ++ [f]) = length (x :: q).
Proof. cbn [tail]. rewrite length_app. cbn [length]. lia. Qed.

(** As long as the 64-bit counters do not wrap, every frame the sink has
    accepted is in exactly one place: processed, dropped, or still queued.
    A submission that returns true raises the total by one (also when it
    evicts the oldest frame), a submission that does not return true
    changes nothing, and a pass of the worker that handles a frame moves it
    from the queue to one of the two counters. *)
Theorem sink_accounts_for_every_frame (now : Z) (k : BaseVideoSink) :
  0 < max_queue_depth_ k ->
  0 <= frames_processed (stats_ (sink_block k)) < 2 ^ 64 - 1 ->
  0 <= frames_dropped (stats_ (sink_block k)) < 2 ^ 64 - 1 ->
  (forall frame k',
      ProcessFrame now frame k = (k', Returned true) ->
      accounted k' = accounted k + 1) /\
  (forall frame k' status,
      ProcessFrame now frame k = (k', status) -> status <> Returned true ->
      k' = k) /\
  (forall (I : Type) (impl : VideoSinkImpl I) (i : I) f q,
      frame_queue_ k = f :: q ->
      snd (ProcessFrameImpl i f) <> HookThrowsOther ->
      snd (WorkerThread_body now (k, i)) = WorkerContinue /\
      accounted (fst (fst (WorkerThread_body now (k, i)))) = accounted k).
Proof.
  intros Hpos Hfp Hfd. split; [|split].
  - intros [f|] k' Hret; cbn [ProcessFrame] in Hret; [|discriminate].
    destruct (negb (BlockState_eqb (GetState (sink_block k)) RUNNING)); [discriminate|].
    destruct (max_queue_depth_ k <=? queue_size k) eqn:Hfull.
    + destruct (is_blocking_ k); cbn [negb] in Hret.
      * unfold ProcessFrame_wake, after_wait in Hret.
        destruct (space_or_stop k); [|discriminate].
        destruct (stop_worker_ k); [discriminate|].
        injection Hret as <-. unfold accounted, queue_size. cbn.
        rewrite length_app. cbn [length]. lia.
      * apply Z.leb_le in Hfull.
        destruct (full_queue_has_oldest k Hpos Hfull) as (x & q & Hq).
        injection Hret as <-. unfold accounted, queue_size. cbn.
        rewrite Hq, length_tail_cons. cbn [length].
        rewrite (wrap64_small (frames_dropped (stats_ (sink_block k)) + 1)) by lia.
        lia.
    + injection Hret as <-. unfold accounted, queue_size. cbn.
      rewrite length_app. cbn [length]. lia.
  - intros [f|] k' status Hret Hne; cbn [ProcessFrame] in Hret;
      [|injection Hret as <- _; reflexivity].
    destruct (negb (BlockState_eqb (GetState (sink_block k)) RUNNING));
      [injection Hret as <- _; reflexivity|].
    destruct (max_queue_depth_ k <=? queue_size k).
    + destruct (is_blocking_ k); cbn [negb] in Hret.
      * unfold ProcessFrame_wake, after_wait in Hret.
        destruct (space_or_stop k); [|injection Hret as <- _; reflexivity].
        destruct (stop_worker_ k); [injection Hret as <- _; reflexivity|].
        unfold enqueue in Hret. injection Hret as _ <-. contradiction.
      * unfold enqueue in Hret. injection Hret as _ <-. contradiction.
    + unfold enqueue in Hret. injection Hret as _ <-. contradiction.
  - intros I impl i f q Hq Hout.
    unfold WorkerThread_body, nonempty_or_stop, queue_size. cbn [fst snd].
    rewrite Hq. cbn [length].
    replace (Z.of_nat (S (length q)) =? 0) with false
      by (symmetry; apply Z.eqb_neq; lia).
    cbn [negb orb]. rewrite andb_false_r.
    destruct (ProcessFrameImpl i f) as [i' [[|]|what|]]; cbn [snd] in Hout;
      try contradiction; (split; [reflexivity|]);
      unfold accounted, queue_size; cbn; rewrite Hq; cbn [length];
      rewrite ?(wrap64_small (frames_processed (stats_ (sink_block k)) + 1)) by lia;
      rewrite ?(wrap64_small (frames_dropped (stats_ (sink_block k)) + 1)) by lia;
      lia.
Qed.

Lemma sink_accounts_for_every_frame_witness :
  accounted (fst (ProcessFrame 30 (Some (numbered_frame 3)) full_dropping_sink))
  = accounted full_dropping_sink + 1.
Proof.
  destruct (sink_accounts_for_every_frame 30 full_dropping_sink) as (Hsubmit & _).
  - vm_compute. reflexivity.
  - vm_compute. split; [discriminate | reflexivity].
  - vm_compute. split; [discriminate | reflexivity].
  - apply (Hsubmit (Some (numbered_frame 3))).
    vm_compute. reflexivity.
Defined.

(** ** Order of processing *)

Lemma recorded_body_step {I : Type} (impl : VideoSinkImpl I) (now : Z)
    (k : BaseVideoSink) (i : I) (log : list Frame) (f : Frame) (q : list Frame) :
  frame_queue_ k = f :: q ->
  snd (@ProcessFrameImpl I impl i f) <> HookThrowsOther ->
  exists k' i',
    @WorkerThread_body _ (recorded impl) now (k, (i, log))
      = ((k', (i', log ++ [f])), WorkerContinue) /\
    frame_queue_ k' = q /\ stop_worker_ k' = stop_worker_ k.
Proof.
  intros Hq Hout.
  unfold WorkerThread_body, nonempty_or_stop, queue_size. cbn [fst snd].
  rewrite Hq. cbn [length].
  replace (Z.of_nat (S (length q)) =? 0) with false
    by (symmetry; apply Z.eqb_neq; lia).
  cbn [negb orb]. rewrite andb_false_r.
  unfold ProcessFrameImpl at 1. unfold recorded. cbn [fst snd].
  destruct (@ProcessFrameImpl I impl i f) as [i' [success|what|]]; cbn [snd] in Hout;
    try contradiction; eexists; eexists; (split; [reflexivity|]); cbn; split; reflexivity.
Qed.

(** The worker hands the queued frames to the hook in queue order: left to
    run for as many passes as there are frames, with the stop flag clear
    and a hook that throws nothing but [std::exception]s, it calls the hook
    once with each queued frame, front first, and leaves the queue empty. *)
Theorem worker_processes_in_queue_order {I : Type} (impl : VideoSinkImpl I)
    (clock : list Z) : forall (k : BaseVideoSink) (i : I) (log : list Frame),
  stop_worker_ k = false ->
  length clock = length (frame_queue_ k) ->
  (forall i0 f, snd (@ProcessFrameImpl I impl i0 f) <> HookThrowsOther) ->
  snd (@worker_run _ (recorded impl) clock (k, (i, log))) = WorkerContinue /\
  frame_queue_ (fst (fst (@worker_run _ (recorded impl) clock (k, (i, log))))) = [] /\
  snd (snd (fst (@worker_run _ (recorded impl) clock (k, (i, log)))))
    = log ++ frame_queue_ k.
Proof.
  induction clock as [|now rest IH]; intros k i log Hstop Hlen Hhook.
  - cbn [worker_run fst snd]. cbn [length] in Hlen.
    destruct (frame_queue_ k); [|discriminate].
    rewrite app_nil_r. repeat split.
  - destruct (frame_queue_ k) as [|f q] eqn:Hq; [discriminate|].
    cbn [length] in Hlen. injection Hlen as Hlen.
    destruct (recorded_body_step impl now k i log f q Hq (Hhook i f))
      as (k' & i' & Hstep & Hq' & Hstop').
    cbn [worker_run]. unfold WorkerThread_iteration. cbn [fst]. rewrite Hstop, Hstep.
    destruct (IH k' i' (log ++ [f])) as (Hst & Hempty & Hlog).
    + rewrite Hstop'. exact Hstop.
    + rewrite Hq'. exact Hlen.
    + exact Hhook.
    + split; [exact Hst|]. split; [exact Hempty|].
      rewrite Hlog, Hq', <- app_assoc. reflexivity.
Qed.

Lemma worker_processes_in_queue_order_witness :
  snd (snd (fst (@worker_run _ (recorded always_throwing) [40; 50; 60]
                   (running_sink_3, (tt, [])))))
  = [numbered_frame 1; numbered_frame 2; numbered_frame 3].
Proof.
  destruct (worker_processes_in_queue_order always_throwing [40; 50; 60]
              running_sink_3 tt []) as (_ & _ & Hlog).
  - vm_compute. reflexivity.
  - vm_compute. reflexivity.
  - intros i0 f. cbn. discriminate.
  - rewrite Hlog. vm_compute. reflexivity.
Defined.

(** ** Statistics and sequence numbers of a source *)

(** [ResetStats] restarts the numbering of frames: the first frame a source
    delivers after it carries sequence number 1, whatever was delivered
    before, and the counters start again from zero.  The block state, the
    parameters and the trace are left alone. *)
Theorem ResetStats_restarts_numbering (now : Z) (c : EmitClock) (f : Frame)
    (cb : FrameCallback) (s : BaseVideoSource) :
  frame_callback_ s = Some cb ->
  ShouldEmitFrame (t_gate c) s = true ->
  state_ (source_block (src_on_block (ResetStats now) s)) = state_ (source_block s) /\
  params_ (source_block (src_on_block (ResetStats now) s)) = params_ (source_block s) /\
  trace_ (source_block (EmitFrame c (Some f) (src_on_block (ResetStats now) s)))
    = trace_ (source_block s)
      ++ [EvFrameCallback cb (stamp (GetCurrentTimestampUs (t_stamp c)) 1 f)] /\
  frames_processed
    (stats_ (source_block (EmitFrame c (Some f) (src_on_block (ResetStats now) s)))) = 1 /\
  frames_dropped
    (stats_ (source_block (EmitFrame c (Some f) (src_on_block (ResetStats now) s)))) = 0 /\
  bytes_processed
    (stats_ (source_block (EmitFrame c (Some f) (src_on_block (ResetStats now) s))))
    = wrap64 (GetSize f).
Proof.
  intros Hcb Hgate.
  split; [reflexivity|]. split; [reflexivity|].
  assert (Hcb' : frame_callback_ (src_on_block (ResetStats now) s) = Some cb)
    by exact Hcb.
  assert (Hgate' : ShouldEmitFrame (t_gate c) (src_on_block (ResetStats now) s) = true)
    by exact Hgate.
  destruct (EmitFrame_gate_open c f cb _ Hcb' Hgate') as [Htr Hfp].
  split; [exact Htr|]. split; [exact Hfp|].
  unfold EmitFrame. rewrite Hcb', Hgate'. cbn. split; reflexivity.
Qed.

Lemma ResetStats_restarts_numbering_witness :
  delivered_seqs
    (trace_ (source_block
       (EmitFrame (clock_at 200) (Some vga_frame)
          (src_on_block (ResetStats 150000000) (tps_source first_run)))))
  = [1; 1].
Proof.
  destruct (ResetStats_restarts_numbering 150000000 (clock_at 200) vga_frame
              (RouteToSink "sink") (tps_source first_run)) as (_ & _ & Htr & _).
  - vm_compute. reflexivity.
  - vm_compute. reflexivity.
  - rewrite Htr. vm_compute. reflexivity.
Defined.

Lemma delivered_length_snoc tr cb f :
  length (delivered (tr ++ [EvFrameCallback cb f])) = S (length (delivered tr)).
Proof. rewrite delivered_app, length_app. cbn. lia. Qed.

Lemma EmitFrame_counts_once c frame s cb :
  frame_callback_ s = Some cb ->
  0 <= frames_processed (stats_ (source_block s)) < 2 ^ 64 - 1 ->
  0 <= frames_dropped (stats_ (source_block s)) < 2 ^ 64 - 1 ->
  let s' := EmitFrame c frame s in
  let attempted := match frame with Some _ => 1 | None => 0 end in
  frame_callback_ s' = Some cb /\
  frames_processed (stats_ (source_block s')) + frames_dropped (stats_ (source_block s'))
    = frames_processed (stats_ (source_block s))
      + frames_dropped (stats_ (source_block s)) + attempted /\
  frames_processed (stats_ (source_block s)) <= frames_processed (stats_ (source_block s')) /\
  frames_dropped (stats_ (source_block s)) <= frames_dropped (stats_ (source_block s')) /\
  Z.of_nat (length (delivered (trace_ (source_block s'))))
    - frames_processed (stats_ (source_block s'))
    = Z.of_nat (length (delivered (trace_ (source_block s))))
      - frames_processed (stats_ (source_block s)).
Proof.
  intros Hcb Hfp Hfd. cbn zeta.
  destruct frame as [f|]; [|unfold EmitFrame; rewrite ?Hcb; repeat split; lia].
  destruct (ShouldEmitFrame (t_gate c) s) eqn:Hgate.
  - destruct (EmitFrame_gate_open c f cb s Hcb Hgate) as [Htr Hproc].
    rewrite Htr, Hproc, delivered_length_snoc.
    rewrite (wrap64_small (frames_processed (stats_ (source_block s)) + 1)) by lia.
    unfold EmitFrame. rewrite Hcb, Hgate. cbn. repeat split; try lia. exact Hcb.
  - rewrite (EmitFrame_gate_closed c f cb s Hcb Hgate). cbn.
    rewrite (wrap64_small (frames_dropped (stats_ (source_block s)) + 1)) by lia.
    repeat split; try lia. exact Hcb.
Qed.

(** A source with a delivery callback counts every attempt exactly once:
    over any run of [EmitFrame] calls that stays within the 64-bit
    counters, [frames_processed] plus [frames_dropped] grows by the number
    of calls made with a frame, and [frames_processed] grows by the number
    of frames handed to the callback. *)
Theorem source_counts_every_attempt (calls : list (EmitClock * VideoFramePtr)) :
  forall (s : BaseVideoSource) (cb : FrameCallback),
  frame_callback_ s = Some cb ->
  0 <= frames_processed (stats_ (source_block s)) ->
  0 <= frames_dropped (stats_ (source_block s)) ->
  frames_processed (stats_ (source_block s)) + frames_dropped (stats_ (source_block s))
    + Z.of_nat (length calls) < 2 ^ 64 ->
  frames_processed (stats_ (source_block (emit_run calls s)))
    + frames_dropped (stats_ (source_block (emit_run calls s)))
    = frames_processed (stats_ (source_block s))
      + frames_dropped (stats_ (source_block s)) + calls_with_frame calls /\
  Z.of_nat (length (delivered (trace_ (source_block (emit_run calls s)))))
    - Z.of_nat (length (delivered (trace_ (source_block s))))
    = frames_processed (stats_ (source_block (emit_run calls s)))
      - frames_processed (stats_ (source_block s)).
Proof.
  induction calls as [|[c frame] rest IH]; intros s cb Hcb Hfp Hfd Hfit.
  - cbn [emit_run]. unfold calls_with_frame. cbn. split; lia.
  - cbn [emit_run]. cbn [length] in Hfit.
    destruct (EmitFrame_counts_once c frame s cb Hcb) as (Hcb' & Hsum & Hp & Hd & Hdel);
      [lia | lia |].
    assert (Hatt : match frame with Some _ => 1 | None => 0 end <= 1)
      by (destruct frame; lia).
    destruct (IH (EmitFrame c frame s) cb Hcb') as [Hsum' Hdel']; [lia | lia | lia |].
    assert (Hcalls : calls_with_frame ((c, frame) :: rest)
                     = match frame with Some _ => 1 | None => 0 end
                       + calls_with_frame rest).
    { unfold calls_with_frame. rewrite filter_cons. cbn [snd].
      destruct frame as [f|].
      - destruct (decide (is_Some (Some f))) as [_|Hn].
        + cbn [length]. rewrite Nat2Z.inj_succ, <- Z.add_1_l. reflexivity.
        + exfalso. apply Hn. eexists. reflexivity.
      - destruct (decide (is_Some (@None Frame))) as [[x Hx]|_]; [discriminate|].
        rewrite Z.add_0_l. reflexivity. }
    rewrite Hcalls. split; lia.
Qed.

Lemma source_counts_every_attempt_witness :
  frames_processed
    (stats_ (source_block (emit_run three_calls (tps_source initialized_source))))
  + frames_dropped
      (stats_ (source_block (emit_run three_calls (tps_source initialized_source))))
  = 3.
Proof.
  destruct (source_counts_every_attempt three_calls (tps_source initialized_source)
              (RouteToSink "sink")) as [Hsum _].
  - reflexivity.
  - vm_compute. discriminate.
  - vm_compute. discriminate.
  - vm_compute. reflexivity.
  - rewrite Hsum. vm_compute. reflexivity.
Defined.

(** ** The frame-rate gate *)

(** With a frame rate that is not positive the gate never refuses.  With a
    positive rate and a non-negative interval, a frame offered at or after
    the previous emission is let through exactly when at least
    [frame_interval_] microseconds have passed since that emission. *)
Theorem gate_enforces_frame_interval (now : Z) (s : BaseVideoSource) :
  (QArith_base.Qle_bool (frame_rate_ s) (QArith_base.Qmake 0 1) = true ->
     ShouldEmitFrame now s = true) /\
  (QArith_base.Qle_bool (frame_rate_ s) (QArith_base.Qmake 0 1) = false ->
   0 <= frame_interval_ s -> last_frame_time_ s <= now ->
     (ShouldEmitFrame now s = true
      <-> 1000 * frame_interval_ s <= now - last_frame_time_ s)).
Proof.
  split.
  - intros Hrate. unfold ShouldEmitFrame. rewrite Hrate. reflexivity.
  - intros Hrate Hint Hnow. unfold ShouldEmitFrame. rewrite Hrate.
    rewrite Z.quot_div_nonneg by lia. rewrite Z.leb_le.
    split; intros Hle.
    + assert (H1 : 1000 * ((now - last_frame_time_ s) / 1000)
                   <= now - last_frame_time_ s)
        by (apply Z.mul_div_le; lia).
      lia.
    + apply Z.div_le_lower_bound; lia.
Qed.

Lemma gate_enforces_frame_interval_witness :
  ShouldEmitFrame 133333000 (tps_source first_run) = true.
Proof.
  apply (proj2 (gate_enforces_frame_interval 133333000 (tps_source first_run)));
    vm_compute; try reflexivity; discriminate.
Defined.

(** ** Buffer count of a source *)

(** [SetBufferCount] accepts a count from 1 to 100 and stores it without
    touching anything else: the source is the source it was with the new
    count.  It refuses 0 and every count above 100: the stored count, the
    format, the rate, the callback and the gate stay, and the refusal goes
    through [SetError], which leaves the source in [ERROR] with the message
    naming the count. *)
Theorem SetBufferCount_bounds (count : Z) (s : BaseVideoSource) :
  (1 <= count <= 100 ->
     snd (SetBufferCount count s) = true /\
     buffer_count_ (fst (SetBufferCount count s)) = count /\
     source_block (fst (SetBufferCount count s)) = source_block s /\
     output_format_ (fst (SetBufferCount count s)) = output_format_ s /\
     frame_rate_ (fst (SetBufferCount count s)) = frame_rate_ s /\
     frame_callback_ (fst (SetBufferCount count s)) = frame_callback_ s /\
     last_frame_time_ (fst (SetBufferCount count s)) = last_frame_time_ s /\
     frame_interval_ (fst (SetBufferCount count s)) = frame_interval_ s /\
     fst (SetBufferCount count s)
     = {| source_block := source_block s; output_format_ := output_format_ s;
          frame_rate_ := frame_rate_ s; buffer_count_ := count;
          frame_callback_ := frame_callback_ s;
          last_frame_time_ := last_frame_time_ s;
          frame_interval_ := frame_interval_ s |}) /\
  (count = 0 \/ 100 < count ->
     snd (SetBufferCount count s) = false /\
     buffer_count_ (fst (SetBufferCount count s)) = buffer_count_ s /\
     output_format_ (fst (SetBufferCount count s)) = output_format_ s /\
     frame_rate_ (fst (SetBufferCount count s)) = frame_rate_ s /\
     frame_callback_ (fst (SetBufferCount count s)) = frame_callback_ s /\
     last_frame_time_ (fst (SetBufferCount count s)) = last_frame_time_ s /\
     frame_interval_ (fst (SetBufferCount count s)) = frame_interval_ s /\
     GetState (source_block (fst (SetBufferCount count s))) = ERROR /\
     GetLastError (source_block (fst (SetBufferCount count s)))
       = "Invalid buffer count: " +:+ to_string count).
Proof.
  split.
  - intros [Hlo Hhi]. unfold SetBufferCount.
    assert (Hc : (count =? 0) || (100 <? count) = false).
    { apply orb_false_iff. split; [apply Z.eqb_neq | apply Z.ltb_ge]; lia. }
    rewrite Hc. cbn. repeat split.
  - intros Hbad. unfold SetBufferCount.
    assert (Hc : (count =? 0) || (100 <? count) = true).
    { destruct Hbad as [-> | Hbig]; [reflexivity|].
      apply orb_true_iff. right. apply Z.ltb_lt. exact Hbig. }
    rewrite Hc. cbn [fst snd].
    unfold src_on_block, SetError, SetState, GetState, GetLastError.
    cbn [source_block buffer_count_ error_callback_ output_format_ frame_rate_
         frame_callback_ last_frame_time_ frame_interval_].
    destruct (error_callback_ (source_block s)); cbn; repeat split.
Qed.

Lemma SetBufferCount_bounds_witness :
  buffer_count_ (fst (SetBufferCount 4 (tps_source initialized_source))) = 4 /\
  GetState (source_block (fst (SetBufferCount 101 (tps_source initialized_source))))
  = ERROR.
Proof.
  split.
  - destruct (proj1 (SetBufferCount_bounds 4 (tps_source initialized_source)))
      as (_ & Hc & _); [lia | exact Hc].
  - destruct (proj2 (SetBufferCount_bounds 101 (tps_source initialized_source)))
      as (_ & _ & _ & _ & _ & _ & _ & He & _); [right; lia | exact He].
Defined.

(** ** Formats of the test pattern source *)

(** The format test and the format list of the test pattern source agree:
    a format is supported exactly when it is listed, and the list has no
    repetition. *)
Theorem TPS_supported_formats_agree (format : PixelFormat) :
  (TPS_SupportsFormat format = true <-> In format TPS_GetSupportedFormats) /\
  NoDup TPS_GetSupportedFormats.
Proof.
  split.
  - unfold TPS_GetSupportedFormats. split.
    + destruct format; cbn; intros H; try discriminate; tauto.
    + intros Hin. cbn in Hin.
      destruct Hin as [<-|[<-|[<-|[<-|[<-|[<-|[]]]]]]]; reflexivity.
  - unfold TPS_GetSupportedFormats.
    repeat (apply NoDup_cons_2;
            [rewrite ?not_elem_of_cons; repeat split;
             try discriminate; apply not_elem_of_nil|]).
    apply NoDup_nil_2.
Qed.

(** [SetOutputFormat] is refused on a running source and for a format the
    source does not support; either refusal leaves the format as it was and
    the source in [ERROR].  Otherwise the format is stored: its stride is
    kept when it is not zero, and a zero stride is replaced by the width
    times the bytes per pixel of a packed format (in 32 bits), or by the
    width itself for the planar one. *)
Theorem TPS_SetOutputFormat_outcomes (format : FrameInfo) (t : TestPatternSource) :
  (GetState (tps_block t) = RUNNING \/ TPS_SupportsFormat (pixel_format format) = false ->
     snd (TPS_SetOutputFormat format t) = false /\
     TPS_GetOutputFormat (fst (TPS_SetOutputFormat format t)) = TPS_GetOutputFormat t /\
     GetState (tps_block (fst (TPS_SetOutputFormat format t))) = ERROR) /\
  (GetState (tps_block t) <> RUNNING -> TPS_SupportsFormat (pixel_format format) = true ->
     snd (TPS_SetOutputFormat format t) = true /\
     tps_block (fst (TPS_SetOutputFormat format t)) = tps_block t /\
     (stride format <> 0 ->
        TPS_GetOutputFormat (fst (TPS_SetOutputFormat format t)) = format) /\
     (stride format = 0 ->
        TPS_GetOutputFormat (fst (TPS_SetOutputFormat format t))
        = with_stride (default_stride (pixel_format format) (width format)) format)).
Proof.
  assert (Herr : forall msg,
             GetState (tps_block (tps_on_block (SetError msg) t)) = ERROR).
  { intros msg. unfold tps_on_block, tps_with_source, tps_block, src_on_block,
      SetError, SetState, GetState. cbn [tps_source source_block].
    destruct (error_callback_ _); reflexivity. }
  split.
  - intros Hbad. unfold TPS_SetOutputFormat.
    destruct (BlockState_eqb (GetState (tps_block t)) RUNNING) eqn:Hs.
    + cbn [fst snd]. repeat split. apply Herr.
    + destruct Hbad as [Hrun | Hfmt].
      * rewrite Hrun in Hs. discriminate.
      * rewrite Hfmt. cbn [negb fst snd]. repeat split. apply Herr.
  - intros Hs Hfmt. unfold TPS_SetOutputFormat.
    rewrite (BlockState_eqb_neq _ _ Hs), Hfmt. cbn [negb fst snd].
    split; [reflexivity|]. split; [reflexivity|]. split.
    + intros Hstride. apply Z.eqb_neq in Hstride. rewrite Hstride. reflexivity.
    + intros Hstride. rewrite Hstride. reflexivity.
Qed.

Lemma TPS_SetOutputFormat_outcomes_witness :
  stride (TPS_GetOutputFormat
            (fst (TPS_SetOutputFormat (mkInfo RGBA32 320 240) initialized_source)))
  = 1280 /\
  snd (TPS_SetOutputFormat (mkInfo NV12 320 240) initialized_source) = false.
Proof.
  split.
  - destruct (TPS_SetOutputFormat_outcomes (mkInfo RGBA32 320 240) initialized_source)
      as [_ Hok].
    destruct Hok as (_ & _ & _ & Hzero);
      [vm_compute; discriminate | reflexivity |].
    rewrite Hzero by reflexivity. vm_compute. reflexivity.
  - apply (proj1 (TPS_SetOutputFormat_outcomes (mkInfo NV12 320 240) initialized_source)).
    right. reflexivity.
Defined.

(** ** Lifecycle of the test pattern source *)

Lemma TPS_Start_refused (t : TestPatternSource) :
  GetState (tps_block t) = UNINITIALIZED \/ GetState (tps_block t) = STARTING \/
  GetState (tps_block t) = STOPPING \/ GetState (tps_block t) = ERROR ->
  snd (TPS_Start t) = false /\
  GetState (tps_block (fst (TPS_Start t))) = ERROR /\
  generator_thread_ (fst (TPS_Start t)) = generator_thread_ t.
Proof.
  intros Hs. unfold TPS_Start.
  assert (Hgo : BlockState_eqb (GetState (tps_block t)) RUNNING = false /\
                negb (BlockState_eqb (GetState (tps_block t)) INITIALIZED)
                && negb (BlockState_eqb (GetState (tps_block t)) STOPPED) = true).
  { destruct Hs as [Hs | [Hs | [Hs | Hs]]]; rewrite Hs; split; reflexivity. }
  destruct Hgo as [H1 H2]. rewrite H1, H2. cbn [fst snd].
  unfold tps_on_block, tps_with_source, tps_block, src_on_block, SetError,
    SetState, GetState. cbn [tps_source source_block generator_thread_].
  destruct (error_callback_ _); cbn; repeat split.
Qed.

(** [Start] on a running test pattern source returns true and changes
    nothing; from [INITIALIZED] or [STOPPED], on a source whose generator is
    not attached (assigning a new thread over a joinable one ends the
    process), it clears the stop flag and the frame counter, attaches the
    generator and leaves the source [RUNNING], with format, statistics and
    trace as they were; from any other state it fails and leaves the source
    in [ERROR].  [Stop] on a running source
    sets the stop flag, joins the generator and leaves the source
    [STOPPED] with its frame counter and statistics as they were. *)
Theorem TPS_lifecycle_outcomes (t : TestPatternSource) :
  (GetState (tps_block t) = RUNNING -> TPS_Start t = (t, true)) /\
  (GetState (tps_block t) = INITIALIZED \/ GetState (tps_block t) = STOPPED ->
   generator_thread_ t = false ->
     snd (TPS_Start t) = true /\
     GetState (tps_block (fst (TPS_Start t))) = RUNNING /\
     stop_generator_ (fst (TPS_Start t)) = false /\
     generator_thread_ (fst (TPS_Start t)) = true /\
     frame_counter_ (fst (TPS_Start t)) = 0 /\
     output_format_ (tps_source (fst (TPS_Start t))) = output_format_ (tps_source t) /\
     test_pattern_ (fst (TPS_Start t)) = test_pattern_ t /\
     stats_ (tps_block (fst (TPS_Start t))) = stats_ (tps_block t) /\
     trace_ (tps_block (fst (TPS_Start t))) = trace_ (tps_block t)) /\
  (GetState (tps_block t) = UNINITIALIZED \/ GetState (tps_block t) = STARTING \/
   GetState (tps_block t) = STOPPING \/ GetState (tps_block t) = ERROR ->
     snd (TPS_Start t) = false /\
     GetState (tps_block (fst (TPS_Start t))) = ERROR /\
     generator_thread_ (fst (TPS_Start t)) = generator_thread_ t) /\
  (GetState (tps_block t) = RUNNING ->
     snd (TPS_Stop t) = true /\
     GetState (tps_block (fst (TPS_Stop t))) = STOPPED /\
     stop_generator_ (fst (TPS_Stop t)) = true /\
     generator_thread_ (fst (TPS_Stop t)) = false /\
     frame_counter_ (fst (TPS_Stop t)) = frame_counter_ t /\
     stats_ (tps_block (fst (TPS_Stop t))) = stats_ (tps_block t)).
Proof.
  split; [|split; [|split]].
  - intros Hs. unfold TPS_Start. rewrite Hs. reflexivity.
  - intros [Hs | Hs] _; unfold TPS_Start; rewrite Hs; cbn; repeat split.
  - apply TPS_Start_refused.
  - intros Hs. unfold TPS_Stop. rewrite Hs. cbn. repeat split.
Qed.

Lemma TPS_lifecycle_outcomes_witness :
  TPS_Start restarted_source = (restarted_source, true) /\
  frame_counter_ (fst (TPS_Start stopped_source)) = 0.
Proof.
  split.
  - apply (proj1 (TPS_lifecycle_outcomes restarted_source)). vm_compute. reflexivity.
  - destruct (proj1 (proj2 (TPS_lifecycle_outcomes stopped_source)))
      as (_ & _ & _ & _ & Hfc & _);
      [right; vm_compute; reflexivity | vm_compute; reflexivity | exact Hfc].
Defined.

(** No sequence of [Start], [Stop] and [Shutdown] calls takes a test pattern
    source out of [ERROR]: every [Start] fails, [Stop] and [Shutdown] return
    true and do nothing, and no frame is delivered. *)
Theorem TPS_ERROR_is_absorbing (ops : list LifecycleOp) (t : TestPatternSource) :
  GetState (tps_block t) = ERROR ->
  GetState (tps_block (fst (TPS_lifecycle ops t))) = ERROR /\
  snd (TPS_lifecycle ops t)
    = map (fun op => match op with OpStart => false | _ => true end) ops /\
  generator_thread_ (fst (TPS_lifecycle ops t)) = generator_thread_ t /\
  delivered (trace_ (tps_block (fst (TPS_lifecycle ops t))))
    = delivered (trace_ (tps_block t)).
Proof.
  revert t. induction ops as [|op rest IH]; intros t Hs; [cbn; repeat split; exact Hs|].
  cbn [TPS_lifecycle map].
  assert (Hstep : exists t1,
             TPS_apply op t
               = (t1, match op with OpStart => false | _ => true end) /\
             GetState (tps_block t1) = ERROR /\
             generator_thread_ t1 = generator_thread_ t /\
             delivered (trace_ (tps_block t1)) = delivered (trace_ (tps_block t))).
  { assert (Hnr : GetState (tps_block t) <> RUNNING) by (rewrite Hs; discriminate).
    destruct op; cbn [TPS_apply].
    - exists (fst (TPS_Start t)).
      destruct (TPS_Start_refused t) as (Hr & He & Hg); [right; right; right; exact Hs|].
      split; [rewrite <- Hr; destruct (TPS_Start t); reflexivity|].
      split; [exact He|]. split; [exact Hg|].
      unfold TPS_Start. rewrite Hs. cbn [BlockState_eqb negb andb fst].
      unfold tps_on_block, tps_with_source, tps_block, src_on_block, SetError.
      cbn [tps_source source_block].
      destruct (error_callback_ _); cbn [emit_event SetState trace_];
        rewrite ?delivered_app, ?app_nil_r; reflexivity.
    - exists t. rewrite (TPS_Stop_not_running t Hnr). repeat split. exact Hs.
    - exists t. unfold TPS_Shutdown. rewrite (TPS_Stop_not_running t Hnr).
      repeat split. exact Hs. }
  destruct Hstep as (t1 & Hap & Hs1 & Hg1 & Hd1). rewrite Hap.
  destruct (IH t1 Hs1) as (He & Hres & Hg & Hd).
  destruct (TPS_lifecycle rest t1) as [t2 rs]. cbn [fst snd] in *.
  split; [exact He|]. split; [rewrite Hres; reflexivity|].
  split; congruence.
Qed.

Lemma TPS_ERROR_is_absorbing_witness :
  GetState (tps_block
     (fst (TPS_lifecycle [OpStart; OpStop; OpStart]
             (fst (TPS_SetOutputFormat (mkInfo NV12 320 240) initialized_source)))))
  = ERROR.
Proof.
  apply (proj1 (TPS_ERROR_is_absorbing [OpStart; OpStop; OpStart]
                  (fst (TPS_SetOutputFormat (mkInfo NV12 320 240) initialized_source))
                  eq_refl)).
Defined.

(** ** The generator loop *)

(** A pass of the generator loop with the stop flag clear and the gate open
    creates a frame sized by the output format.  When that size is zero, or
    when the allocation fails, the loop is left at once: nothing is
    delivered or counted, and the source stays in the state it was in,
    [RUNNING] included, without a generator.  When the stop flag is set the
    loop is left without looking at anything else. *)
Theorem generator_exits_without_a_frame (t_loop : Z) (alloc_ok : bool)
    (c : EmitClock) (t : TestPatternSource) :
  (stop_generator_ t = true ->
     GeneratorThread_iteration t_loop alloc_ok c t = (t, GeneratorExit)) /\
  (stop_generator_ t = false ->
   ShouldEmitFrame t_loop (tps_source t) = true ->
   GetFrameSize (output_format_ (tps_source t)) = 0 \/ alloc_ok = false ->
     GeneratorThread_iteration t_loop alloc_ok c t = (t, GeneratorExit)) /\
  (stop_generator_ t = false ->
   ShouldEmitFrame t_loop (tps_source t) = false ->
     GeneratorThread_iteration t_loop alloc_ok c t = (t, GeneratorContinue)).
Proof.
  split; [|split].
  - intros Hstop. unfold GeneratorThread_iteration. rewrite Hstop. reflexivity.
  - intros Hstop Hgate Hbad. unfold GeneratorThread_iteration, CreateVideoFrame.
    rewrite Hstop, Hgate. cbn [negb].
    destruct Hbad as [Hzero | Halloc].
    + rewrite Hzero. reflexivity.
    + rewrite Halloc. destruct (GetFrameSize _ =? 0); reflexivity.
  - intros Hstop Hgate. unfold GeneratorThread_iteration. rewrite Hstop, Hgate.
    reflexivity.
Qed.

Lemma generator_exits_without_a_frame_witness :
  GeneratorThread_iteration 100000000 false (clock_at 100)
    (fst (TPS_Start initialized_source))
  = (fst (TPS_Start initialized_source), GeneratorExit).
Proof.
  apply (proj1 (proj2 (generator_exits_without_a_frame 100000000 false (clock_at 100)
                         (fst (TPS_Start initialized_source))))).
  - vm_compute. reflexivity.
  - vm_compute. reflexivity.
  - right. reflexivity.
Defined.

(** ** The block registry *)

(** Registering a type again replaces its factory: after two registrations
    of one type the registry is as if only the second had been made, a
    created block comes from the last factory registered, and the number of
    types grows only on the first registration.  Other types are not
    affected. *)
Theorem RegisterBlock_replaces (type other : string) (f1 f2 : BlockFactory)
    (blk : Block) (r : BlockRegistry) :
  fst (RegisterBlock type f2 (fst (RegisterBlock type f1 r)))
    = fst (RegisterBlock type f2 r) /\
  CreateBlock type (fst (RegisterBlock type (FactoryReturns (Some blk)) r)) = Some blk /\
  IsRegistered type (fst (RegisterBlock type f1 r)) = true /\
  GetRegisteredCount (fst (RegisterBlock type f1 r))
    = GetRegisteredCount r + (if IsRegistered type r then 0 else 1) /\
  (type <> other ->
     CreateBlock other (fst (RegisterBlock type f1 r)) = CreateBlock other r /\
     IsRegistered other (fst (RegisterBlock type f1 r)) = IsRegistered other r).
Proof.
  unfold RegisterBlock, CreateBlock, IsRegistered, GetRegisteredCount.
  cbn [fst factories_].
  split; [rewrite insert_insert_eq; reflexivity|].
  split; [rewrite lookup_insert_eq; reflexivity|].
  split; [rewrite lookup_insert_eq; reflexivity|].
  split.
  - destruct (factories_ r !! type) as [f|] eqn:Hl.
    + rewrite map_size_insert_Some by eauto. lia.
    + rewrite map_size_insert_None by exact Hl. lia.
  - intros Hne. rewrite lookup_insert_ne by exact Hne. split; reflexivity.
Qed.

Lemma RegisterBlock_replaces_witness :
  CreateBlock "ConsoleSink" (fst (RegisterBlock "TestPatternSource" (FactoryThrows "no")
                                    sink_and_source_registry))
  = CreateBlock "ConsoleSink" sink_and_source_registry.
Proof.
  apply (proj2 (proj2 (proj2 (proj2
           (RegisterBlock_replaces "TestPatternSource" "ConsoleSink"
              (FactoryThrows "no") (FactoryThrows "no")
              (PlainBlock (new_BaseBlock 0 "b" "t")) sink_and_source_registry))))).
  discriminate.
Defined.

(** Unregistering a type that is not registered returns false and leaves
    the registry alone.  Unregistering a registered type returns true;
    afterwards the type is not registered and cannot be created, there is
    one type fewer, and the other types are as before.  Registering a new
    type and unregistering it gives the registry back. *)
Theorem UnregisterBlock_outcomes (type other : string) (f : BlockFactory)
    (r : BlockRegistry) :
  (IsRegistered type r = false -> UnregisterBlock type r = (r, false)) /\
  (IsRegistered type r = true ->
     snd (UnregisterBlock type r) = true /\
     IsRegistered type (fst (UnregisterBlock type r)) = false /\
     CreateBlock type (fst (UnregisterBlock type r)) = None /\
     GetRegisteredCount (fst (UnregisterBlock type r)) = GetRegisteredCount r - 1 /\
     (type <> other ->
        CreateBlock other (fst (UnregisterBlock type r)) = CreateBlock other r)) /\
  (IsRegistered type r = false ->
     fst (UnregisterBlock type (fst (RegisterBlock type f r))) = r).
Proof.
  unfold IsRegistered, UnregisterBlock, CreateBlock, GetRegisteredCount, RegisterBlock.
  split; [|split].
  - destruct (factories_ r !! type); [discriminate | reflexivity].
  - destruct (factories_ r !! type) as [f0|] eqn:Hl; [intros _ | discriminate].
    cbn [fst snd factories_]. rewrite lookup_delete_eq.
    split; [reflexivity|]. split; [reflexivity|]. split; [reflexivity|]. split.
    + rewrite map_size_delete, Hl.
      assert (Hpos : (0 < size (factories_ r))%nat).
      { destruct (size (factories_ r)) eqn:Hsz; [|lia].
        apply map_size_empty_inv in Hsz. rewrite Hsz, lookup_empty in Hl. discriminate. }
      lia.
    + intros Hne. rewrite lookup_delete_ne by exact Hne. reflexivity.
  - destruct (factories_ r !! type) eqn:Hl; [discriminate | intros _].
    cbn [fst factories_]. rewrite lookup_insert_eq. cbn [fst].
    rewrite delete_insert_eq, delete_id by exact Hl. destruct r; reflexivity.
Qed.

Lemma UnregisterBlock_outcomes_witness :
  CreateBlock "TestPatternSource"
    (fst (UnregisterBlock "TestPatternSource" demo_registry)) = None /\
  UnregisterBlock "NoSuchSink" demo_registry = (demo_registry, false).
Proof.
  split.
  - destruct (UnregisterBlock_outcomes "TestPatternSource" ""
                (FactoryThrows "") demo_registry) as (_ & Hreg & _).
    destruct Hreg as (_ & _ & Hnone & _); [vm_compute; reflexivity | exact Hnone].
  - destruct (UnregisterBlock_outcomes "NoSuchSink" "" (FactoryThrows "")
                demo_registry) as (Hmissing & _).
    apply Hmissing. vm_compute. reflexivity.
Defined.

(** ** Blocks created by the pipeline manager *)

Lemma block_base_on_base f blk : block_base (block_on_base f blk) = f (block_base blk).
Proof. destruct blk; reflexivity. Qed.

Lemma creatable_created r cb d :
  creatable r d = true -> exists blk, created_block r cb d = Some blk.
Proof.
  intros Hc. destruct (creatable_named r d Hc) as [blk Hblk].
  unfold created_block. rewrite Hblk. eauto.
Qed.

Lemma created_block_base r cb d blk :
  created_block r cb d = Some blk ->
  name_ (block_base blk) = bd_name d /\ error_callback_ (block_base blk) = cb.
Proof.
  unfold created_block, CreateBlock_named.
  destruct (CreateBlock (bd_type d) r) as [b0|]; [|discriminate].
  intros E. injection E as <-. rewrite !block_base_on_base. split; reflexivity.
Qed.

Lemma CreateBlocks_loop_success r : forall defs pm,
  Forall (fun x => creatable r x = true) defs ->
  snd (CreateBlocks_loop r defs pm) = true /\
  pm_last_error_ (fst (CreateBlocks_loop r defs pm)) = pm_last_error_ pm /\
  is_running_ (fst (CreateBlocks_loop r defs pm)) = is_running_ pm /\
  dom (blocks_ (fst (CreateBlocks_loop r defs pm)))
    = dom (blocks_ pm) ∪ list_to_set (bd_name <$> defs) /\
  (forall n, n ∉ bd_name <$> defs ->
     blocks_ (fst (CreateBlocks_loop r defs pm)) !! n = blocks_ pm !! n) /\
  (forall pre d post, defs = pre ++ d :: post -> bd_name d ∉ bd_name <$> post ->
     blocks_ (fst (CreateBlocks_loop r defs pm)) !! bd_name d
     = created_block r (pm_error_callback_ pm) d).
Proof.
  induction defs as [|x defs IH]; intros pm Hall.
  - cbn. repeat split; try set_solver.
    intros pre d post E. destruct pre; discriminate.
  - inversion Hall as [|? ? Hx Hrest]; subst.
    destruct (creatable_named r x Hx) as [blk Hblk].
    cbn [CreateBlocks_loop]. rewrite Hblk.
    set (pm1 := pm_with_blocks
                  (<[bd_name x :=
                       block_on_base (SetErrorCallback (pm_error_callback_ pm)) blk]>
                     (blocks_ pm)) pm).
    destruct (IH pm1 Hrest) as (Hok & Herr & Hrun & Hdom & Hout & Hin).
    split; [exact Hok|]. split; [exact Herr|]. split; [exact Hrun|].
    split; [|split].
    + rewrite Hdom. unfold pm1. cbn [blocks_ pm_with_blocks]. rewrite dom_insert_L.
      cbn [fmap list_fmap list_to_set]. set_solver.
    + intros n Hn. cbn [fmap list_fmap] in Hn. apply not_elem_of_cons in Hn as [Hne Hn].
      rewrite (Hout n Hn). unfold pm1. cbn [blocks_ pm_with_blocks].
      rewrite lookup_insert_ne by congruence. reflexivity.
    + intros pre d post E Hlast. destruct pre as [|y pre].
      * cbn [app] in E. injection E as -> ->.
        rewrite (Hout (bd_name d) Hlast). unfold pm1. cbn [blocks_ pm_with_blocks].
        rewrite lookup_insert_eq. unfold created_block. rewrite Hblk. reflexivity.
      * cbn [app] in E. injection E as -> ->.
        apply (Hin pre d post eq_refl Hlast).
Qed.

(** When the blocks the manager holds can be released and the registry
    serves every definition, [CreateBlocks] returns true and leaves
    [last_error_] alone; the blocks held before are gone, and the map holds
    one block per distinct name, each carrying its key as its name and the
    manager's error callback.  Names are not checked for repetition: of
    several definitions with one name the last one stays in the map. *)
Theorem CreateBlocks_success (r : BlockRegistry) (pm : PipelineManager) :
  releases_cleanly (blocks_ pm) ->
  Forall (fun x => creatable r x = true) (cfg_blocks (config_ pm)) ->
  snd (CreateBlocks r pm) = true /\
  pm_last_error_ (fst (CreateBlocks r pm)) = pm_last_error_ pm /\
  dom (blocks_ (fst (CreateBlocks r pm)))
    = list_to_set (bd_name <$> cfg_blocks (config_ pm)) /\
  (forall pre d post,
     cfg_blocks (config_ pm) = pre ++ d :: post -> bd_name d ∉ bd_name <$> post ->
     exists blk,
       GetBlock (bd_name d) (fst (CreateBlocks r pm)) = Some blk /\
       created_block r (pm_error_callback_ pm) d = Some blk /\
       name_ (block_base blk) = bd_name d /\
       error_callback_ (block_base blk) = pm_error_callback_ pm) /\
  (forall n, n ∉ bd_name <$> cfg_blocks (config_ pm) ->
     GetBlock n (fst (CreateBlocks r pm)) = None).
Proof.
  intros _ Hall. unfold CreateBlocks, clear_blocks, GetBlock.
  destruct (CreateBlocks_loop_success r (cfg_blocks (config_ pm))
              (pm_with_blocks ∅ pm) Hall) as (Hok & Herr & _ & Hdom & Hout & Hin).
  split; [exact Hok|]. split; [exact Herr|]. split; [|split].
  - rewrite Hdom. cbn [blocks_ pm_with_blocks]. rewrite dom_empty_L. set_solver.
  - intros pre d post E Hlast.
    assert (Hd : creatable r d = true).
    { rewrite Forall_forall in Hall. apply Hall. rewrite E.
      apply elem_of_app. right. apply elem_of_cons. left. reflexivity. }
    destruct (creatable_created r (pm_error_callback_ pm) d Hd) as [blk Hblk].
    exists blk. rewrite (Hin pre d post E Hlast). cbn [pm_error_callback_ pm_with_blocks].
    split; [exact Hblk|]. split; [exact Hblk|].
    apply (created_block_base r _ d blk Hblk).
  - intros n Hn. rewrite (Hout n Hn). cbn [blocks_ pm_with_blocks]. apply lookup_empty.
Qed.

Lemma CreateBlocks_success_witness :
  (exists blk,
     GetBlock "x" (fst (CreateBlocks sink_and_source_registry
                          (pm_with_config duplicate_name_config ready_pipeline)))
     = Some blk /\
     created_block sink_and_source_registry (Some PipelineOnBlockError)
       {| bd_name := "x"; bd_type := "ConsoleSink"; bd_parameters := ∅ |} = Some blk) /\
  GetBlock "sink" (fst (CreateBlocks sink_and_source_registry
                          (pm_with_config duplicate_name_config ready_pipeline)))
  = None.
Proof.
  destruct (CreateBlocks_success sink_and_source_registry
              (pm_with_config duplicate_name_config ready_pipeline))
    as (_ & _ & _ & Hlast & Hgone).
  - exact ready_pipeline_releases.
  - repeat constructor.
  - split.
    + destruct (Hlast
                  [ {| bd_name := "x"; bd_type := "TestPatternSource";
                       bd_parameters := ∅ |} ]
                  {| bd_name := "x"; bd_type := "ConsoleSink"; bd_parameters := ∅ |}
                  []) as (blk & Hget & Hmade & _).
      * reflexivity.
      * cbn. apply not_elem_of_nil.
      * exists blk. split; assumption.
    + apply Hgone. cbn. rewrite !not_elem_of_cons.
      repeat split; try discriminate. apply not_elem_of_nil.
Defined.

(** ** Start, stop and shutdown of the pipeline *)

Lemma elem_of_blocks_in_order (m : gmap string Block) n b :
  (n, b) ∈ blocks_in_order m <-> m !! n = Some b.
Proof.
  unfold blocks_in_order. rewrite merge_sort_Permutation.
  apply elem_of_map_to_list.
Qed.

Lemma NoDup_blocks_in_order (m : gmap string Block) : NoDup (blocks_in_order m).*1.
Proof.
  unfold blocks_in_order. rewrite merge_sort_Permutation.
  apply NoDup_fst_map_to_list.
Qed.

Lemma blocks_in_order_empty : blocks_in_order ∅ = [].
Proof. unfold blocks_in_order. rewrite map_to_list_empty. reflexivity. Qed.

Lemma elem_of_filter_kind (f : Block -> bool) (l : list (string * Block)) n b :
  (n, b) ∈ List.filter (fun p => f (snd p)) l <-> (n, b) ∈ l /\ f b = true.
Proof. rewrite !list_elem_of_In, filter_In. reflexivity. Qed.

Lemma NoDup_fst_filter_kind (f : Block -> bool) (l : list (string * Block)) :
  NoDup l.*1 -> NoDup (List.filter (fun p => f (snd p)) l).*1.
Proof.
  induction l as [|[n b] l IH]; intros Hnd; [constructor|].
  cbn [fmap list_fmap fst] in Hnd. apply NoDup_cons in Hnd as [Hn Hnd].
  cbn [List.filter snd]. destruct (f b); [|apply IH; exact Hnd].
  cbn [fmap list_fmap fst]. apply NoDup_cons. split; [|apply IH; exact Hnd].
  intros Hin. apply Hn. apply list_elem_of_fmap in Hin as [[n' b'] [E Hin]].
  apply elem_of_filter_kind in Hin as [Hin _].
  apply list_elem_of_fmap. exists (n', b'). split; assumption.
Qed.

(** A name whose block is not of the kind a vector collects is not a key of
    that vector. *)
Lemma not_in_filter_kind (f : Block -> bool) (m : gmap string Block) n blk :
  m !! n = Some blk -> f blk = false ->
  n ∉ (List.filter (fun p => f (snd p)) (blocks_in_order m)).*1.
Proof.
  intros Hl Hf Hin. apply list_elem_of_fmap in Hin as [[n' b'] [E Hin]].
  cbn [fst] in E. subst n'.
  apply elem_of_filter_kind in Hin as [Hin Hfb].
  apply elem_of_blocks_in_order in Hin. congruence.
Qed.

Lemma in_filter_kind (f : Block -> bool) (m : gmap string Block) n blk :
  m !! n = Some blk -> f blk = true ->
  (n, blk) ∈ List.filter (fun p => f (snd p)) (blocks_in_order m).
Proof.
  intros Hl Hf. apply elem_of_filter_kind. split; [|exact Hf].
  apply elem_of_blocks_in_order. exact Hl.
Qed.

Section PipelineLifecycleFacts.

Variable Plain_Start : BaseBlock -> BaseBlock * bool.
Variable Plain_Stop : BaseBlock -> BaseBlock * bool.
Variable Plain_Shutdown : BaseBlock -> BaseBlock * bool.

Lemma start_blocks_frame what : forall l pm,
  is_running_ (fst (start_blocks Plain_Start what l pm)) = is_running_ pm /\
  config_ (fst (start_blocks Plain_Start what l pm)) = config_ pm /\
  pm_error_callback_ (fst (start_blocks Plain_Start what l pm)) = pm_error_callback_ pm /\
  (snd (start_blocks Plain_Start what l pm) = true ->
     pm_last_error_ (fst (start_blocks Plain_Start what l pm)) = pm_last_error_ pm) /\
  (forall n, n ∉ l.*1 ->
     blocks_ (fst (start_blocks Plain_Start what l pm)) !! n = blocks_ pm !! n).
Proof.
  induction l as [|[n blk] l IH]; intros pm; [cbn; repeat split|].
  cbn [start_blocks].
  destruct (snd (Block_Start Plain_Start blk)).
  - destruct (IH (pm_with_blocks (<[n := fst (Block_Start Plain_Start blk)]> (blocks_ pm)) pm))
      as (Hr & Hc & Hcb & Herr & Hout).
    split; [exact Hr|]. split; [exact Hc|]. split; [exact Hcb|]. split; [exact Herr|].
    intros n' Hn'. cbn [fmap list_fmap fst] in Hn'.
    apply not_elem_of_cons in Hn' as [Hne Hn'].
    rewrite (Hout n' Hn'). cbn [blocks_ pm_with_blocks].
    rewrite lookup_insert_ne by congruence. reflexivity.
  - cbn. split; [reflexivity|]. split; [reflexivity|]. split; [reflexivity|].
    split; [discriminate|].
    intros n' Hn'. cbn [fmap list_fmap fst] in Hn'.
    apply not_elem_of_cons in Hn' as [Hne Hn'].
    rewrite lookup_insert_ne by congruence. reflexivity.
Qed.

Lemma start_blocks_touched what : forall l pm,
  NoDup l.*1 ->
  (forall n blk, (n, blk) ∈ l -> blocks_ pm !! n = Some blk) ->
  forall n blk, (n, blk) ∈ l ->
    (blocks_ (fst (start_blocks Plain_Start what l pm)) !! n = Some (fst (Block_Start Plain_Start blk)) \/
     blocks_ (fst (start_blocks Plain_Start what l pm)) !! n = Some blk) /\
    (snd (start_blocks Plain_Start what l pm) = true ->
       snd (Block_Start Plain_Start blk) = true /\
       blocks_ (fst (start_blocks Plain_Start what l pm)) !! n = Some (fst (Block_Start Plain_Start blk))).
Proof.
  induction l as [|[n0 b0] l IH]; intros pm Hnd Hmap n blk Hin;
    [apply elem_of_nil in Hin; contradiction|].
  cbn [fmap list_fmap fst] in Hnd. apply NoDup_cons in Hnd as [Hn0 Hnd].
  cbn [start_blocks].
  set (pm1 := pm_with_blocks (<[n0 := fst (Block_Start Plain_Start b0)]> (blocks_ pm)) pm).
  assert (Hmap1 : forall n' b', (n', b') ∈ l -> blocks_ pm1 !! n' = Some b').
  { intros n' b' Hin'. unfold pm1. cbn [blocks_ pm_with_blocks].
    rewrite lookup_insert_ne.
    - apply Hmap. apply elem_of_cons. right. exact Hin'.
    - intros ->. apply Hn0. apply list_elem_of_fmap. exists (n', b'). split; [reflexivity|exact Hin']. }
  apply elem_of_cons in Hin as [E | Hin].
  - injection E as -> ->.
    destruct (snd (Block_Start Plain_Start b0)) eqn:Hok.
    + destruct (start_blocks_frame what l pm1) as (_ & _ & _ & _ & Hout).
      rewrite (Hout n0 Hn0). unfold pm1. cbn [blocks_ pm_with_blocks].
      rewrite lookup_insert_eq. split; [left; reflexivity|]. intros _. split; reflexivity.
    + unfold pm1; cbn [fst snd blocks_ pm_with_error pm_with_blocks]. rewrite lookup_insert_eq.
      split; [left; reflexivity | discriminate].
  - destruct (snd (Block_Start Plain_Start b0)) eqn:Hok.
    + apply (IH pm1 Hnd Hmap1 n blk Hin).
    + unfold pm1; cbn [fst snd blocks_ pm_with_error pm_with_blocks].
      rewrite lookup_insert_ne.
      * split; [right; apply Hmap; apply elem_of_cons; right; exact Hin | discriminate].
      * intros ->. apply Hn0. apply list_elem_of_fmap. exists (n, blk). split; [reflexivity|exact Hin].
Qed.

Lemma start_blocks_all_ok what : forall l pm,
  (forall n blk, (n, blk) ∈ l -> snd (Block_Start Plain_Start blk) = true) ->
  snd (start_blocks Plain_Start what l pm) = true.
Proof.
  induction l as [|[n0 b0] l IH]; intros pm Hall; [reflexivity|].
  cbn [start_blocks]. rewrite (Hall n0 b0) by (apply elem_of_cons; left; reflexivity).
  apply IH. intros n blk Hin. apply (Hall n blk). apply elem_of_cons. right. exact Hin.
Qed.

Lemma start_blocks_failed what : forall l pm,
  snd (start_blocks Plain_Start what l pm) = false ->
  exists n blk, (n, blk) ∈ l /\ snd (Block_Start Plain_Start blk) = false /\
    pm_last_error_ (fst (start_blocks Plain_Start what l pm))
    = "Failed to start " +:+ what +:+ ": "
      +:+ GetName (block_base (fst (Block_Start Plain_Start blk))).
Proof.
  induction l as [|[n0 b0] l IH]; intros pm Hfail; [discriminate|].
  cbn [start_blocks] in *.
  destruct (snd (Block_Start Plain_Start b0)) eqn:Hok.
  - destruct (IH _ Hfail) as (n & blk & Hin & Hb & Herr).
    exists n, blk. split; [apply elem_of_cons; right; exact Hin|]. split; assumption.
  - exists n0, b0. split; [apply elem_of_cons; left; reflexivity|].
    split; [exact Hok | reflexivity].
Qed.

End PipelineLifecycleFacts.

Lemma update_blocks_spec (g : Block -> Block) : forall l pm,
  is_running_ (update_blocks g l pm) = is_running_ pm /\
  config_ (update_blocks g l pm) = config_ pm /\
  pm_error_callback_ (update_blocks g l pm) = pm_error_callback_ pm /\
  pm_last_error_ (update_blocks g l pm) = pm_last_error_ pm /\
  (forall n, n ∉ l.*1 -> blocks_ (update_blocks g l pm) !! n = blocks_ pm !! n) /\
  (NoDup l.*1 -> forall n blk, (n, blk) ∈ l ->
     blocks_ (update_blocks g l pm) !! n = Some (g blk)).
Proof.
  induction l as [|[n0 b0] l IH]; intros pm.
  - cbn. repeat split. intros _ n blk Hin. apply elem_of_nil in Hin. contradiction.
  - cbn [update_blocks].
    destruct (IH (pm_with_blocks (<[n0 := g b0]> (blocks_ pm)) pm))
      as (Hr & Hc & Hcb & Herr & Hout & Hin).
    split; [exact Hr|]. split; [exact Hc|]. split; [exact Hcb|]. split; [exact Herr|].
    split.
    + intros n Hn. cbn [fmap list_fmap fst] in Hn.
      apply not_elem_of_cons in Hn as [Hne Hn].
      rewrite (Hout n Hn). cbn [blocks_ pm_with_blocks].
      rewrite lookup_insert_ne by congruence. reflexivity.
    + intros Hnd n blk Hel. cbn [fmap list_fmap fst] in Hnd.
      apply NoDup_cons in Hnd as [Hn0 Hnd].
      apply elem_of_cons in Hel as [E | Hel].
      * injection E as -> ->. rewrite (Hout n0 Hn0). cbn [blocks_ pm_with_blocks].
        apply lookup_insert_eq.
      * apply (Hin Hnd n blk Hel).
Qed.

(** Replacing, kind by kind, every block of a map by its image gives the
    image of the map. *)
Lemma update_kind_lookup (g : Block -> Block) (f : Block -> bool)
    (m : gmap string Block) (pm : PipelineManager) n :
  (forall n' blk, m !! n' = Some blk -> f blk = true -> blocks_ pm !! n' = Some blk) ->
  blocks_ (update_blocks g (List.filter (fun p => f (snd p)) (blocks_in_order m)) pm) !! n
  = match m !! n with
    | Some blk => if f blk then Some (g blk) else blocks_ pm !! n
    | None => blocks_ pm !! n
    end.
Proof.
  intros Hsame.
  destruct (update_blocks_spec g (List.filter (fun p => f (snd p)) (blocks_in_order m)) pm)
    as (_ & _ & _ & _ & Hout & Hin).
  destruct (m !! n) as [blk|] eqn:Hl.
  - destruct (f blk) eqn:Hf.
    + apply Hin.
      * apply NoDup_fst_filter_kind, NoDup_blocks_in_order.
      * apply in_filter_kind; assumption.
    + apply Hout. apply (not_in_filter_kind f m n blk); assumption.
  - apply Hout. intros Hel. apply list_elem_of_fmap in Hel as [[n' b'] [E Hel]].
    cbn [fst] in E. subst n'. apply elem_of_filter_kind in Hel as [Hel _].
    apply elem_of_blocks_in_order in Hel. congruence.
Qed.

Lemma stop_blocks_update (ps : BaseBlock -> BaseBlock * bool) l : forall pm,
  stop_blocks ps l pm = update_blocks (fun blk => fst (Block_Stop ps blk)) l pm.
Proof.
  induction l as [|[n b] l IH]; intros pm; [reflexivity|].
  cbn [stop_blocks update_blocks]. apply IH.
Qed.

Lemma shutdown_blocks_update (psh : BaseBlock -> BaseBlock * bool) l : forall pm,
  shutdown_blocks psh l pm
  = update_blocks (fun blk => fst (Block_Shutdown psh blk)) l pm.
Proof.
  induction l as [|[n b] l IH]; intros pm; [reflexivity|].
  cbn [shutdown_blocks update_blocks]. apply IH.
Qed.

Lemma kind_exclusive blk :
  (is_source blk = true /\ is_sink blk = false /\ is_other blk = false) \/
  (is_source blk = false /\ is_sink blk = true /\ is_other blk = false) \/
  (is_source blk = false /\ is_sink blk = false /\ is_other blk = true).
Proof. destruct blk; cbn; tauto. Qed.

Lemma map_to_list_nonempty (m : gmap string Block) :
  m <> ∅ -> exists p l, map_to_list m = p :: l.
Proof.
  intros Hne. destruct (map_to_list m) as [|p l] eqn:E; [|eauto].
  apply map_to_list_empty_iff in E. contradiction.
Qed.

Section PipelineLifecycleTheorems.

Variable Plain_Start : BaseBlock -> BaseBlock * bool.
Variable Plain_Stop : BaseBlock -> BaseBlock * bool.
Variable Plain_Shutdown : BaseBlock -> BaseBlock * bool.

Lemma start_phase what (f : Block -> bool) (m : gmap string Block)
    (pm' : PipelineManager) :
  (forall n blk, m !! n = Some blk -> f blk = true -> blocks_ pm' !! n = Some blk) ->
  is_running_ (fst (start_blocks Plain_Start what
                 (List.filter (fun p => f (snd p)) (blocks_in_order m)) pm'))
    = is_running_ pm' /\
  (snd (start_blocks Plain_Start what
          (List.filter (fun p => f (snd p)) (blocks_in_order m)) pm') = true ->
     pm_last_error_ (fst (start_blocks Plain_Start what
                       (List.filter (fun p => f (snd p)) (blocks_in_order m)) pm'))
       = pm_last_error_ pm') /\
  (forall n, match m !! n with Some blk => f blk = false | None => True end ->
     blocks_ (fst (start_blocks Plain_Start what
                (List.filter (fun p => f (snd p)) (blocks_in_order m)) pm')) !! n
     = blocks_ pm' !! n) /\
  (forall n blk, m !! n = Some blk -> f blk = true ->
     (blocks_ (fst (start_blocks Plain_Start what
                 (List.filter (fun p => f (snd p)) (blocks_in_order m)) pm')) !! n
        = Some (fst (Block_Start Plain_Start blk)) \/
      blocks_ (fst (start_blocks Plain_Start what
                 (List.filter (fun p => f (snd p)) (blocks_in_order m)) pm')) !! n
        = Some blk) /\
     (snd (start_blocks Plain_Start what
             (List.filter (fun p => f (snd p)) (blocks_in_order m)) pm') = true ->
        snd (Block_Start Plain_Start blk) = true /\
        blocks_ (fst (start_blocks Plain_Start what
                   (List.filter (fun p => f (snd p)) (blocks_in_order m)) pm')) !! n
          = Some (fst (Block_Start Plain_Start blk)))) /\
  ((forall n blk, m !! n = Some blk -> f blk = true ->
      snd (Block_Start Plain_Start blk) = true) ->
     snd (start_blocks Plain_Start what
            (List.filter (fun p => f (snd p)) (blocks_in_order m)) pm') = true) /\
  (snd (start_blocks Plain_Start what
          (List.filter (fun p => f (snd p)) (blocks_in_order m)) pm') = false ->
     exists n blk, m !! n = Some blk /\ f blk = true /\
                   snd (Block_Start Plain_Start blk) = false).
Proof.
  intros Hsame.
  set (l := List.filter (fun p => f (snd p)) (blocks_in_order m)).
  assert (Hnd : NoDup l.*1) by apply NoDup_fst_filter_kind, NoDup_blocks_in_order.
  assert (Hl : forall n blk, (n, blk) ∈ l <-> m !! n = Some blk /\ f blk = true).
  { intros n blk. unfold l. rewrite elem_of_filter_kind, elem_of_blocks_in_order.
    reflexivity. }
  destruct (start_blocks_frame Plain_Start what l pm') as (Hr & _ & _ & Herr & Hout).
  split; [exact Hr|]. split; [exact Herr|]. split; [|split; [|split]].
  - intros n Hn. apply Hout. intros Hel.
    apply list_elem_of_fmap in Hel as [[n' b'] [E Hel]]. cbn [fst] in E. subst n'.
    apply Hl in Hel as [Hm Hf]. rewrite Hm in Hn. congruence.
  - intros n blk Hm Hf.
    apply (start_blocks_touched Plain_Start what l pm' Hnd).
    + intros n' b' Hel. apply Hl in Hel as [Hm' Hf']. apply Hsame; assumption.
    + apply Hl. split; assumption.
  - intros Hall. apply start_blocks_all_ok. intros n blk Hel.
    apply Hl in Hel as [Hm Hf]. apply (Hall n blk); assumption.
  - intros Hfail.
    destruct (start_blocks_failed Plain_Start what l pm' Hfail) as (n & blk & Hel & Hb & _).
    apply Hl in Hel as [Hm Hf]. exists n, blk. repeat split; assumption.
Qed.

(** [Start] of the manager.  With no blocks it fails with a message asking
    for [Initialize]; when already running it returns true and does
    nothing.  Otherwise, when every block can be started, it returns true,
    sets the running flag, leaves [last_error_] alone, and the map holds
    every block started, under the same names. *)
Theorem PM_Start_outcomes (pm : PipelineManager) :
  (blocks_ pm = ∅ ->
     PM_Start Plain_Start pm
     = (pm_with_error "No blocks to start. Call Initialize() first." pm, false)) /\
  (blocks_ pm <> ∅ -> is_running_ pm = true -> PM_Start Plain_Start pm = (pm, true)) /\
  (blocks_ pm <> ∅ -> is_running_ pm = false ->
   (forall n blk, blocks_ pm !! n = Some blk -> snd (Block_Start Plain_Start blk) = true) ->
     snd (PM_Start Plain_Start pm) = true /\
     IsRunning (fst (PM_Start Plain_Start pm)) = true /\
     pm_last_error_ (fst (PM_Start Plain_Start pm)) = pm_last_error_ pm /\
     forall n,
       GetBlock n (fst (PM_Start Plain_Start pm))
       = (fun blk => fst (Block_Start Plain_Start blk)) <$> GetBlock n pm).
Proof.
  split; [|split].
  - intros Hempty. unfold PM_Start. rewrite Hempty, map_to_list_empty. reflexivity.
  - intros Hne Hrun. unfold PM_Start.
    destruct (map_to_list_nonempty _ Hne) as (p & l & ->). rewrite Hrun. reflexivity.
  - intros Hne Hrun Hall. unfold PM_Start, IsRunning, GetBlock.
    destruct (map_to_list_nonempty _ Hne) as (p & l & ->). rewrite Hrun.
    set (m := blocks_ pm).
    destruct (start_phase "sink" is_sink m pm) as (Hr1 & He1 & Ho1 & Hi1 & Hok1 & _);
      [intros n blk Hm _; exact Hm|].
    unfold sinks_of.
    destruct (start_blocks Plain_Start "sink"
                (List.filter (fun p => is_sink (snd p)) (blocks_in_order m)) pm)
      as [pm1 ok1]. cbn [fst snd] in *.
    rewrite Hok1 by (intros n blk Hm _; apply (Hall n blk Hm)). cbn [negb].
    specialize (He1 (Hok1 ltac:(intros n blk Hm _; apply (Hall n blk Hm)))).
    destruct (start_phase "block" is_other m pm1) as (Hr2 & He2 & Ho2 & Hi2 & Hok2 & _).
    { intros n blk Hm Hf. rewrite Ho1; [exact Hm|]. rewrite Hm.
      destruct blk; cbn in *; congruence. }
    unfold others_of.
    destruct (start_blocks Plain_Start "block"
                (List.filter (fun p => is_other (snd p)) (blocks_in_order m)) pm1)
      as [pm2 ok2]. cbn [fst snd] in *.
    rewrite Hok2 by (intros n blk Hm _; apply (Hall n blk Hm)). cbn [negb].
    specialize (He2 (Hok2 ltac:(intros n blk Hm _; apply (Hall n blk Hm)))).
    destruct (start_phase "source" is_source m pm2) as (Hr3 & He3 & Ho3 & Hi3 & Hok3 & _).
    { intros n blk Hm Hf. rewrite Ho2, Ho1; try exact Hm; rewrite Hm;
        destruct blk; cbn in *; congruence. }
    unfold sources_of.
    destruct (start_blocks Plain_Start "source"
                (List.filter (fun p => is_source (snd p)) (blocks_in_order m)) pm2)
      as [pm3 ok3]. cbn [fst snd] in *.
    rewrite Hok3 by (intros n blk Hm _; apply (Hall n blk Hm)). cbn [negb fst snd].
    specialize (He3 (Hok3 ltac:(intros n blk Hm _; apply (Hall n blk Hm)))).
    split; [reflexivity|]. split; [reflexivity|].
    split; [cbn; congruence|].
    intros n. cbn [blocks_ pm_with_running].
    assert (Hok1' := Hok1 ltac:(intros n0 blk Hm _; apply (Hall n0 blk Hm))).
    assert (Hok2' := Hok2 ltac:(intros n0 blk Hm _; apply (Hall n0 blk Hm))).
    assert (Hok3' := Hok3 ltac:(intros n0 blk Hm _; apply (Hall n0 blk Hm))).
    destruct (m !! n) as [blk|] eqn:Hm; cbn [fmap option_fmap option_map].
    + destruct blk as [t|k|b].
      * destruct (Hi3 n (SourceBlock t) Hm eq_refl) as [_ H3].
        apply (H3 Hok3').
      * rewrite Ho3 by (rewrite Hm; reflexivity).
        rewrite Ho2 by (rewrite Hm; reflexivity).
        destruct (Hi1 n (SinkBlock k) Hm eq_refl) as [_ H1]. apply (H1 Hok1').
      * rewrite Ho3 by (rewrite Hm; reflexivity).
        destruct (Hi2 n (PlainBlock b) Hm eq_refl) as [_ H2]. apply (H2 Hok2').
    + rewrite Ho3, Ho2, Ho1 by (rewrite Hm; exact I). exact Hm.
Qed.

End PipelineLifecycleTheorems.

Section PipelineFailureTheorems.

Variable Plain_Start : BaseBlock -> BaseBlock * bool.
Variable Plain_Stop : BaseBlock -> BaseBlock * bool.

(** [Start] does not undo what it has done.  When it fails, some block of
    the map refused to start, the running flag stays clear, and every block
    is either as it was or started.  If every sink and every plain block
    can be started, they all have been started when a source fails; if a
    sink fails, no source and no plain block has been touched.  Since the
    running flag is clear, a [Stop] of the manager after the failure
    returns true and stops nothing. *)
Theorem PM_Start_failure_keeps_started_blocks (pm : PipelineManager) :
  blocks_ pm <> ∅ -> is_running_ pm = false ->
  snd (PM_Start Plain_Start pm) = false ->
  IsRunning (fst (PM_Start Plain_Start pm)) = false /\
  PM_Stop Plain_Stop (fst (PM_Start Plain_Start pm))
    = (fst (PM_Start Plain_Start pm), true) /\
  (exists n blk, GetBlock n pm = Some blk /\ snd (Block_Start Plain_Start blk) = false) /\
  (forall n blk, GetBlock n pm = Some blk ->
     GetBlock n (fst (PM_Start Plain_Start pm)) = Some blk \/
     GetBlock n (fst (PM_Start Plain_Start pm))
       = Some (fst (Block_Start Plain_Start blk))) /\
  ((forall n blk, GetBlock n pm = Some blk -> is_source blk = false ->
      snd (Block_Start Plain_Start blk) = true) ->
   forall n blk, GetBlock n pm = Some blk -> is_source blk = false ->
     GetBlock n (fst (PM_Start Plain_Start pm))
       = Some (fst (Block_Start Plain_Start blk))) /\
  ((exists n blk, GetBlock n pm = Some blk /\ is_sink blk = true /\
                  snd (Block_Start Plain_Start blk) = false) ->
   forall n blk, GetBlock n pm = Some blk -> is_sink blk = false ->
     GetBlock n (fst (PM_Start Plain_Start pm)) = Some blk).
Proof.
  intros Hne Hrun. unfold PM_Start, IsRunning, GetBlock.
  destruct (map_to_list_nonempty _ Hne) as (p & l & ->). rewrite Hrun.
  set (m := blocks_ pm).
  destruct (start_phase Plain_Start "sink" is_sink m pm)
    as (Hr1 & _ & Ho1 & Hi1 & Hok1 & Hf1); [intros n blk Hm _; exact Hm|].
  unfold sinks_of.
  destruct (start_blocks Plain_Start "sink"
              (List.filter (fun p => is_sink (snd p)) (blocks_in_order m)) pm)
    as [pm1 ok1]. cbn [fst snd] in *.
  destruct (start_phase Plain_Start "block" is_other m pm1)
    as (Hr2 & _ & Ho2 & Hi2 & Hok2 & Hf2).
  { intros n blk Hm Hf. rewrite Ho1; [exact Hm|]. rewrite Hm.
    destruct blk; cbn in *; congruence. }
  unfold others_of.
  destruct (start_blocks Plain_Start "block"
              (List.filter (fun p => is_other (snd p)) (blocks_in_order m)) pm1)
    as [pm2 ok2]. cbn [fst snd] in *.
  destruct (start_phase Plain_Start "source" is_source m pm2)
    as (Hr3 & _ & Ho3 & Hi3 & Hok3 & Hf3).
  { intros n blk Hm Hf. rewrite Ho2, Ho1; try exact Hm; rewrite Hm;
      destruct blk; cbn in *; congruence. }
  unfold sources_of.
  destruct (start_blocks Plain_Start "source"
              (List.filter (fun p => is_source (snd p)) (blocks_in_order m)) pm2)
    as [pm3 ok3]. cbn [fst snd] in *.
  assert (Hstop : forall pmx, is_running_ pmx = false ->
                              PM_Stop Plain_Stop pmx = (pmx, true)).
  { intros pmx Hx. unfold PM_Stop. rewrite Hx. reflexivity. }
  destruct ok1; cbn [negb fst snd].
  - destruct ok2; cbn [negb fst snd].
    + destruct ok3; cbn [negb fst snd]; [discriminate|]. intros _.
      assert (Hrun3 : is_running_ pm3 = false) by congruence.
      split; [exact Hrun3|]. split; [apply Hstop; exact Hrun3|].
      split; [destruct (Hf3 eq_refl) as (n & blk & Hm & _ & Hb); eauto|].
      assert (Hstarted : forall n blk, m !! n = Some blk -> is_source blk = false ->
                blocks_ pm3 !! n = Some (fst (Block_Start Plain_Start blk))).
      { intros n blk Hm Hsrc. rewrite Ho3 by (rewrite Hm; exact Hsrc).
        destruct blk as [t|k|b]; [discriminate| |].
        - rewrite Ho2 by (rewrite Hm; reflexivity).
          apply (Hi1 n (SinkBlock k) Hm eq_refl). reflexivity.
        - apply (Hi2 n (PlainBlock b) Hm eq_refl). reflexivity. }
      split; [|split].
      * intros n blk Hm. destruct (is_source blk) eqn:Hsrc.
        -- destruct (Hi3 n blk Hm Hsrc) as [[H | H] _]; [right | left]; exact H.
        -- right. apply Hstarted; assumption.
      * intros _. exact Hstarted.
      * intros (n0 & b0 & Hm0 & Hk0 & Hb0).
        destruct (Hi1 n0 b0 Hm0 Hk0) as [_ H1]. destruct (H1 eq_refl). congruence.
    + intros _.
      assert (Hrun2 : is_running_ pm2 = false) by congruence.
      split; [exact Hrun2|]. split; [apply Hstop; exact Hrun2|].
      split; [destruct (Hf2 eq_refl) as (n & blk & Hm & _ & Hb); eauto|].
      split; [|split].
      * intros n blk Hm. destruct blk as [t|k|b].
        -- left. rewrite Ho2, Ho1 by (rewrite Hm; reflexivity). exact Hm.
        -- right. rewrite Ho2 by (rewrite Hm; reflexivity).
           apply (Hi1 n (SinkBlock k) Hm eq_refl). reflexivity.
        -- destruct (Hi2 n (PlainBlock b) Hm eq_refl) as [[H | H] _];
             [right | left]; exact H.
      * intros Hall. exfalso.
        assert (Hok : false = true); [|discriminate].
        apply Hok2. intros n blk Hm Hk. apply (Hall n blk Hm).
        destruct blk; [discriminate | discriminate | reflexivity].
      * intros (n0 & b0 & Hm0 & Hk0 & Hb0).
        destruct (Hi1 n0 b0 Hm0 Hk0) as [_ H1]. destruct (H1 eq_refl). congruence.
  - intros _.
    assert (Hrun1 : is_running_ pm1 = false) by congruence.
    split; [exact Hrun1|]. split; [apply Hstop; exact Hrun1|].
    split; [destruct (Hf1 eq_refl) as (n & blk & Hm & _ & Hb); eauto|].
    assert (Huntouched : forall n blk, m !! n = Some blk -> is_sink blk = false ->
              blocks_ pm1 !! n = Some blk).
    { intros n blk Hm Hk. rewrite Ho1 by (rewrite Hm; exact Hk). exact Hm. }
    split; [|split].
    + intros n blk Hm. destruct (is_sink blk) eqn:Hk.
      * destruct (Hi1 n blk Hm Hk) as [[H | H] _]; [right | left]; exact H.
      * left. apply Huntouched; assumption.
    + intros Hall. exfalso.
      assert (Hok : false = true); [|discriminate].
      apply Hok1. intros n blk Hm Hk. apply (Hall n blk Hm).
      destruct blk; [discriminate | reflexivity | discriminate].
    + intros _. exact Huntouched.
Qed.

End PipelineFailureTheorems.

Lemma PM_Start_failure_keeps_started_blocks_witness :
  GetBlock "sink" (fst (PM_Start plain_ok half_ready_pipeline))
  = Some (fst (Block_Start plain_ok (SinkBlock initialized_sink))) /\
  PM_Stop plain_ok (fst (PM_Start plain_ok half_ready_pipeline))
  = (fst (PM_Start plain_ok half_ready_pipeline), true).
Proof.
  destruct (PM_Start_failure_keeps_started_blocks plain_ok plain_ok half_ready_pipeline)
    as (_ & Hstop & _ & _ & Hsinks & _).
  - intros E. apply (f_equal (fun m => m !! "sink")) in E. vm_compute in E. discriminate.
  - reflexivity.
  - vm_compute. reflexivity.
  - split; [|exact Hstop].
    apply Hsinks.
    + intros n blk Hget Hsrc.
      unfold GetBlock, half_ready_pipeline in Hget. cbn [blocks_ pm_with_blocks] in Hget.
      apply lookup_insert_Some in Hget as [[_ <-] | [_ Hget]]; [discriminate|].
      apply lookup_insert_Some in Hget as [[_ <-] | [_ Hget]];
        [vm_compute; reflexivity|].
      rewrite lookup_empty in Hget. discriminate.
    + vm_compute. reflexivity.
    + reflexivity.
Defined.

Lemma PM_Start_outcomes_witness :
  snd (PM_Start plain_ok ready_pipeline) = true /\
  GetBlock "sink" (fst (PM_Start plain_ok ready_pipeline))
  = Some (SinkBlock (fst (Sink_Start initialized_sink))).
Proof.
  destruct (PM_Start_outcomes plain_ok ready_pipeline) as (_ & _ & Hok).
  destruct Hok as (Hret & _ & _ & Hblocks).
  - intros E. apply (f_equal (fun m => m !! "sink")) in E. vm_compute in E. discriminate.
  - reflexivity.
  - intros n blk Hget.
    unfold ready_pipeline in Hget. cbn [blocks_ pm_with_blocks] in Hget.
    apply lookup_insert_Some in Hget as [[_ <-] | [_ Hget]]; [vm_compute; reflexivity|].
    apply lookup_insert_Some in Hget as [[_ <-] | [_ Hget]]; [vm_compute; reflexivity|].
    rewrite lookup_empty in Hget. discriminate.
  - split; [exact Hret|]. rewrite Hblocks. reflexivity.
Defined.

Section PipelineStopTheorems.

Variable Plain_Stop : BaseBlock -> BaseBlock * bool.

Lemma stop_phases_lookup (pm : PipelineManager) :
  let l := blocks_in_order (blocks_ pm) in
  let pm3 := stop_blocks Plain_Stop (sinks_of l)
               (stop_blocks Plain_Stop (others_of l)
                  (stop_blocks Plain_Stop (sources_of l) pm)) in
  is_running_ pm3 = is_running_ pm /\
  config_ pm3 = config_ pm /\
  pm_error_callback_ pm3 = pm_error_callback_ pm /\
  pm_last_error_ pm3 = pm_last_error_ pm /\
  forall n, blocks_ pm3 !! n
            = (fun blk => fst (Block_Stop Plain_Stop blk)) <$> blocks_ pm !! n.
Proof.
  intros l pm3. unfold pm3, l, sinks_of, others_of, sources_of.
  rewrite !stop_blocks_update.
  set (g := fun blk => fst (Block_Stop Plain_Stop blk)).
  set (m := blocks_ pm).
  set (pm1 := update_blocks g (List.filter (fun p => is_source (snd p)) (blocks_in_order m)) pm).
  set (pm2 := update_blocks g (List.filter (fun p => is_other (snd p)) (blocks_in_order m)) pm1).
  destruct (update_blocks_spec g (List.filter (fun p => is_source (snd p)) (blocks_in_order m)) pm)
    as (Hr1 & Hc1 & Hcb1 & He1 & _).
  destruct (update_blocks_spec g (List.filter (fun p => is_other (snd p)) (blocks_in_order m)) pm1)
    as (Hr2 & Hc2 & Hcb2 & He2 & _).
  destruct (update_blocks_spec g (List.filter (fun p => is_sink (snd p)) (blocks_in_order m)) pm2)
    as (Hr3 & Hc3 & Hcb3 & He3 & _).
  fold pm1 in Hr1, Hc1, Hcb1, He1. fold pm2 in Hr2, Hc2, Hcb2, He2.
  split; [congruence|]. split; [congruence|]. split; [congruence|]. split; [congruence|].
  assert (H1 : forall n, blocks_ pm1 !! n
                = match m !! n with
                  | Some blk => if is_source blk then Some (g blk) else m !! n
                  | None => m !! n
                  end).
  { intros n. unfold pm1. apply update_kind_lookup. intros n' blk Hm _. exact Hm. }
  assert (H2 : forall n, blocks_ pm2 !! n
                = match m !! n with
                  | Some blk => if is_other blk then Some (g blk) else blocks_ pm1 !! n
                  | None => blocks_ pm1 !! n
                  end).
  { intros n. unfold pm2. apply update_kind_lookup. intros n' blk Hm Hk.
    rewrite H1, Hm. destruct blk; cbn in *; congruence. }
  intros n. rewrite update_kind_lookup.
  - rewrite H2, H1. destruct (m !! n) as [[t|k|b]|]; reflexivity.
  - intros n' blk Hm Hk. rewrite H2, H1, Hm. destruct blk; cbn in *; congruence.
Qed.

Lemma PM_Stop_flags (pm : PipelineManager) :
  is_running_ (fst (PM_Stop Plain_Stop pm)) = false /\
  pm_last_error_ (fst (PM_Stop Plain_Stop pm)) = pm_last_error_ pm.
Proof.
  unfold PM_Stop.
  destruct (stop_phases_lookup pm) as (_ & _ & _ & He & _).
  destruct (is_running_ pm) eqn:Hrun; cbn [negb fst];
    [split; [reflexivity | exact He] | split; [exact Hrun | reflexivity]].
Qed.

(** [Stop] of the manager never fails.  When the pipeline is not running it
    changes nothing.  When it is running, every block of the map is
    stopped, whatever the [Stop] of a block returns, the running flag is
    cleared and [last_error_] is left alone. *)
Theorem PM_Stop_outcomes (pm : PipelineManager) :
  snd (PM_Stop Plain_Stop pm) = true /\
  IsRunning (fst (PM_Stop Plain_Stop pm)) = false /\
  pm_last_error_ (fst (PM_Stop Plain_Stop pm)) = pm_last_error_ pm /\
  (is_running_ pm = false -> fst (PM_Stop Plain_Stop pm) = pm) /\
  (is_running_ pm = true ->
   forall n, GetBlock n (fst (PM_Stop Plain_Stop pm))
             = (fun blk => fst (Block_Stop Plain_Stop blk)) <$> GetBlock n pm).
Proof.
  unfold PM_Stop, IsRunning, GetBlock.
  destruct (stop_phases_lookup pm) as (Hr & Hc & Hcb & He & Hl).
  destruct (is_running_ pm) eqn:Hrun; cbn [negb fst snd].
  - split; [reflexivity|]. split; [reflexivity|].
    cbn [pm_last_error_ pm_with_running blocks_].
    split; [exact He|]. split; [discriminate|]. intros _ n. apply Hl.
  - split; [reflexivity|]. split; [exact Hrun|]. split; [reflexivity|].
    split; [reflexivity | discriminate].
Qed.

End PipelineStopTheorems.

Lemma PM_Stop_outcomes_witness :
  GetBlock "sink" (fst (PM_Stop plain_ok (fst (PM_Start plain_ok ready_pipeline))))
  = (fun blk => fst (Block_Stop plain_ok blk))
      <$> GetBlock "sink" (fst (PM_Start plain_ok ready_pipeline)).
Proof.
  destruct (PM_Stop_outcomes plain_ok (fst (PM_Start plain_ok ready_pipeline)))
    as (_ & _ & _ & _ & Hblocks).
  apply Hblocks. vm_compute. reflexivity.
Defined.

(** [Stop] and [Shutdown] of a block join its thread when the block is
    running, and a block with no thread gets none from them. *)
Lemma Block_Stop_joins (ps : BaseBlock -> BaseBlock * bool) (blk : Block) :
  stops_cleanly blk = true ->
  stops_cleanly (fst (Block_Stop ps blk)) = true /\
  destroys_cleanly (fst (Block_Stop ps blk)) = true.
Proof.
  destruct blk as [t|k|b]; cbn [Block_Stop fst stops_cleanly destroys_cleanly];
    [| |split; reflexivity].
  - unfold TPS_Stop.
    destruct (BlockState_eqb (GetState (tps_block t)) RUNNING) eqn:Hs; cbn [negb fst orb].
    + intros _. split; [apply orb_true_r | apply orb_true_r].
    + rewrite Hs. cbn [orb]. intros H. split; exact H.
  - unfold Sink_Stop.
    destruct (BlockState_eqb (GetState (sink_block k)) RUNNING) eqn:Hs; cbn [negb fst orb].
    + intros _. split; [apply orb_true_r | reflexivity].
    + rewrite Hs. cbn [orb]. intros H. split; exact H.
Qed.

Lemma Block_Shutdown_joins (psh : BaseBlock -> BaseBlock * bool) (blk : Block) :
  stops_cleanly blk = true ->
  destroys_cleanly (fst (Block_Shutdown psh blk)) = true.
Proof.
  destruct blk as [t|k|b]; cbn [Block_Shutdown fst stops_cleanly destroys_cleanly];
    [| |reflexivity].
  - intros H. apply (Block_Stop_joins psh (SourceBlock t) H).
  - intros H. apply (Block_Stop_joins psh (SinkBlock k) H).
Qed.

Section PipelineShutdownTheorems.

Variable Plain_Start : BaseBlock -> BaseBlock * bool.
Variable Plain_Stop : BaseBlock -> BaseBlock * bool.
Variable Plain_Shutdown : BaseBlock -> BaseBlock * bool.

(** The blocks on which [blocks_.clear()] is called by [Shutdown]: every
    block of the map, stopped when the pipeline was running, and then shut
    down. *)
Lemma shut_down_blocks_lookup (pm : PipelineManager) n :
  blocks_ (shut_down_blocks Plain_Stop Plain_Shutdown pm) !! n
  = (fun blk =>
       fst (Block_Shutdown Plain_Shutdown
              (if is_running_ pm then fst (Block_Stop Plain_Stop blk) else blk)))
      <$> blocks_ pm !! n.
Proof.
  unfold shut_down_blocks.
  set (pm1 := fst (PM_Stop Plain_Stop pm)).
  assert (H1 : blocks_ pm1 !! n
               = (fun blk => if is_running_ pm then fst (Block_Stop Plain_Stop blk)
                             else blk) <$> blocks_ pm !! n).
  { unfold pm1, PM_Stop.
    destruct (stop_phases_lookup Plain_Stop pm) as (_ & _ & _ & _ & Hl).
    destruct (is_running_ pm); cbn [negb fst].
    - cbn [blocks_ pm_with_running]. apply Hl.
    - destruct (blocks_ pm !! n); reflexivity. }
  rewrite shutdown_blocks_update.
  destruct (update_blocks_spec (fun blk => fst (Block_Shutdown Plain_Shutdown blk))
              (blocks_in_order (blocks_ pm1)) pm1) as (_ & _ & _ & _ & Hout & Hin).
  destruct (blocks_ pm1 !! n) as [blk1|] eqn:Hl1.
  - rewrite (Hin (NoDup_blocks_in_order _) n blk1)
      by (apply elem_of_blocks_in_order; exact Hl1).
    destruct (blocks_ pm !! n) as [blk|]; [|discriminate].
    cbn [fmap option_fmap option_map] in *. injection H1 as <-. reflexivity.
  - rewrite Hout.
    + rewrite Hl1. destruct (blocks_ pm !! n) as [blk|]; [discriminate | reflexivity].
    + intros Hel. apply list_elem_of_fmap in Hel as [[n' b'] [E Hel]].
      cbn [fst] in E. subst n'. apply elem_of_blocks_in_order in Hel. congruence.
Qed.

(** [Shutdown] of the manager, for a manager every block of which is
    running or has no thread attached.  Every block is shut down, after
    having been stopped when the pipeline was running, and each of them can
    then be destroyed: [blocks_.clear()] is reached with no thread left
    attached.  [Shutdown] returns true whatever the blocks return and leaves
    a manager that is not running, holds no block and has the default
    configuration; [last_error_] is left alone.  A second [Shutdown]
    changes nothing, and a [Start] after it fails with the message asking
    for [Initialize]. *)
Theorem PM_Shutdown_outcomes (pm : PipelineManager) :
  (forall n blk, GetBlock n pm = Some blk -> stops_cleanly blk = true) ->
  let down := fst (PM_Shutdown Plain_Stop Plain_Shutdown pm) in
  (forall n,
     GetBlock n (shut_down_blocks Plain_Stop Plain_Shutdown pm)
     = (fun blk =>
          fst (Block_Shutdown Plain_Shutdown
                 (if is_running_ pm then fst (Block_Stop Plain_Stop blk) else blk)))
         <$> GetBlock n pm) /\
  releases_cleanly (blocks_ (shut_down_blocks Plain_Stop Plain_Shutdown pm)) /\
  snd (PM_Shutdown Plain_Stop Plain_Shutdown pm) = true /\
  IsRunning down = false /\
  (forall n, GetBlock n down = None) /\
  cfg_blocks (config_ down) = [] /\ cfg_connections (config_ down) = [] /\
  pm_last_error_ down = pm_last_error_ pm /\
  PM_Shutdown Plain_Stop Plain_Shutdown down = (down, true) /\
  PM_Start Plain_Start down
  = (pm_with_error "No blocks to start. Call Initialize() first." down, false).
Proof.
  intros Hclean down.
  destruct (PM_Stop_flags Plain_Stop pm) as (Hrun & Herr).
  assert (Hflags : is_running_ (shut_down_blocks Plain_Stop Plain_Shutdown pm) = false /\
                   pm_last_error_ (shut_down_blocks Plain_Stop Plain_Shutdown pm)
                   = pm_last_error_ pm).
  { unfold shut_down_blocks.
    destruct (update_blocks_spec (fun blk => fst (Block_Shutdown Plain_Shutdown blk))
                (blocks_in_order (blocks_ (fst (PM_Stop Plain_Stop pm))))
                (fst (PM_Stop Plain_Stop pm))) as (Hr & _ & _ & He & _).
    rewrite <- shutdown_blocks_update in Hr, He. split; congruence. }
  destruct Hflags as [Hsd_run Hsd_err].
  assert (Hdown_run : is_running_ down = false) by exact Hsd_run.
  assert (Hdown_blocks : blocks_ down = ∅) by reflexivity.
  split; [intros n; apply shut_down_blocks_lookup|].
  split.
  { intros n blk1 Hget. rewrite shut_down_blocks_lookup in Hget.
    destruct (blocks_ pm !! n) as [blk|] eqn:Hl; [|discriminate].
    cbn [fmap option_fmap option_map] in Hget. injection Hget as <-.
    apply Block_Shutdown_joins.
    destruct (is_running_ pm); [|apply (Hclean n); exact Hl].
    apply Block_Stop_joins. apply (Hclean n). exact Hl. }
  split; [reflexivity|]. split; [exact Hdown_run|].
  split; [intros n; unfold GetBlock; rewrite Hdown_blocks; apply lookup_empty|].
  split; [reflexivity|]. split; [reflexivity|].
  split; [exact Hsd_err|].
  split.
  - unfold PM_Shutdown at 1. unfold shut_down_blocks, PM_Stop.
    rewrite Hdown_run. cbn [negb fst].
    rewrite Hdown_blocks, blocks_in_order_empty. cbn [shutdown_blocks].
    reflexivity.
  - unfold PM_Start. rewrite Hdown_blocks, map_to_list_empty. reflexivity.
Qed.

End PipelineShutdownTheorems.

Lemma PM_Shutdown_outcomes_witness :
  releases_cleanly (blocks_ (shut_down_blocks plain_ok plain_ok running_pipeline)) /\
  GetBlock "sink" (shut_down_blocks plain_ok plain_ok running_pipeline)
  = Some (SinkBlock (fst (Sink_Stop (fst (Sink_Start initialized_sink))))) /\
  GetBlock "sink" (fst (PM_Shutdown plain_ok plain_ok running_pipeline)) = None.
Proof.
  destruct (PM_Shutdown_outcomes plain_ok plain_ok plain_ok running_pipeline)
    as (Hblocks & Hrel & _ & _ & Hnone & _).
  - intros n blk Hget. unfold GetBlock, running_pipeline in Hget.
    cbn [blocks_ pm_with_blocks pm_with_running] in Hget.
    apply lookup_insert_Some in Hget as [[_ <-] | [_ Hget]]; [vm_compute; reflexivity|].
    apply lookup_insert_Some in Hget as [[_ <-] | [_ Hget]]; [vm_compute; reflexivity|].
    rewrite lookup_empty in Hget. discriminate.
  - split; [exact Hrel|]. split; [|apply Hnone].
    rewrite Hblocks. vm_compute. reflexivity.
Defined.

(** ** Connecting the blocks *)

Lemma connects_true c pm :
  connects c pm = true ->
  exists t k, blocks_ pm !! source_block_name c = Some (SourceBlock t) /\
              blocks_ pm !! sink_block_name c = Some (SinkBlock k).
Proof.
  unfold connects, GetBlock. intros H.
  destruct (blocks_ pm !! source_block_name c) as [[t|k|b]|]; try discriminate.
  destruct (blocks_ pm !! sink_block_name c) as [[t'|k|b]|]; try discriminate.
  eauto.
Qed.

(** The checks of a connection look at the casts only. *)
Lemma connects_casts c pm pm' :
  (forall n, casts_at n pm' = casts_at n pm) ->
  connects c pm' = connects c pm /\ connect_error c pm' = connect_error c pm.
Proof.
  intros H. pose proof (H (source_block_name c)) as Hs.
  pose proof (H (sink_block_name c)) as Hk.
  unfold casts_at, connects, connect_error, GetBlock in *.
  destruct (blocks_ pm' !! source_block_name c) as [[?|?|?]|];
    destruct (blocks_ pm !! source_block_name c) as [[?|?|?]|];
    try discriminate;
    destruct (blocks_ pm' !! sink_block_name c) as [[?|?|?]|];
    destruct (blocks_ pm !! sink_block_name c) as [[?|?|?]|];
    try discriminate; split; reflexivity.
Qed.

Lemma SetFrameCallback_twice cb cb' (t : TestPatternSource) :
  tps_with_source
    (fst (SetFrameCallback cb'
            (tps_source (tps_with_source (fst (SetFrameCallback cb (tps_source t))) t))))
    (tps_with_source (fst (SetFrameCallback cb (tps_source t))) t)
  = tps_with_source (fst (SetFrameCallback cb' (tps_source t))) t.
Proof. reflexivity. Qed.

Lemma SetFrameCallback_same (t : TestPatternSource) :
  tps_with_source (fst (SetFrameCallback (frame_callback_ (tps_source t)) (tps_source t))) t
  = t.
Proof. destruct t as [[] ? ? ? ? ? ? ?]. reflexivity. Qed.

(** The last connection of a list that names a given source. *)
Lemma last_with_source (name : string) : forall l : list Connection,
  (forall c, c ∈ l -> source_block_name c <> name) \/
  (exists pre c post, l = pre ++ c :: post /\ source_block_name c = name /\
     forall c2, c2 ∈ post -> source_block_name c2 <> source_block_name c).
Proof.
  induction l as [|c0 l IH].
  - left. intros c Hc. apply elem_of_nil in Hc. contradiction.
  - destruct IH as [Hnone | (pre & c & post & -> & E & Hp)].
    + destruct (decide (source_block_name c0 = name)) as [E | Hne].
      * right. exists [], c0, l. split; [reflexivity|]. split; [exact E|].
        intros c2 Hc2. rewrite E. apply Hnone. exact Hc2.
      * left. intros c Hc. apply elem_of_cons in Hc as [-> | Hc];
          [exact Hne | apply Hnone; exact Hc].
    + right. exists (c0 :: pre), c, post. split; [reflexivity|]. split; assumption.
Qed.

Section PipelineConnectFacts.

Variable Sink_SupportsFormat : BaseVideoSink -> PixelFormat -> bool.

Lemma connect_pair_casts c t k pm :
  blocks_ pm !! source_block_name c = Some (SourceBlock t) ->
  blocks_ pm !! sink_block_name c = Some (SinkBlock k) ->
  forall n, casts_at n (connect_pair Sink_SupportsFormat c t k pm) = casts_at n pm.
Proof.
  intros Hs Hk n. unfold casts_at, GetBlock, connect_pair. cbn [blocks_ pm_with_blocks].
  destruct (decide (sink_block_name c = n)) as [<- | Hn1].
  - rewrite lookup_insert_eq, Hk. reflexivity.
  - rewrite lookup_insert_ne by exact Hn1.
    destruct (decide (source_block_name c = n)) as [<- | Hn2].
    + rewrite lookup_insert_eq, Hs. reflexivity.
    + rewrite lookup_insert_ne by exact Hn2. reflexivity.
Qed.

Lemma ConnectBlocks_loop_cons c rest pm t k :
  blocks_ pm !! source_block_name c = Some (SourceBlock t) ->
  blocks_ pm !! sink_block_name c = Some (SinkBlock k) ->
  ConnectBlocks_loop Sink_SupportsFormat (c :: rest) pm
  = ConnectBlocks_loop Sink_SupportsFormat rest (connect_pair Sink_SupportsFormat c t k pm).
Proof. intros Hs Hk. cbn [ConnectBlocks_loop]. rewrite Hs, Hk. reflexivity. Qed.

Lemma ConnectBlocks_loop_fail c rest pm :
  connects c pm = false ->
  ConnectBlocks_loop Sink_SupportsFormat (c :: rest) pm
  = (pm_with_error (connect_error c pm) pm, false).
Proof.
  unfold connects, connect_error, GetBlock. cbn [ConnectBlocks_loop]. intros H.
  destruct (blocks_ pm !! source_block_name c) as [[?|?|?]|];
    destruct (blocks_ pm !! sink_block_name c) as [[?|?|?]|];
    try discriminate; reflexivity.
Qed.

Lemma ConnectBlocks_loop_ok : forall conns pm,
  (forall c, c ∈ conns -> connects c pm = true) ->
  snd (ConnectBlocks_loop Sink_SupportsFormat conns pm) = true /\
  pm_last_error_ (fst (ConnectBlocks_loop Sink_SupportsFormat conns pm)) = pm_last_error_ pm /\
  (forall n, casts_at n (fst (ConnectBlocks_loop Sink_SupportsFormat conns pm))
             = casts_at n pm) /\
  (forall n, (forall c, c ∈ conns -> source_block_name c <> n /\ sink_block_name c <> n) ->
     blocks_ (fst (ConnectBlocks_loop Sink_SupportsFormat conns pm)) !! n
     = blocks_ pm !! n) /\
  (forall n t, blocks_ pm !! n = Some (SourceBlock t) ->
     exists cb,
       blocks_ (fst (ConnectBlocks_loop Sink_SupportsFormat conns pm)) !! n
       = Some (SourceBlock (tps_with_source (fst (SetFrameCallback cb (tps_source t))) t))) /\
  (forall pre c post, conns = pre ++ c :: post ->
     (forall c', c' ∈ post -> source_block_name c' <> source_block_name c) ->
     exists t,
       blocks_ (fst (ConnectBlocks_loop Sink_SupportsFormat conns pm)) !! source_block_name c
       = Some (SourceBlock t) /\
       frame_callback_ (tps_source t) = Some (RouteToSink (sink_block_name c))).
Proof.
  induction conns as [|c0 rest IH]; intros pm Hall.
  - cbn [ConnectBlocks_loop fst snd].
    split; [reflexivity|]. split; [reflexivity|]. split; [reflexivity|].
    split; [reflexivity|]. split.
    + intros n t Hn. exists (frame_callback_ (tps_source t)).
      rewrite SetFrameCallback_same. exact Hn.
    + intros pre c post E. destruct pre; discriminate.
  - destruct (connects_true c0 pm) as (t0 & k0 & Hs0 & Hk0);
      [apply Hall, elem_of_cons; left; reflexivity|].
    rewrite (ConnectBlocks_loop_cons c0 rest pm t0 k0 Hs0 Hk0).
    set (pm' := connect_pair Sink_SupportsFormat c0 t0 k0 pm).
    pose proof (connect_pair_casts c0 t0 k0 pm Hs0 Hk0) as Hcasts. fold pm' in Hcasts.
    assert (Hall' : forall c, c ∈ rest -> connects c pm' = true).
    { intros c Hc. rewrite (proj1 (connects_casts c pm pm' Hcasts)).
      apply Hall, elem_of_cons. right. exact Hc. }
    destruct (IH pm' Hall') as (Hok & Herr & Hk & Hout & Hsrc & Hlast).
    assert (Hneq : source_block_name c0 <> sink_block_name c0).
    { intros E. rewrite E in Hs0. congruence. }
    assert (Hsrc0 : blocks_ pm' !! source_block_name c0
                    = Some (SourceBlock
                        (tps_with_source
                           (fst (SetFrameCallback (Some (RouteToSink (sink_block_name c0)))
                                                  (tps_source t0))) t0))).
    { unfold pm', connect_pair. cbn [blocks_ pm_with_blocks].
      rewrite lookup_insert_ne by congruence. apply lookup_insert_eq. }
    split; [exact Hok|]. split; [exact Herr|].
    split; [intros n; rewrite Hk; apply Hcasts|]. split; [|split].
    + intros n Hn. rewrite Hout.
      * destruct (Hn c0) as [Hn1 Hn2]; [apply elem_of_cons; left; reflexivity|].
        unfold pm', connect_pair. cbn [blocks_ pm_with_blocks].
        rewrite !lookup_insert_ne by assumption. reflexivity.
      * intros c Hc. apply Hn, elem_of_cons. right. exact Hc.
    + intros n t Hn.
      destruct (decide (source_block_name c0 = n)) as [<- | Hn2].
      * assert (t = t0) as -> by congruence.
        destruct (Hsrc _ _ Hsrc0) as [cb Hcb]. exists cb.
        rewrite Hcb, SetFrameCallback_twice. reflexivity.
      * assert (Hn1 : sink_block_name c0 <> n) by (intros <-; congruence).
        apply Hsrc. unfold pm', connect_pair. cbn [blocks_ pm_with_blocks].
        rewrite !lookup_insert_ne by assumption. exact Hn.
    + intros pre c post E Hpost. destruct pre as [|c1 pre]; cbn in E.
      * injection E as <- <-.
        eexists. split; [rewrite Hout; [exact Hsrc0|] | reflexivity].
        intros c' Hc'. split; [apply Hpost; exact Hc'|].
        destruct (connects_true c' pm' (Hall' c' Hc')) as (t' & k' & _ & Hk').
        intros E. rewrite E in Hk'. congruence.
      * injection E as <- ->. apply (Hlast pre c post eq_refl Hpost).
Qed.

Lemma ConnectBlocks_loop_app : forall pre pm rest,
  (forall c, c ∈ pre -> connects c pm = true) ->
  ConnectBlocks_loop Sink_SupportsFormat (pre ++ rest) pm
  = ConnectBlocks_loop Sink_SupportsFormat rest
      (fst (ConnectBlocks_loop Sink_SupportsFormat pre pm)).
Proof.
  induction pre as [|c0 pre IH]; intros pm rest Hall; [reflexivity|].
  destruct (connects_true c0 pm) as (t0 & k0 & Hs0 & Hk0);
    [apply Hall, elem_of_cons; left; reflexivity|].
  cbn [app]. rewrite !(ConnectBlocks_loop_cons c0 _ pm t0 k0 Hs0 Hk0).
  apply IH. intros c Hc.
  rewrite (proj1 (connects_casts c pm _ (connect_pair_casts c0 t0 k0 pm Hs0 Hk0))).
  apply Hall, elem_of_cons. right. exact Hc.
Qed.

(** When every connection of the configuration names a source and a sink
    of the map, [ConnectBlocks] returns true and leaves [last_error_]
    alone.  Blocks no connection names are untouched, every source is the
    source it was apart from its callback, and the callback of a source is
    the route to the sink of the LAST connection that names the source: a
    second connection from the same source replaces the first. *)
Theorem ConnectBlocks_success (pm : PipelineManager) :
  (forall c, c ∈ cfg_connections (config_ pm) -> connects c pm = true) ->
  snd (ConnectBlocks Sink_SupportsFormat pm) = true /\
  pm_last_error_ (fst (ConnectBlocks Sink_SupportsFormat pm)) = pm_last_error_ pm /\
  (forall n,
     (forall c, c ∈ cfg_connections (config_ pm) ->
                source_block_name c <> n /\ sink_block_name c <> n) ->
     GetBlock n (fst (ConnectBlocks Sink_SupportsFormat pm)) = GetBlock n pm) /\
  (forall n t, GetBlock n pm = Some (SourceBlock t) ->
     exists cb,
       GetBlock n (fst (ConnectBlocks Sink_SupportsFormat pm))
       = Some (SourceBlock (tps_with_source (fst (SetFrameCallback cb (tps_source t))) t))) /\
  (forall pre c post, cfg_connections (config_ pm) = pre ++ c :: post ->
     (forall c', c' ∈ post -> source_block_name c' <> source_block_name c) ->
     exists t,
       GetBlock (source_block_name c) (fst (ConnectBlocks Sink_SupportsFormat pm))
       = Some (SourceBlock t) /\
       frame_callback_ (tps_source t) = Some (RouteToSink (sink_block_name c))).
Proof.
  intros Hall. unfold ConnectBlocks, GetBlock.
  destruct (ConnectBlocks_loop_ok (cfg_connections (config_ pm)) pm Hall)
    as (Hok & Herr & _ & Hout & Hsrc & Hlast).
  split; [exact Hok|]. split; [exact Herr|]. split; [exact Hout|].
  split; [exact Hsrc | exact Hlast].
Qed.

(** [ConnectBlocks] stops at the first connection that does not name a
    source and a sink of the map: it returns false and [last_error_] is
    the message of the first check that connection fails.  No block
    changes its kind, and the connections before the failing one stay
    made: their sources keep the callbacks they were given. *)
Theorem ConnectBlocks_first_failure (pm : PipelineManager) pre c post :
  cfg_connections (config_ pm) = pre ++ c :: post ->
  (forall c', c' ∈ pre -> connects c' pm = true) ->
  connects c pm = false ->
  snd (ConnectBlocks Sink_SupportsFormat pm) = false /\
  pm_last_error_ (fst (ConnectBlocks Sink_SupportsFormat pm)) = connect_error c pm /\
  (forall n, casts_at n (fst (ConnectBlocks Sink_SupportsFormat pm)) = casts_at n pm) /\
  (forall c', c' ∈ pre ->
     exists t cb,
       GetBlock (source_block_name c') (fst (ConnectBlocks Sink_SupportsFormat pm))
       = Some (SourceBlock t) /\
       frame_callback_ (tps_source t) = Some cb).
Proof.
  intros Hcfg Hpre Hc. unfold ConnectBlocks, GetBlock. rewrite Hcfg.
  rewrite (ConnectBlocks_loop_app pre pm (c :: post) Hpre).
  destruct (ConnectBlocks_loop_ok pre pm Hpre) as (_ & _ & Hcasts & _ & _ & Hlast).
  set (pm1 := fst (ConnectBlocks_loop Sink_SupportsFormat pre pm)) in *.
  destruct (connects_casts c pm pm1 Hcasts) as [Hc1 He1].
  rewrite ConnectBlocks_loop_fail by congruence. cbn [fst snd].
  split; [reflexivity|]. split; [exact He1|]. split; [exact Hcasts|].
  intros c' Hc'. cbn [blocks_ pm_with_error].
  destruct (last_with_source (source_block_name c') pre) as [Hnone | Hsplit];
    [destruct (Hnone c' Hc'); reflexivity|].
  destruct Hsplit as (pre1 & c1 & post1 & E & Hname & Hp).
  destruct (Hlast pre1 c1 post1 E Hp) as (t & Ht & Hcb).
  exists t, (RouteToSink (sink_block_name c1)). rewrite <- Hname. split; assumption.
Qed.

End PipelineConnectFacts.

Lemma ConnectBlocks_success_witness :
  exists t,
    GetBlock "src" (fst (ConnectBlocks any_format two_sink_pipeline))
    = Some (SourceBlock t) /\
    frame_callback_ (tps_source t) = Some (RouteToSink "b").
Proof.
  destruct (ConnectBlocks_success any_format two_sink_pipeline)
    as (_ & _ & _ & _ & Hlast).
  - intros c Hc. cbn [two_sink_pipeline pm_with_config config_ cfg_connections] in Hc.
    apply elem_of_cons in Hc as [-> | Hc]; [vm_compute; reflexivity|].
    apply elem_of_cons in Hc as [-> | Hc]; [vm_compute; reflexivity|].
    apply elem_of_nil in Hc. contradiction.
  - apply (Hlast
             [ {| source_block_name := "src"; source_output := "output";
                  sink_block_name := "a"; sink_input := "input" |} ]
             {| source_block_name := "src"; source_output := "output";
                sink_block_name := "b"; sink_input := "input" |}
             []).
    + reflexivity.
    + intros c' Hc'. apply elem_of_nil in Hc'. contradiction.
Defined.

Lemma ConnectBlocks_first_failure_witness :
  snd (ConnectBlocks any_format dangling_pipeline) = false /\
  pm_last_error_ (fst (ConnectBlocks any_format dangling_pipeline))
  = "Sink block not found: nowhere".
Proof.
  destruct (ConnectBlocks_first_failure any_format dangling_pipeline
              [ {| source_block_name := "src"; source_output := "output";
                   sink_block_name := "sink"; sink_input := "input" |} ]
              {| source_block_name := "src"; source_output := "output";
                 sink_block_name := "nowhere"; sink_input := "input" |}
              []) as (Hret & Herr & _).
  - reflexivity.
  - intros c' Hc'. apply elem_of_cons in Hc' as [-> | Hc']; [vm_compute; reflexivity|].
    apply elem_of_nil in Hc'. contradiction.
  - vm_compute. reflexivity.
  - split; [exact Hret|]. rewrite Herr. vm_compute. reflexivity.
Defined.

(** ** The planes of a frame *)

Ltac plane_cases :=
  repeat match goal with
         | |- context [?a <? ?b] => destruct (Z.ltb_spec a b)
         | |- context [?a =? ?b] => destruct (Z.eqb_spec a b)
         end;
  cbn [orb].

Lemma created_frame_size alloc_ok info f :
  CreateVideoFrame alloc_ok info = Some f ->
  frame_info_ f = info /\ size_ f = GetFrameSize info /\ GetFrameSize info <> 0.
Proof.
  unfold CreateVideoFrame. destruct (GetFrameSize info =? 0) eqn:E; [discriminate|].
  apply Z.eqb_neq in E. destruct alloc_ok; [|discriminate].
  intros [= <-]. repeat split; try reflexivity. exact E.
Qed.

(** The planes of a frame made by [CreateVideoFrame] lie inside its buffer,
    as long as five times the pixel count fits in 32 bits.  A plane has data
    exactly when its index is below [GetPlaneCount]; plane 0 starts at the
    start of the buffer, every further plane starts where the one before it
    ends, and every plane ends within the [GetSize] bytes of the frame.
    The last plane ends at most one byte short of the end of the frame.  An
    index outside the planes has no data and size 0. *)
Theorem frame_planes_layout (alloc_ok : bool) (info : FrameInfo) (f : Frame) :
  CreateVideoFrame alloc_ok info = Some f ->
  0 <= width info -> 0 <= height info -> width info * height info * 5 < 2 ^ 32 ->
  (forall plane, 0 <= plane < GetPlaneCount f <-> exists off, GetPlaneData plane f = Some off) /\
  GetPlaneData 0 f = Some 0 /\
  (forall plane off, GetPlaneData plane f = Some off ->
     0 <= off /\ 0 <= GetPlaneSize plane f /\ off + GetPlaneSize plane f <= GetSize f) /\
  (forall plane off', 0 <= plane -> GetPlaneData (plane + 1) f = Some off' ->
     exists off, GetPlaneData plane f = Some off /\ off' = off + GetPlaneSize plane f) /\
  (forall off, GetPlaneData (GetPlaneCount f - 1) f = Some off ->
     GetSize f - 1 <= off + GetPlaneSize (GetPlaneCount f - 1) f) /\
  (forall plane, plane < 0 \/ GetPlaneCount f <= plane ->
     GetPlaneData plane f = None /\ GetPlaneSize plane f = 0).
Proof.
  intros Hmade Hw Hh Hfit.
  destruct (created_frame_size _ _ _ Hmade) as (Hinfo & Hsize & Hnz).
  unfold GetPlaneCount, GetPlaneData, GetPlaneSize, GetSize.
  rewrite Hsize, Hinfo. clear Hmade Hsize Hinfo f.
  unfold GetFrameSize in *. unfold mul_u32 in *.
  assert (Hx : 0 <= width info * height info) by (apply Z.mul_nonneg_nonneg; assumption).
  set (x := width info * height info) in *.
  rewrite (wrap32_small x) in * by lia.
  rewrite ?(wrap32_small (x * 5)), ?(wrap32_small (x * 4)), ?(wrap32_small (x * 3)),
    ?(wrap32_small (x * 2)) in * by lia.
  assert (H4 : 0 <= x / 4 /\ 4 * (x / 4) <= x < 4 * (x / 4) + 4).
  { pose proof (Z.div_mod x 4 ltac:(lia)). pose proof (Z.mod_pos_bound x 4 ltac:(lia)).
    split; [apply Z.div_pos; lia | lia]. }
  assert (H2 : 0 <= x / 2 /\ 2 * (x / 2) <= x < 2 * (x / 2) + 2).
  { pose proof (Z.div_mod x 2 ltac:(lia)). pose proof (Z.mod_pos_bound x 2 ltac:(lia)).
    split; [apply Z.div_pos; lia | lia]. }
  assert (H54 : 4 * (x * 5 / 4) <= x * 5 < 4 * (x * 5 / 4) + 4).
  { pose proof (Z.div_mod (x * 5) 4 ltac:(lia)).
    pose proof (Z.mod_pos_bound (x * 5) 4 ltac:(lia)). lia. }
  assert (H32 : 2 * (x * 3 / 2) <= x * 3 < 2 * (x * 3 / 2) + 2).
  { pose proof (Z.div_mod (x * 3) 2 ltac:(lia)).
    pose proof (Z.mod_pos_bound (x * 3) 2 ltac:(lia)). lia. }
  set (q4 := x / 4) in *. set (q2 := x / 2) in *.
  set (q54 := x * 5 / 4) in *. set (q32 := x * 3 / 2) in *.
  change (1 - 1) with 0. change (2 - 1) with 1. change (3 - 1) with 2.
  destruct (pixel_format info); try (exfalso; apply Hnz; reflexivity);
    (split;
     [ intros plane; split; [intros Hp | intros [off Hoff]; revert Hoff];
       plane_cases; intros; try discriminate; try lia; eauto
     | split;
       [ reflexivity
       | split;
         [ intros plane off; plane_cases; intros Hoff; try discriminate;
           injection Hoff as <-; lia
         | split;
           [ intros plane off' Hp; plane_cases; intros Hoff; try discriminate;
             try lia; injection Hoff as <-; eexists; (split; [reflexivity | lia])
           | split;
             [ intros off; plane_cases; intros Hoff; try discriminate; try lia;
               injection Hoff as <-; lia
             | intros plane Hp; plane_cases; split; try reflexivity; lia ]]]]]).
Qed.

Lemma frame_planes_layout_witness :
  GetPlaneData 2 {| frame_info_ := mkInfo YUV420P 640 480; size_ := 460800 |}
  = Some 384000 /\
  384000 + GetPlaneSize 2 {| frame_info_ := mkInfo YUV420P 640 480; size_ := 460800 |}
  <= GetSize {| frame_info_ := mkInfo YUV420P 640 480; size_ := 460800 |}.
Proof.
  destruct (frame_planes_layout true (mkInfo YUV420P 640 480)
              {| frame_info_ := mkInfo YUV420P 640 480; size_ := 460800 |})
    as (_ & _ & Hin & _);
    [vm_compute; reflexivity | cbn; lia | cbn; lia | cbn; lia |].
  assert (Hd : GetPlaneData 2 {| frame_info_ := mkInfo YUV420P 640 480; size_ := 460800 |}
               = Some 384000) by (vm_compute; reflexivity).
  split; [exact Hd|]. apply (Hin 2 384000 Hd).
Defined.

(** The stride the test pattern source fills in agrees with the buffer.
    When [SetOutputFormat] accepts a format given without a stride, a frame
    the generator creates for the stored format reports, as the stride of
    its plane 0, the stride the source filled in; and as long as four times
    the pixel count fits in 32 bits, that stride times the height is the
    size of plane 0. *)
Theorem TPS_stride_matches_plane (format : FrameInfo) (t : TestPatternSource)
    (alloc_ok : bool) (f : Frame) :
  GetState (tps_block t) <> RUNNING ->
  TPS_SupportsFormat (pixel_format format) = true ->
  stride format = 0 ->
  CreateVideoFrame alloc_ok (TPS_GetOutputFormat (fst (TPS_SetOutputFormat format t)))
    = Some f ->
  stride (frame_info_ f) = GetPlaneStride 0 f /\
  GetPlaneData 0 f = Some 0 /\
  (0 <= width format -> 0 <= height format ->
   width format * height format * 4 < 2 ^ 32 ->
     stride (frame_info_ f) * height (frame_info_ f) = GetPlaneSize 0 f).
Proof.
  intros Hstate Hsup Hstride Hmade.
  unfold TPS_SetOutputFormat, TPS_GetOutputFormat in Hmade.
  rewrite (BlockState_eqb_neq _ _ Hstate), Hsup, Hstride in Hmade.
  cbn [negb fst Z.eqb tps_source tps_with_source output_format_] in Hmade.
  destruct (created_frame_size _ _ _ Hmade) as (Hinfo & Hsize & Hnz).
  unfold GetPlaneStride, GetPlaneData, GetPlaneSize, GetSize.
  rewrite Hsize, Hinfo. clear Hmade Hsize Hinfo f.
  unfold GetFrameSize, default_stride, with_stride in *.
  cbn [width height stride pixel_format] in *.
  change (0 <? 0) with false. change (0 =? 0) with true. cbn iota.
  split; [destruct (pixel_format format); try discriminate; reflexivity|].
  split; [destruct (pixel_format format); try discriminate; reflexivity|].
  intros Hw Hh Hfit. unfold mul_u32 in *.
  assert (Hx : 0 <= width format * height format)
    by (apply Z.mul_nonneg_nonneg; assumption).
  assert (Hpos : 0 < height format).
  { destruct (Z.eq_dec (height format) 0) as [E | Hne]; [|lia].
    exfalso. apply Hnz. rewrite E, Z.mul_0_r. unfold wrap32.
    destruct (pixel_format format); reflexivity. }
  assert (Hwx : width format <= width format * height format) by nia.
  rewrite (wrap32_small (width format * height format)) by lia.
  destruct (pixel_format format); try discriminate;
    rewrite ?(wrap32_small (width format * 3)), ?(wrap32_small (width format * 4)),
      ?(wrap32_small (width format * 2)),
      ?(wrap32_small (width format * height format * 3)),
      ?(wrap32_small (width format * height format * 4)),
      ?(wrap32_small (width format * height format * 2)) by lia;
    lia.
Qed.

Lemma TPS_stride_matches_plane_witness :
  stride (mkInfo RGB24 640 480) = 0 /\
  GetPlaneStride 0 {| frame_info_ := with_stride 1920 (mkInfo RGB24 640 480);
                      size_ := 921600 |} = 1920.
Proof.
  split; [reflexivity|].
  destruct (TPS_stride_matches_plane (mkInfo RGB24 640 480) (new_TestPatternSource 0) true
              {| frame_info_ := with_stride 1920 (mkInfo RGB24 640 480);
                 size_ := 921600 |}) as (Hs & _ & _).
  - vm_compute. discriminate.
  - reflexivity.
  - reflexivity.
  - vm_compute. reflexivity.
  - rewrite <- Hs. reflexivity.
Defined.
